(** * Multifolderclone service-account tooling: a shallow embedding

    The three scripts of the repository
      - [makesakeys.py]            (discovery mode: one new key per matching account),
      - [removesakeys.py]          (delete every user-managed key of matching accounts),
      - [serviceaccountfactory.py] (factory mode: ensure accounts, clear keys, new keys)
    are sequences of calls to the IAM admin client wrapped in loops, pauses
    and try/except blocks.  They are embedded here as functions in a small
    state-and-trace monad over an abstract provider: every client call, every
    [time.sleep], every file write and every classifying console message is
    recorded, in order, in the trace of the run.  The [tqdm] progress bar is
    console decoration only and is left out.

    Python [while] loops carry a fuel argument; running out of fuel is the
    outcome [None] and stands for a loop that is still running.  Durations
    are exact rationals: [1 # 10] is the literal [0.1] of the scripts, and
    [backoff_factor ** attempt] is a rational power. *)

From Stdlib Require Import ZArith QArith Qpower Strings.String Strings.Ascii DecimalString Lia.
From stdpp Require Import base list strings gmap.

Open Scope string_scope.
Open Scope list_scope.

(** ** Strings as the scripts use them *)

Module PyStr.

(** [s.split(sep)] for a one-character separator: never the empty list. *)
Fixpoint split (sep : ascii) (s : string) : list string :=
  match s with
  | EmptyString => [EmptyString]
  | String c s' =>
      if Ascii.eqb c sep then EmptyString :: split sep s'
      else match split sep s' with
           | [] => [String c EmptyString]
           | h :: t => String c h :: t
           end
  end.

(** [s.split(sep)[0]] and [s.split(sep)[-1]]. *)
Definition first_field (sep : ascii) (s : string) : string :=
  hd EmptyString (split sep s).

Definition last_field (sep : ascii) (s : string) : string :=
  List.last (split sep s) EmptyString.

(** [s.startswith(p)]: exact, case-sensitive comparison of the leading
    characters; nothing in [p] is a pattern. *)
Definition startswith (s p : string) : bool := String.prefix p s.

Definition lower_ascii (c : ascii) : ascii :=
  let n := nat_of_ascii c in
  if (65 <=? n)%nat && (n <=? 90)%nat then ascii_of_nat (n + 32) else c.

(** [s.lower()] on ASCII text (provider messages are ASCII). *)
Fixpoint lower (s : string) : string :=
  match s with
  | EmptyString => EmptyString
  | String c s' => String (lower_ascii c) (lower s')
  end.

(** [needle in hay]. *)
Fixpoint contains (needle hay : string) : bool :=
  String.prefix needle hay ||
  match hay with
  | EmptyString => false
  | String _ hay' => contains needle hay'
  end.

Definition is_digit (c : ascii) : bool :=
  let n := nat_of_ascii c in (48 <=? n)%nat && (n <=? 57)%nat.

(** [int(s)] on a decimal numeral; [None] is Python's [ValueError]. *)
Definition int (s : string) : option nat :=
  match s with
  | EmptyString => None
  | _ => Nat.of_uint <$> NilEmpty.uint_of_string s
  end.

(** The format [{n:03d}]: decimal, left-padded with zeros to width 3
    and never truncated. *)
Definition fmt_03d (n : nat) : string :=
  let d := NilEmpty.string_of_uint (Nat.to_uint n) in
  match String.length d with
  | 1 => "00" +:+ d
  | 2 => "0" +:+ d
  | _ => d
  end.

Definition cont (b : ascii) : bool :=
  let n := nat_of_ascii b in (128 <=? n)%nat && (n <=? 191)%nat.

Definition in_range (lo hi : nat) (b : ascii) : bool :=
  let n := nat_of_ascii b in (lo <=? n)%nat && (n <=? hi)%nat.

(** Well-formed UTF-8 (no overlong forms, no surrogates, at most U+10FFFF). *)
Fixpoint utf8_valid (s : string) : bool :=
  match s with
  | EmptyString => true
  | String b0 r0 =>
      if in_range 0 127 b0 then utf8_valid r0
      else match r0 with
      | EmptyString => false
      | String b1 r1 =>
          if in_range 194 223 b0 then cont b1 && utf8_valid r1
          else match r1 with
          | EmptyString => false
          | String b2 r2 =>
              if in_range 224 239 b0 then
                (if in_range 224 224 b0 then in_range 160 191 b1
                 else if in_range 237 237 b0 then in_range 128 159 b1
                 else cont b1)
                && cont b2 && utf8_valid r2
              else match r2 with
              | EmptyString => false
              | String b3 r3 =>
                  in_range 240 244 b0 &&
                  (if in_range 240 240 b0 then in_range 144 191 b1
                   else if in_range 244 244 b0 then in_range 128 143 b1
                   else cont b1)
                  && cont b2 && cont b3 && utf8_valid r3
              end
          end
      end
  end.

(** [data.decode('utf-8')]; [None] is [UnicodeDecodeError].  Text is kept
    in its UTF-8 encoding, so decoding a valid byte string is the identity. *)
Definition decode_utf8 (data : string) : option string :=
  if utf8_valid data then Some data else None.

(** [str(n)] for a natural number. *)
Definition str_of_nat (n : nat) : string :=
  NilEmpty.string_of_uint (Nat.to_uint n).

(** [os.path.join(dir, file)] on POSIX: an absolute [file] discards [dir]. *)
Definition path_join (dir file : string) : string :=
  if String.prefix "/" file then file else dir +:+ "/" +:+ file.

(** [s[len(p):]] when [s] starts with [p]. *)
Fixpoint strip_prefix (p s : string) : option string :=
  match p, s with
  | EmptyString, _ => Some s
  | String a p', String b s' => if Ascii.eqb a b then strip_prefix p' s' else None
  | String _ _, EmptyString => None
  end.

(** Insertion at the last admissible place keeps equal keys in their
    original order, as Python's stable [sorted] does. *)
Section Sorted.
Context {A : Type} (leb : A -> A -> bool).

Fixpoint insert_sorted (x : A) (l : list A) : list A :=
  match l with
  | [] => [x]
  | y :: l' => if leb y x then y :: insert_sorted x l' else x :: l
  end.

Definition sorted (l : list A) : list A :=
  fold_left (fun acc x => insert_sorted x acc) l [].

End Sorted.

End PyStr.

(** ** The provider, seen from the scripts *)

(** The exception classes of [google.api_core.exceptions] and of the
    interpreter that the [except] clauses of the scripts tell apart.
    [RetryError] derives from [GoogleAPIError] but not from
    [GoogleAPICallError]; every class here derives from [Exception]. *)
Inductive exn_class : Type :=
  | Aborted | DeadlineExceeded | ServiceUnavailable
  | InvalidArgument | AlreadyExists | PermissionDenied | NotFound
  | OtherAPICallError
  | RetryError
  | UnicodeDecodeError | OSError | ValueError | OtherException.

(** A raised exception: its class and [str(e)]. *)
Record exn : Type := Raised { class : exn_class; text : string }.

Definition is_GoogleAPICallError (c : exn_class) : bool :=
  match c with
  | Aborted | DeadlineExceeded | ServiceUnavailable
  | InvalidArgument | AlreadyExists | PermissionDenied | NotFound
  | OtherAPICallError => true
  | _ => false
  end.

(** [iam_admin_v1.ServiceAccount], reduced to the fields the scripts read. *)
Record ServiceAccount : Type := { email : string; display_name : string }.

(** The requests sent to the IAM admin client. *)
Inductive request : Type :=
  | ListServiceAccounts (name : string)
  | CreateServiceAccount (name account_id : string)
  | ListServiceAccountKeys (name : string)
  | CreateServiceAccountKey (name : string)
  | DeleteServiceAccountKey (name : string).

(** Console messages that classify an outcome, one constructor per message. *)
Inductive msg : Type :=
  | Searching (project_id prefix : string)
  | ListDenied
  | ListFailed
  | NoneFound (project_id prefix : string)
  | Found (n : nat)
  | TransientError (sa_email : string) (attempt retries : nat) (sleep_time : Q)
  | SevereError (sa_email : string)
  | RetriesExhausted (sa_email : string)
  | KeysDeleted (sa_email : string) (n : Z)
  | NoKeysFound (sa_email : string)
  | AccountCreateError (sa_name : string)
  | KeyLimitReached (sa_email : string)
  | KeyArgumentError (sa_email : string)
  | KeyUnknownError (sa_email : string)
  | FetchingAccounts
  | AllAccountsExist
  | MissingAccounts (n : nat)
  | Revalidating
  | StepError
  | PassClean
  | PassFailed (n : nat).

(** What a run does that can be observed from outside. *)
Inductive event : Type :=
  | Call (r : request)
  | Sleep (seconds : Q)
  | Print (m : msg)
  | WriteFile (path content : string).

(** The capabilities the scripts consume: the IAM admin client and the local
    file system, over a state [W] owned by the outside world.  A call either
    raises or returns.  Key listings are those of user-managed keys, given by
    key name; a created key is given by its [private_key_data] bytes. *)
Class Provider (W : Type) : Type := {
  iam_list_service_accounts : string -> W -> (exn + list ServiceAccount) * W;
  iam_create_service_account : string -> string -> W -> (exn + unit) * W;
  iam_list_service_account_keys : string -> W -> (exn + list string) * W;
  iam_create_service_account_key : string -> W -> (exn + string) * W;
  iam_delete_service_account_key : string -> W -> (exn + unit) * W;
  open_write : string -> string -> W -> (exn + unit) * W
}.

(** ** The monad of a run: provider state threaded, events appended *)

Definition M (W A : Type) : Type := W -> A * W * list event.

Definition ret {W A} (a : A) : M W A := fun w => (a, w, []).

Definition bind {W A B} (m : M W A) (k : A -> M W B) : M W B :=
  fun w => let '(a, w1, t1) := m w in
           let '(b, w2, t2) := k a w1 in
           (b, w2, t1 ++ t2).

(** Propagate an exception: what Python does with no handler in scope. *)
Definition bind_ok {W A B} (m : M W (exn + A)) (k : A -> M W (exn + B)) : M W (exn + B) :=
  bind m (fun r => match r with inl e => ret (inl e) | inr a => k a end).

Definition emit {W} (e : event) : M W unit := fun w => (tt, w, [e]).

Definition sleep {W} (seconds : Q) : M W unit := emit (Sleep seconds).

Definition print {W} (m : msg) : M W unit := emit (Print m).

(** [time.sleep(seconds)] on a computed length: a negative length raises
    [ValueError] and no time passes. *)
Definition negative_sleep : exn :=
  Raised ValueError "sleep length must be non-negative".

Definition time_sleep {W} (seconds : Q) : M W (exn + unit) :=
  if Qle_bool 0 seconds
  then fun w => (inr tt, w, [Sleep seconds])
  else fun w => (inl negative_sleep, w, []).

(** An action of the outside world, recorded as [e] whether it raises or not. *)
Definition perform {W A} (e : event) (f : W -> (exn + A) * W) : M W (exn + A) :=
  fun w => let '(a, w') := f w in (a, w', [e]).

Definition invoke {W A} (r : request) (f : W -> (exn + A) * W) : M W (exn + A) :=
  perform (Call r) f.

Notation "'let!' x ':=' m 'in' k" := (bind m (fun x => k))
  (at level 10, x name, m at level 100, k at level 200, only parsing).
Notation "'let?' x ':=' m 'in' k" := (bind_ok m (fun x => k))
  (at level 10, x name, m at level 100, k at level 200, only parsing).

(** Projections of a finished run. *)
Definition result {W A} (r : A * W * list event) : A := r.1.1.
Definition world {W A} (r : A * W * list event) : W := r.1.2.
Definition trace {W A} (r : A * W * list event) : list event := r.2.

(** Observers on traces. *)
Definition is_delete (e : event) : bool :=
  match e with Call (DeleteServiceAccountKey _) => true | _ => false end.

Definition is_key_listing (e : event) : bool :=
  match e with Call (ListServiceAccountKeys _) => true | _ => false end.

Definition is_create_account (e : event) : bool :=
  match e with Call (CreateServiceAccount _ _) => true | _ => false end.

Definition is_write (e : event) : bool :=
  match e with WriteFile _ _ => true | _ => false end.

Definition deletes (t : list event) : nat := length (List.filter is_delete t).

Definition key_listings (t : list event) : nat := length (List.filter is_key_listing t).

Definition sleeps (t : list event) : list Q :=
  omap (fun e => match e with Sleep d => Some d | _ => None end) t.

(** ** The batch driver

    The loops at makesakeys.py:97-117, serviceaccountfactory.py:182-196 and
    serviceaccountfactory.py:203-224 are one loop written three times: a
    [for] over the queue that appends the items whose operation returned
    false to [failed_tasks], inside a [while key_..._queue:] that stops at
    the first pass without failures and otherwise sleeps 10 seconds and
    takes [failed_tasks] as its queue.  They differ in the operation, in the
    messages, and in the pause after every fourth item, which the key
    deletion loop does not have ([cooldown = None]). *)

Section BatchDriver.
Context {W Item : Type}.
Variable op : Item -> M W (exn + bool).
Variable cooldown : option Q.

(** [if (i + 1) % 4 == 0 and (i + 1) < total_in_queue: time.sleep(d)] *)
Definition rate_limit (d : Q) (i total_in_queue : nat) : M W unit :=
  if ((i + 1) mod 4 =? 0)%nat && (i + 1 <? total_in_queue)%nat
  then sleep d else ret tt.

(** [for i, item in enumerate(queue): ...], from index [i] on; the value
    is [failed_tasks]. *)
Fixpoint process_queue (total_in_queue i : nat) (queue : list Item)
  : M W (exn + list Item) :=
  match queue with
  | [] => ret (inr [])
  | item :: rest =>
      let? ok := op item in
      let! _ := match cooldown with
                | Some d => rate_limit d i total_in_queue
                | None => ret tt
                end in
      let? failed_tasks := process_queue total_in_queue (S i) rest in
      ret (inr (if ok : bool then failed_tasks else item :: failed_tasks))
  end.

Definition run_pass (queue : list Item) : M W (exn + list Item) :=
  process_queue (length queue) 0 queue.

(** [while queue: ...]; the value is the number of passes made, which the
    scripts do not compute but which every run has. *)
Fixpoint retry_until_clean (fuel : nat) (queue : list Item)
  : M W (option (exn + nat)) :=
  match queue with
  | [] => ret (Some (inr 0%nat))
  | _ :: _ =>
      match fuel with
      | O => ret None
      | S fuel' =>
          let! r := run_pass queue in
          match r with
          | inl e => ret (Some (inl e))
          | inr [] =>
              let! _ := print PassClean in
              ret (Some (inr 1%nat))
          | inr ((_ :: _) as failed_tasks) =>
              let! _ := print (PassFailed (length failed_tasks)) in
              let! _ := sleep 10 in
              let! r' := retry_until_clean fuel' failed_tasks in
              ret (sum_map id S <$> r')
          end
      end
  end.

End BatchDriver.

(** ** removesakeys.py *)

Module Removesakeys.
Section Script.
Context {W : Type} `{Provider W}.

(** removesakeys.py:10-33.  [inl 1] is [sys.exit(1)]. *)
Definition find_target_service_accounts (project_id prefix : string)
  : M W (Z + list ServiceAccount) :=
  let! _ := print (Searching project_id prefix) in
  let name := "projects/" +:+ project_id in
  let! r := invoke (ListServiceAccounts name) (iam_list_service_accounts name) in
  match r with
  | inr accounts =>
      ret (inr (fold_left
                  (fun target_accounts account =>
                     let account_name := PyStr.first_field "@" (email account) in
                     if PyStr.startswith account_name prefix
                     then target_accounts ++ [account]
                     else target_accounts)
                  accounts []))
  | inl e =>
      let! _ := print (match class e with
                       | PermissionDenied => ListDenied
                       | _ => ListFailed
                       end) in
      ret (inl 1%Z)
  end.

Definition is_transient (c : exn_class) : bool :=
  match c with
  | Aborted | DeadlineExceeded | ServiceUnavailable => true
  | _ => false
  end.

(** removesakeys.py:56-60, with the running [keys_deleted_count]. *)
Fixpoint delete_each (key_names : list string) (keys_deleted_count : Z)
  : M W (exn + Z) :=
  match key_names with
  | [] => ret (inr keys_deleted_count)
  | key_name :: rest =>
      let? _ := invoke (DeleteServiceAccountKey key_name)
                       (iam_delete_service_account_key key_name) in
      let! _ := sleep (1 # 10) in
      delete_each rest (keys_deleted_count + 1)%Z
  end.

(** removesakeys.py:41-62, the body of the [try]: one list-then-delete
    sequence, the count starting again from 0. *)
Definition list_then_delete (sa_email : string) : M W (exn + Z) :=
  let keys_deleted_count := 0%Z in
  let sa_full_name := "projects/-/serviceAccounts/" +:+ sa_email in
  let? key_names := invoke (ListServiceAccountKeys sa_full_name)
                           (iam_list_service_account_keys sa_full_name) in
  match key_names with
  | [] => ret (inr 0%Z)
  | _ :: _ => delete_each key_names keys_deleted_count
  end.

(** removesakeys.py:39-74, the [for attempt in range(retries)] loop from
    [attempt] on, [remaining] attempts left.  An exception that is neither
    transient nor a [GoogleAPICallError] has no handler and propagates, and
    so does the [ValueError] that [time.sleep] raises inside the handler
    when [backoff_factor ** attempt] is negative. *)
Fixpoint attempts (sa_email : string) (retries : nat) (backoff_factor : Q)
    (remaining attempt : nat) : M W (exn + Z) :=
  match remaining with
  | O =>
      let! _ := print (RetriesExhausted sa_email) in
      ret (inr (-1)%Z)
  | S remaining' =>
      let! r := list_then_delete sa_email in
      match r with
      | inr n => ret (inr n)
      | inl e =>
          if is_transient (class e) then
            let sleep_time := Qpower backoff_factor (Z.of_nat attempt) in
            let! _ := print (TransientError sa_email (attempt + 1) retries sleep_time) in
            let? _ := time_sleep sleep_time in
            attempts sa_email retries backoff_factor remaining' (S attempt)
          else if is_GoogleAPICallError (class e) then
            let! _ := print (SevereError sa_email) in
            ret (inr (-1)%Z)
          else ret (inl e)
      end
  end.

(** removesakeys.py:35; the defaults are [retries=3, backoff_factor=1.5]. *)
Definition delete_keys_for_account (sa_email : string) (retries : nat)
    (backoff_factor : Q) : M W (exn + Z) :=
  attempts sa_email retries backoff_factor retries 0.

Definition default_retries : nat := 3.
Definition default_backoff_factor : Q := 3 # 2.

(** removesakeys.py:128-142; the value is [total_keys_deleted]. *)
Fixpoint main_delete_loop (target_accounts : list ServiceAccount)
    (total_keys_deleted : Z) : M W (exn + Z) :=
  match target_accounts with
  | [] => ret (inr total_keys_deleted)
  | account :: rest =>
      let sa_email := email account in
      let? deleted_count :=
        delete_keys_for_account sa_email default_retries default_backoff_factor in
      let! _ := (if (0 <? deleted_count)%Z then print (KeysDeleted sa_email deleted_count)
                 else if (deleted_count =? 0)%Z then print (NoKeysFound sa_email)
                 else ret tt) in
      let! _ := sleep (1 # 5) in
      main_delete_loop rest
        (if (0 <? deleted_count)%Z then total_keys_deleted + deleted_count
         else total_keys_deleted)%Z
  end.

End Script.
End Removesakeys.

(** ** makesakeys.py (discovery mode) *)

Module Makesakeys.

(** The dictionaries [{'name': account_id, 'email': sa.email}]. *)
Record sa_info : Type := { name : string; sa_email : string }.

Section Script.
Context {W : Type} `{Provider W}.

(** makesakeys.py:20-33, the body of the [try]. *)
Definition request_decode_write (sa_filename sa_full_name : string) : M W (exn + bool) :=
  let? private_key_data := invoke (CreateServiceAccountKey sa_full_name)
                                  (iam_create_service_account_key sa_full_name) in
  match PyStr.decode_utf8 private_key_data with
  | None => ret (inl (Raised UnicodeDecodeError "invalid utf-8 data"))
  | Some key_content_as_string =>
      let? _ := perform (WriteFile sa_filename key_content_as_string)
                        (open_write sa_filename key_content_as_string) in
      ret (inr true)
  end.

(** makesakeys.py:16-44. *)
Definition create_and_save_key (project_id sa_email sa_name : string) : M W bool :=
  let sa_filename := PyStr.path_join "accounts" (sa_name +:+ ".json") in
  let sa_full_name := "projects/" +:+ project_id +:+ "/serviceAccounts/" +:+ sa_email in
  let! r := request_decode_write sa_filename sa_full_name in
  match r with
  | inr b => ret b
  | inl e =>
      match class e with
      | InvalidArgument =>
          let! _ := (if PyStr.contains "key limit reached" (PyStr.lower (text e))
                     then print (KeyLimitReached sa_email)
                     else print (KeyArgumentError sa_email)) in
          ret true
      | _ =>
          let! _ := print (KeyUnknownError sa_email) in
          ret false
      end
  end.

(** makesakeys.py:71-88.  [inl 1] is [sys.exit(message)]. *)
Definition main_discover (project_id prefix : string) : M W (Z + list sa_info) :=
  let! _ := print (Searching project_id prefix) in
  let parent := "projects/" +:+ project_id in
  let! r := invoke (ListServiceAccounts parent) (iam_list_service_accounts parent) in
  match r with
  | inl e =>
      let! _ := print ListFailed in
      ret (inl 1%Z)
  | inr all_sas_in_project =>
      let target_sas :=
        fold_left
          (fun target_sas sa =>
             let account_id := PyStr.first_field "@" (email sa) in
             if PyStr.startswith account_id prefix
             then target_sas ++ [{| name := account_id; sa_email := email sa |}]
             else target_sas)
          all_sas_in_project [] in
      match target_sas with
      | [] =>
          let! _ := print (NoneFound project_id prefix) in
          ret (inl 1%Z)
      | _ :: _ =>
          let! _ := print (Found (length target_sas)) in
          ret (inr target_sas)
      end
  end.

(** makesakeys.py:96, [sorted(target_sas, key=lambda x: x['name'])]. *)
Definition key_creation_queue (target_sas : list sa_info) : list sa_info :=
  PyStr.sorted (fun a b => String.leb (name a) (name b)) target_sas.

(** makesakeys.py:102, the per-item work. *)
Definition create_key_for (project_id : string) (sa_info : sa_info) : M W (exn + bool) :=
  let! ok := create_and_save_key project_id (sa_email sa_info) (name sa_info) in
  ret (inr ok).

(** makesakeys.py:97-117. *)
Definition main_create_keys (fuel : nat) (project_id : string)
    (queue : list sa_info) : M W (option (exn + nat)) :=
  retry_until_clean (create_key_for project_id) (Some 10%Q) fuel queue.

End Script.
End Makesakeys.

(** ** serviceaccountfactory.py (factory mode) *)

Module Factory.
Section Script.
Context {W : Type} `{Provider W}.

Definition is_transient (c : exn_class) : bool :=
  match c with
  | Aborted | DeadlineExceeded | ServiceUnavailable | RetryError => true
  | _ => false
  end.

(** serviceaccountfactory.py:40-42. *)
Fixpoint delete_each (key_names : list string) : M W (exn + bool) :=
  match key_names with
  | [] => ret (inr true)
  | key_name :: rest =>
      let? _ := invoke (DeleteServiceAccountKey key_name)
                       (iam_delete_service_account_key key_name) in
      let! _ := sleep (1 # 20) in
      delete_each rest
  end.

(** serviceaccountfactory.py:29-44, the body of the [try]. *)
Definition list_then_delete (sa_full_name : string) : M W (exn + bool) :=
  let? key_names := invoke (ListServiceAccountKeys sa_full_name)
                           (iam_list_service_account_keys sa_full_name) in
  match key_names with
  | [] => ret (inr true)
  | _ :: _ => delete_each key_names
  end.

(** serviceaccountfactory.py:27-56, [for attempt in range(retries)] from
    [attempt] on.  Every exception of the [try] body is handled; the only
    one that leaves the function is the [ValueError] that [time.sleep]
    raises inside the handler when [backoff_factor ** attempt] is negative. *)
Fixpoint attempts (sa_email sa_full_name : string) (retries : nat)
    (backoff_factor : Q) (remaining attempt : nat) : M W (exn + bool) :=
  match remaining with
  | O =>
      let! _ := print (RetriesExhausted sa_email) in
      ret (inr false)
  | S remaining' =>
      let! r := list_then_delete sa_full_name in
      match r with
      | inr b => ret (inr b)
      | inl e =>
          if is_transient (class e) then
            let sleep_time := Qpower backoff_factor (Z.of_nat attempt) in
            let! _ := print (TransientError sa_email (attempt + 1) retries sleep_time) in
            let? _ := time_sleep sleep_time in
            attempts sa_email sa_full_name retries backoff_factor remaining' (S attempt)
          else
            let! _ := print (SevereError sa_email) in
            ret (inr false)
      end
  end.

(** serviceaccountfactory.py:20; the defaults are [retries=3, backoff_factor=2]. *)
Definition delete_all_user_keys_with_retry (project_id sa_email : string)
    (retries : nat) (backoff_factor : Q) : M W (exn + bool) :=
  let sa_full_name := "projects/" +:+ project_id +:+ "/serviceAccounts/" +:+ sa_email in
  attempts sa_email sa_full_name retries backoff_factor retries 0.

Definition default_retries : nat := 3.
Definition default_backoff_factor : Q := 2.

(** serviceaccountfactory.py:58-74. *)
Definition create_service_account (project_id prefix : string) (number : nat)
  : M W bool :=
  let sa_name := prefix +:+ "-" +:+ PyStr.fmt_03d number in
  let parent := "projects/" +:+ project_id in
  let! r := invoke (CreateServiceAccount parent sa_name)
                   (iam_create_service_account parent sa_name) in
  match r with
  | inr _ =>
      let! _ := sleep (1 # 2) in
      ret true
  | inl e =>
      match class e with
      | AlreadyExists => ret true
      | _ =>
          let! _ := print (AccountCreateError sa_name) in
          ret false
      end
  end.

(** serviceaccountfactory.py:80-94, the body of the [try]. *)
Definition request_decode_write (sa_filename sa_full_name : string) : M W (exn + bool) :=
  let? private_key_data := invoke (CreateServiceAccountKey sa_full_name)
                                  (iam_create_service_account_key sa_full_name) in
  match PyStr.decode_utf8 private_key_data with
  | None => ret (inl (Raised UnicodeDecodeError "invalid utf-8 data"))
  | Some key_content_as_string =>
      let? _ := perform (WriteFile sa_filename key_content_as_string)
                        (open_write sa_filename key_content_as_string) in
      ret (inr true)
  end.

(** serviceaccountfactory.py:76-104. *)
Definition create_and_save_key (project_id sa_email : string) (number : nat) : M W bool :=
  let sa_filename := PyStr.path_join "accounts" (PyStr.str_of_nat number +:+ ".json") in
  let sa_full_name := "projects/" +:+ project_id +:+ "/serviceAccounts/" +:+ sa_email in
  let! r := request_decode_write sa_filename sa_full_name in
  match r with
  | inr b => ret b
  | inl e =>
      match class e with
      | InvalidArgument =>
          let! _ := (if PyStr.contains "key limit reached" (PyStr.lower (text e))
                     then print (KeyLimitReached sa_email)
                     else print (KeyArgumentError sa_email)) in
          ret false
      | _ =>
          let! _ := print (KeyUnknownError sa_email) in
          ret false
      end
  end.

(** serviceaccountfactory.py:132-133.  [range(1, n + 1)] is empty for [n <= 0]. *)
Definition sa_email_of (project_id sa_name : string) : string :=
  sa_name +:+ "@" +:+ project_id +:+ ".iam.gserviceaccount.com".

Definition target_sa_names (prefix : string) (total_target_count : Z) : gset string :=
  list_to_set ((fun i => prefix +:+ "-" +:+ PyStr.fmt_03d i)
                 <$> seq 1 (Z.to_nat total_target_count)).

Definition target_sa_emails (prefix project_id : string) (total_target_count : Z)
  : gset string :=
  set_map (sa_email_of project_id) (target_sa_names prefix total_target_count).

(** The characters that [re] may read as something other than themselves
    in a pattern; ["092"] is the backslash. *)
Definition regex_special (c : ascii) : bool :=
  existsb (Ascii.eqb c)
    ["."; "^"; "$"; "*"; "+"; "?"; "{"; "}"; "["; "]"; "092"; "|"; "("; ")"]%char.

(** A prefix that, spliced into a pattern, stands for itself. *)
Fixpoint regex_literal (prefix : string) : bool :=
  match prefix with
  | EmptyString => true
  | String c prefix' => negb (regex_special c) && regex_literal prefix'
  end.

(** serviceaccountfactory.py:155-157,
    [re.match(rf"({prefix}-(\d{{3}}))@", email)] followed by
    [int(match.group(2))], for a prefix that is [regex_literal]: the script
    splices the prefix into the pattern as it was typed, and [re] reads
    such a prefix as literal text; exactly three digits must stand between
    the hyphen and the [@].  A prefix with a special character is outside
    this definition: what [re] makes of it (another match, no match, or
    [re.error]) is not modelled, and the properties that rest on the match
    assume [regex_literal]. *)
Definition match_number (prefix email : string) : option nat :=
  match PyStr.strip_prefix (prefix +:+ "-") email with
  | Some (String d1 (String d2 (String d3 (String "@"%char _)))) =>
      if PyStr.is_digit d1 && PyStr.is_digit d2 && PyStr.is_digit d3
      then PyStr.int (String d1 (String d2 (String d3 EmptyString)))
      else None
  | _ => None
  end.

(** serviceaccountfactory.py:162-168. *)
Fixpoint create_accounts (project_id prefix : string) (total_to_create i : nat)
    (numbers : list nat) : M W unit :=
  match numbers with
  | [] => ret tt
  | number :: rest =>
      let! _ := create_service_account project_id prefix number in
      let! _ := rate_limit 20 i total_to_create in
      create_accounts project_id prefix total_to_create (S i) rest
  end.

(** serviceaccountfactory.py:140-175, one turn of [while True]; the value
    [true] is the [break]. *)
Definition ensure_accounts_turn (project_id prefix : string)
    (target_sa_emails : gset string) : M W bool :=
  let! _ := print FetchingAccounts in
  let parent := "projects/" +:+ project_id in
  let! r := invoke (ListServiceAccounts parent) (iam_list_service_accounts parent) in
  match r with
  | inl e =>
      let! _ := print StepError in
      let! _ := sleep 10 in
      ret false
  | inr all_sas_in_project =>
      let existing_sa_emails : gset string := list_to_set (email <$> all_sas_in_project) in
      let missing_sa_emails := target_sa_emails ∖ existing_sa_emails in
      if decide (missing_sa_emails = ∅) then
        let! _ := print AllAccountsExist in
        ret true
      else
        let! _ := print (MissingAccounts (size missing_sa_emails)) in
        let sa_to_create :=
          fold_left
            (fun sa_to_create email =>
               match match_number prefix email with
               | Some number => sa_to_create ++ [number]
               | None => sa_to_create
               end)
            (elements missing_sa_emails) [] in
        let total_to_create := length sa_to_create in
        let! _ := create_accounts project_id prefix total_to_create 0
                    (PyStr.sorted Nat.leb sa_to_create) in
        let! _ := print Revalidating in
        let! _ := sleep 5 in
        ret false
  end.

(** serviceaccountfactory.py:139-175. *)
Fixpoint main_ensure_accounts (fuel : nat) (project_id prefix : string)
    (target_sa_emails : gset string) : M W (option unit) :=
  match fuel with
  | O => ret None
  | S fuel' =>
      let! done := ensure_accounts_turn project_id prefix target_sa_emails in
      if done : bool then ret (Some tt)
      else main_ensure_accounts fuel' project_id prefix target_sa_emails
  end.

(** serviceaccountfactory.py:186, the per-item work of step 2. *)
Definition clear_keys_for (project_id sa_email : string) : M W (exn + bool) :=
  delete_all_user_keys_with_retry project_id sa_email
    default_retries default_backoff_factor.

(** serviceaccountfactory.py:181-196. *)
Definition main_clear_keys (fuel : nat) (project_id : string)
    (key_deletion_queue : list string) : M W (option (exn + nat)) :=
  retry_until_clean (clear_keys_for project_id) None fuel key_deletion_queue.

(** serviceaccountfactory.py:208-211, the per-item work of step 3;
    [int] of a non-numeral raises [ValueError] outside any handler. *)
Definition create_key_for (project_id sa_name : string) : M W (exn + bool) :=
  match PyStr.int (PyStr.last_field "-" sa_name) with
  | None => ret (inl (Raised ValueError "invalid literal for int()"))
  | Some number =>
      let sa_email := sa_email_of project_id sa_name in
      let! ok := create_and_save_key project_id sa_email number in
      ret (inr ok)
  end.

(** serviceaccountfactory.py:202-224. *)
Definition main_create_keys (fuel : nat) (project_id : string)
    (key_creation_queue : list string) : M W (option (exn + nat)) :=
  retry_until_clean (create_key_for project_id) (Some 10%Q) fuel key_creation_queue.

End Script.
End Factory.

(** ** Two providers to run the scripts against *)

#[global] Instance exn_class_eq_dec : EqDecision exn_class.
Proof. solve_decision. Defined.

#[global] Instance exn_eq_dec : EqDecision exn.
Proof. solve_decision. Defined.

#[global] Instance request_eq_dec : EqDecision request.
Proof. solve_decision. Defined.

#[global] Instance Q_eq_dec : EqDecision Q.
Proof. solve_decision. Defined.

(** A provider that is down: every call raises [ServiceUnavailable]. *)
Module Outage.

Definition unavailable : exn := Raised ServiceUnavailable "503 service unavailable".

#[global] Instance provider : Provider unit := {|
  iam_list_service_accounts _ w := (inl unavailable, w);
  iam_create_service_account _ _ w := (inl unavailable, w);
  iam_list_service_account_keys _ w := (inl unavailable, w);
  iam_create_service_account_key _ w := (inl unavailable, w);
  iam_delete_service_account_key _ w := (inl unavailable, w);
  open_write _ _ w := (inr tt, w)
|}.

End Outage.

(** An in-memory project with fault injection. *)
Module Fake.

Record state : Type := {
  project : string;
  accounts : list ServiceAccount;
  (** user-managed keys: account email and key name *)
  keys : list (string * string);
  (** each entry makes the next call equal to the request raise, once *)
  faults : list (request * exn);
  files : list (string * string);
  issued : nat
}.

Definition with_faults (fs : list (request * exn)) (w : state) : state :=
  {| project := project w; accounts := accounts w; keys := keys w;
     faults := fs; files := files w; issued := issued w |}.

Fixpoint take_fault (r : request) (fs : list (request * exn))
  : option (exn * list (request * exn)) :=
  match fs with
  | [] => None
  | (r', e) :: fs' =>
      if decide (r' = r) then Some (e, fs')
      else match take_fault r fs' with
           | Some (e', fs'') => Some (e', (r', e) :: fs'')
           | None => None
           end
  end.

(** Run [normal] unless a fault is pending for the request. *)
Definition guarded {A} (r : request) (normal : state -> (exn + A) * state)
  : state -> (exn + A) * state :=
  fun w => match take_fault r (faults w) with
           | Some (e, fs) => (inl e, with_faults fs w)
           | None => normal w
           end.

Definition has_account (w : state) (sa_email : string) : bool :=
  existsb (fun a => String.eqb (email a) sa_email) (accounts w).

Definition keys_of (w : state) (sa_email : string) : list string :=
  snd <$> List.filter (fun k => String.eqb (fst k) sa_email) (keys w).

Definition not_found : exn := Raised NotFound "404 not found".

Definition list_accounts (name : string) (w : state) : (exn + list ServiceAccount) * state :=
  if String.eqb name ("projects/" +:+ project w) then (inr (accounts w), w)
  else (inl (Raised PermissionDenied "403 permission denied"), w).

Definition create_account (name account_id : string) (w : state) : (exn + unit) * state :=
  let sa_email := account_id +:+ "@" +:+ project w +:+ ".iam.gserviceaccount.com" in
  if has_account w sa_email then (inl (Raised AlreadyExists "409 already exists"), w)
  else (inr tt,
        {| project := project w;
           accounts := accounts w ++ [{| email := sa_email; display_name := account_id |}];
           keys := keys w; faults := faults w; files := files w; issued := issued w |}).

Definition list_keys (name : string) (w : state) : (exn + list string) * state :=
  let sa_email := PyStr.last_field "/" name in
  if has_account w sa_email then (inr (keys_of w sa_email), w) else (inl not_found, w).

Definition create_key (name : string) (w : state) : (exn + string) * state :=
  let sa_email := PyStr.last_field "/" name in
  if negb (has_account w sa_email) then (inl not_found, w)
  else if (10 <=? length (keys_of w sa_email))%nat
  then (inl (Raised InvalidArgument "400 Precondition check failed: Key limit reached"), w)
  else
    let key_name := "projects/" +:+ project w +:+ "/serviceAccounts/" +:+ sa_email
                    +:+ "/keys/" +:+ PyStr.str_of_nat (issued w) in
    (inr ("private key of " +:+ key_name),
     {| project := project w; accounts := accounts w;
        keys := keys w ++ [(sa_email, key_name)];
        faults := faults w; files := files w; issued := S (issued w) |}).

Definition delete_key (name : string) (w : state) : (exn + unit) * state :=
  if existsb (fun k => String.eqb (snd k) name) (keys w)
  then (inr tt,
        {| project := project w; accounts := accounts w;
           keys := List.filter (fun k => negb (String.eqb (snd k) name)) (keys w);
           faults := faults w; files := files w; issued := issued w |})
  else (inl not_found, w).

Definition write (path content : string) (w : state) : (exn + unit) * state :=
  (inr tt,
   {| project := project w; accounts := accounts w; keys := keys w;
      faults := faults w;
      files := (path, content) :: List.filter (fun f => negb (String.eqb (fst f) path)) (files w);
      issued := issued w |}).

#[global] Instance provider : Provider state := {|
  iam_list_service_accounts name := guarded (ListServiceAccounts name) (list_accounts name);
  iam_create_service_account name account_id :=
    guarded (CreateServiceAccount name account_id) (create_account name account_id);
  iam_list_service_account_keys name := guarded (ListServiceAccountKeys name) (list_keys name);
  iam_create_service_account_key name := guarded (CreateServiceAccountKey name) (create_key name);
  iam_delete_service_account_key name := guarded (DeleteServiceAccountKey name) (delete_key name);
  open_write := write
|}.

Definition sa_email_of (project_id sa_name : string) : string :=
  sa_name +:+ "@" +:+ project_id +:+ ".iam.gserviceaccount.com".

Definition account (project_id sa_name : string) : ServiceAccount :=
  {| email := sa_email_of project_id sa_name; display_name := sa_name |}.

(** A project with the given account names, no keys, no pending fault. *)
Definition fresh (project_id : string) (sa_names : list string) : state :=
  {| project := project_id;
     accounts := account project_id <$> sa_names;
     keys := []; faults := []; files := []; issued := 0 |}.

Definition with_keys (ks : list (string * string)) (w : state) : state :=
  {| project := project w; accounts := accounts w; keys := ks;
     faults := faults w; files := files w; issued := issued w |}.

End Fake.

(** ** Vocabulary of the properties and the scenarios they are run on *)

(** The short name of an account: the part of its email before the first [@]. *)
Definition short_name (a : ServiceAccount) : string :=
  PyStr.first_field "@" (email a).

Definition matches (prefix : string) (a : ServiceAccount) : bool :=
  PyStr.startswith (short_name a) prefix.

(** A directory with names that differ from the prefix [sa] by case, by a
    would-be wildcard and by position. *)
Definition directory : Fake.state :=
  Fake.fresh "p" ["sa-001"; "SA-002"; "s*"; "xsa-3"; "sa"; "sb"].

(** The resource name under which the keys of an account are requested. *)
Definition key_resource (project_id sa_email : string) : string :=
  "projects/" +:+ project_id +:+ "/serviceAccounts/" +:+ sa_email.

(** *** The batch driver, in the words of its contract *)

Section Contract.
Context {W Item : Type}.
Variable op : Item -> M W (exn + bool).

(** The items of the queue whose operation returns failure, in queue order;
    each operation runs in the world its predecessors left. *)
Fixpoint failed_items (queue : list Item) (w : W) : list Item :=
  match queue with
  | [] => []
  | item :: rest =>
      let r := op item w in
      match result r with
      | inr false => item :: failed_items rest (world r)
      | _ => failed_items rest (world r)
      end
  end.

(** The world after the operations of a whole pass. *)
Fixpoint world_after (queue : list Item) (w : W) : W :=
  match queue with
  | [] => w
  | item :: rest => world_after rest (world (op item w))
  end.

(** No operation raises. *)
Definition returns : Prop :=
  forall item w, exists ok : bool, result (op item w) = inr ok.

(** Item [x] fails on every attempt. *)
Definition always_fails (x : Item) : Prop :=
  forall w, result (op x w) = inr false.

End Contract.

(** The events a pass is made of, the rest of the trace forgotten: the
    request that stands for an item, and the pauses of exactly [d] seconds. *)
Inductive mark : Type := Item_done | Pause.

Definition marks (is_item : event -> bool) (d : Q) (t : list event) : list mark :=
  omap (fun e => match e with
                 | Sleep d' => if decide (d' = d) then Some Pause else None
                 | _ => if is_item e then Some Item_done else None
                 end) t.

(** A pause after every fourth item that is not the last of the pass. *)
Definition cooldown_schedule_from (i total : nat) (n : nat) : list mark :=
  flat_map (fun j => Item_done ::
                     if ((j mod 4 =? 0)%nat && (j <? total)%nat)%bool then [Pause] else [])
           (seq (S i) n).

Definition cooldown_schedule (n : nat) : list mark := cooldown_schedule_from 0 n n.

Definition is_create_key (e : event) : bool :=
  match e with Call (CreateServiceAccountKey _) => true | _ => false end.

Section PassTrace.
Context {W Item : Type}.
Variable op : Item -> M W (exn + bool).

(** An operation that returns and whose trace shows one item and no pause
    of [d] seconds. *)
Definition one_item (is_item : event -> bool) (d : Q) (item : Item) : Prop :=
  forall w, (exists ok : bool, result (op item w) = inr ok)
            /\ marks is_item d (trace (op item w)) = [Item_done].

(** The traces of the operations of a pass, one after the other. *)
Fixpoint ops_trace (queue : list Item) (w : W) : list event :=
  match queue with
  | [] => []
  | item :: rest => trace (op item w) ++ ops_trace rest (world (op item w))
  end.

End PassTrace.

Definition is_pass_failed (e : event) : bool :=
  match e with Print (PassFailed _) => true | _ => false end.

(** A provider on which the key request for one account fails once: the
    world is the flag that the failure is still to come. *)
Module Flaky.

Definition target : string := key_resource "p" "sa-002@p.iam.gserviceaccount.com".

#[global] Instance provider : Provider bool := {|
  iam_list_service_accounts _ w := (inr [], w);
  iam_create_service_account _ _ w := (inr tt, w);
  iam_list_service_account_keys _ w := (inr [], w);
  iam_create_service_account_key name armed :=
    if armed && String.eqb name target
    then (inl (Raised ServiceUnavailable "503 service unavailable"), false)
    else (inr "key material", armed);
  iam_delete_service_account_key _ w := (inr tt, w);
  open_write _ _ w := (inr tt, w)
|}.

End Flaky.

#[global] Instance sa_info_eq_dec : EqDecision Makesakeys.sa_info.
Proof. solve_decision. Defined.

Definition discovered (project_id sa_name : string) : Makesakeys.sa_info :=
  {| Makesakeys.name := sa_name;
     Makesakeys.sa_email := sa_name +:+ "@" +:+ project_id +:+ ".iam.gserviceaccount.com" |}.

Definition three_accounts : list Makesakeys.sa_info :=
  discovered "p" <$> ["sa-001"; "sa-002"; "sa-003"].


Definition nine_names : list string :=
  ["sa-001"; "sa-002"; "sa-003"; "sa-004"; "sa-005"; "sa-006"; "sa-007"; "sa-008"; "sa-009"].

Definition nine_accounts : Fake.state := Fake.fresh "p" nine_names.

(** A name whose last hyphen-separated field is a numeral. *)
Definition numbered (sa_name : string) : Prop :=
  is_Some (PyStr.int (PyStr.last_field "-" sa_name)).

(** Every delete call of the sequence returns, each in the world its
    predecessors left. *)
Fixpoint deletes_succeed {W} `{Provider W} (key_names : list string) (w : W) : Prop :=
  match key_names with
  | [] => True
  | key_name :: rest =>
      exists w', iam_delete_service_account_key key_name w = (inr tt, w')
                 /\ deletes_succeed rest w'
  end.

(** The key listing of the account raises in every world, with an exception
    of one of the given classes. *)
Definition listing_always_raises_one_of {W} `{Provider W}
    (classes : list exn_class) (name : string) : Prop :=
  forall w : W, exists e w',
    iam_list_service_account_keys name w = (inl e, w')
    /\ In (class e) classes.

Definition fatal_abort (sa_email : string) (e : event) : bool :=
  match e with
  | Print (SevereError s) => String.eqb s sa_email
  | _ => false
  end.

(** *** The retry policy of list-and-delete, in the words of its contract

    [loop remaining attempt] runs the attempts numbered [attempt],
    [attempt + 1], ... while [remaining] are left; [body] is one
    list-then-delete sequence.  The exception classes are given in three
    lists: those that make the function try again, those that make it
    return its failure value, those it does not handle. *)
Definition retry_policy {W A B : Type}
    (loop : nat -> nat -> M W (exn + B)) (body : M W (exn + A)) (failure : B)
    (retried aborted propagated : list exn_class)
    (sa_email : string) (retries : nat) (backoff_factor : Q) : Prop :=
  (** at most [remaining] attempts, one listing each *)
  (forall remaining attempt w,
      key_listings (trace (loop remaining attempt w)) <= remaining)
  (** failure only once the attempts are used up, or on an abort *)
  /\ (forall remaining attempt w,
        result (loop remaining attempt w) = inr failure ->
        key_listings (trace (loop remaining attempt w)) = remaining
        \/ existsb (fatal_abort sa_email) (trace (loop remaining attempt w)) = true)
  (** a retried error: the message, a sleep of [backoff_factor ** attempt],
      then the whole sequence again in the remaining attempts; a negative
      length makes the sleep raise, and the exception leaves the function *)
  /\ (forall remaining attempt w e,
        result (body w) = inl e -> In (class e) retried ->
        let sleep_time := Qpower backoff_factor (Z.of_nat attempt) in
        loop (S remaining) attempt w
        = if Qle_bool 0 sleep_time then
            let r := loop remaining (S attempt) (world (body w)) in
            (result r, world r,
             trace (body w)
             ++ [Print (TransientError sa_email (attempt + 1) retries sleep_time);
                 Sleep sleep_time]
             ++ trace r)
          else
            (inl negative_sleep, world (body w),
             trace (body w)
             ++ [Print (TransientError sa_email (attempt + 1) retries sleep_time)]))
  (** an aborting error: failure at once, nothing after the message *)
  /\ (forall remaining attempt w e,
        result (body w) = inl e -> In (class e) aborted ->
        loop (S remaining) attempt w
        = (inr failure, world (body w), trace (body w) ++ [Print (SevereError sa_email)]))
  (** an exception without handler leaves the function as it came *)
  /\ (forall remaining attempt w e,
        result (body w) = inl e -> In (class e) propagated ->
        loop (S remaining) attempt w = (inl e, world (body w), trace (body w)))
  (** no attempt left: failure *)
  /\ (forall attempt w,
        loop 0 attempt w = (inr failure, w, [Print (RetriesExhausted sa_email)]))
  (** every exception class is in one of the three lists *)
  /\ (forall c : exn_class, In c (retried ++ aborted ++ propagated)).

(** The outcome when every attempt is cut short by the listing:
    [retries] listings, the pauses [backoff_factor ** 0], ...,
    [backoff_factor ** (retries - 1)], then failure. *)
Definition exhausted {W B : Type} (run : M W (exn + B)) (failure : B)
    (retries : nat) (backoff_factor : Q) : Prop :=
  forall w,
    result (run w) = inr failure
    /\ key_listings (trace (run w)) = retries
    /\ sleeps (trace (run w))
       = (fun attempt => Qpower backoff_factor (Z.of_nat attempt)) <$> seq 0 retries.

(** One account with three user-managed keys; the first delete of the
    second key is cut short by [Aborted]. *)
Definition holder : string := "sa-001@p.iam.gserviceaccount.com".

Definition three_keys : Fake.state :=
  Fake.with_keys [(holder, "k1"); (holder, "k2"); (holder, "k3")]
    (Fake.fresh "p" ["sa-001"]).

Definition three_keys_one_abort : Fake.state :=
  Fake.with_faults [(DeleteServiceAccountKey "k2", Raised Aborted "409 aborted")]
    three_keys.

(** An account that already holds ten keys, and one whose key request is
    refused for a reason that has nothing to do with the key limit. *)
Definition ten_keys : Fake.state :=
  Fake.with_keys ((fun i => (holder, "k" +:+ PyStr.str_of_nat i)) <$> seq 0 10)
    (Fake.fresh "p" ["sa-001"]).

Definition refused : Fake.state :=
  Fake.with_faults
    [(CreateServiceAccountKey (key_resource "p" holder),
      Raised InvalidArgument "400 Invalid key algorithm")]
    (Fake.fresh "p" ["sa-001"]).

(** A project that already holds [sa-001 .. sa-999]. *)
Definition numbered_name (prefix : string) (i : nat) : string :=
  prefix +:+ "-" +:+ PyStr.fmt_03d i.

Definition almost_thousand : Fake.state :=
  Fake.fresh "p" (numbered_name "sa" <$> seq 1 999).


From Stdlib Require Import DecimalNat Sorting.Sorted Sorting.Permutation.
From stdpp Require Import sorting.

(** ** Vocabulary of the further properties *)

(** [c in s]. *)
Fixpoint occurs (c : ascii) (s : string) : bool :=
  match s with
  | EmptyString => false
  | String a s' => Ascii.eqb a c || occurs c s'
  end.

(** The indices, in ascending order, of the target names that have no
    account in a directory listing. *)
Definition listed (all_sas : list ServiceAccount) (sa_email : string) : bool :=
  existsb (fun a => String.eqb (email a) sa_email) all_sas.

Definition missing_indices (prefix project_id : string) (total : Z)
    (all_sas : list ServiceAccount) : list nat :=
  List.filter
    (fun i => negb (listed all_sas (Factory.sa_email_of project_id (numbered_name prefix i))))
    (seq 1 (Z.to_nat total)).

(** The directory listing raises in every world. *)
Definition listing_always_raises {W} `{Provider W} (name : string) : Prop :=
  forall w : W, exists e w', iam_list_service_accounts name w = (inl e, w').

(** Two accounts of six are present. *)
Definition two_of_six : Fake.state := Fake.fresh "p" ["sa-002"; "sa-005"].

(** ** The three [main] functions, from their prompts on

    The controller file has been found, read and used to authenticate;
    [project_id] is what it held.  What the operator typed is given as the
    values the scripts bind after [.strip()] and [.lower()]. *)

(** How [main] ends: [sys.exit], an exception no handler caught, or its
    last line. *)
Inductive ending (A : Type) : Type :=
  | Exit (code : Z)
  | Uncaught (e : exn)
  | Finished (a : A).

Arguments Exit {A} code.
Arguments Uncaught {A} e.
Arguments Finished {A} a.

Definition is_empty (s : string) : bool :=
  match s with EmptyString => true | _ => false end.

Section Mains.
Context {W : Type} `{Provider W}.

(** removesakeys.py:97-147, from the stripped [prefix] and the answer to
    the confirmation prompt as typed; the value is [total_keys_deleted]. *)
Definition removesakeys_main (project_id prefix answer : string) : M W (ending Z) :=
  if is_empty prefix then ret (Exit 1%Z)
  else
    let! found := Removesakeys.find_target_service_accounts project_id prefix in
    match found with
    | inl code => ret (Exit code)
    | inr [] =>
        let! _ := print (NoneFound project_id prefix) in
        ret (Exit 0%Z)
    | inr ((_ :: _) as target_accounts) =>
        let! _ := print (Found (length target_accounts)) in
        let confirm := PyStr.lower answer in
        if negb (String.eqb confirm "yes") then ret (Exit 0%Z)
        else
          let! r := Removesakeys.main_delete_loop target_accounts 0 in
          match r with
          | inl e => ret (Uncaught e)
          | inr total_keys_deleted => ret (Finished total_keys_deleted)
          end
    end.

(** makesakeys.py:61-117, from the value of [prefix] (the input, lowercased
    and stripped); the value is the number of passes. *)
Definition makesakeys_main (fuel : nat) (project_id prefix : string)
  : M W (option (ending nat)) :=
  if is_empty prefix then ret (Some (Exit 1%Z))
  else
    let! found := Makesakeys.main_discover project_id prefix in
    match found with
    | inl code => ret (Some (Exit code))
    | inr target_sas =>
        let! r := Makesakeys.main_create_keys fuel project_id
                    (Makesakeys.key_creation_queue target_sas) in
        ret (match r with
             | None => None
             | Some (inl e) => Some (Uncaught e)
             | Some (inr passes) => Some (Finished passes)
             end)
    end.

(** serviceaccountfactory.py:124-224, from the values of [prefix] and
    [total_target_count] and the answer to the prompt as typed; each of the
    three loops is given [fuel] turns. *)
Definition serviceaccountfactory_main (fuel : nat) (project_id prefix : string)
    (total_target_count : Z) (answer : string) : M W (option (ending unit)) :=
  if negb (String.eqb (PyStr.lower answer) "y") then ret (Some (Exit 1%Z))
  else
    let target_sa_names := Factory.target_sa_names prefix total_target_count in
    let target_sa_emails := Factory.target_sa_emails prefix project_id total_target_count in
    let! step1 := Factory.main_ensure_accounts fuel project_id prefix target_sa_emails in
    match step1 with
    | None => ret None
    | Some _ =>
        let! step2 := Factory.main_clear_keys fuel project_id (elements target_sa_emails) in
        match step2 with
        | None => ret None
        | Some (inl e) => ret (Some (Uncaught e))
        | Some (inr _) =>
            let! step3 := Factory.main_create_keys fuel project_id
                            (PyStr.sorted String.leb (elements target_sa_names)) in
            ret (match step3 with
                 | None => None
                 | Some (inl e) => Some (Uncaught e)
                 | Some (inr _) => Some (Finished tt)
                 end)
        end
    end.

End Mains.

(** Traces whose requests all belong to a given kind. *)
Definition allowed (ok : request -> bool) (e : event) : bool :=
  match e with Call r => ok r | _ => true end.

Definition account_request (r : request) : bool :=
  match r with
  | ListServiceAccounts _ | CreateServiceAccount _ _ => true
  | _ => false
  end.

Definition key_removal_request (r : request) : bool :=
  match r with
  | ListServiceAccountKeys _ | DeleteServiceAccountKey _ => true
  | _ => false
  end.

Definition key_creation_request (r : request) : bool :=
  match r with CreateServiceAccountKey _ => true | _ => false end.

Definition discovery_request (r : request) : bool :=
  match r with
  | ListServiceAccounts _ | CreateServiceAccountKey _ => true
  | _ => false
  end.

Definition removal_request (r : request) : bool :=
  match r with
  | ListServiceAccounts _ | ListServiceAccountKeys _ | DeleteServiceAccountKey _ => true
  | _ => false
  end.

(** Key listings are requested under the given names only. *)
Definition lists_keys_of (names : list string) (r : request) : bool :=
  match r with
  | ListServiceAccountKeys n => existsb (String.eqb n) names
  | _ => true
  end.

(** The name under which removesakeys.py requests the keys of an account. *)
Definition wildcard_resource (sa_email : string) : string :=
  "projects/-/serviceAccounts/" +:+ sa_email.

(** The key listing of the only account is cut short, once, by an error of
    the client library that is not an API call error. *)
Definition retry_error : exn := Raised RetryError "Timeout of 60.0s exceeded".

Definition two_holders : Fake.state :=
  Fake.with_faults [(ListServiceAccountKeys (wildcard_resource holder), retry_error)]
    (Fake.with_keys [(holder, "k1"); ("sa-002@p.iam.gserviceaccount.com", "k2")]
       (Fake.fresh "p" ["sa-001"; "sa-002"])).


(** ** The pass loops as the scripts instantiate them *)

(** No operation of the pass raises: each returns, in the world its
    predecessors left. *)
Fixpoint pass_returns {W Item} (op : Item -> M W (exn + bool))
    (queue : list Item) (w : W) : Prop :=
  match queue with
  | [] => True
  | item :: rest =>
      (exists ok : bool, result (op item w) = inr ok)
      /\ pass_returns op rest (world (op item w))
  end.

(** The two messages that end a pass. *)
Definition is_pass_end (e : event) : bool :=
  match e with
  | Print PassClean | Print (PassFailed _) => true
  | _ => false
  end.

Definition within_pass (e : event) : bool := negb (is_pass_end e).

(** The part of a trace that comes before the first end of a pass. *)
Fixpoint first_pass (t : list event) : list event :=
  match t with
  | [] => []
  | e :: t' => if is_pass_end e then [] else e :: first_pass t'
  end.

(** The number of pauses of exactly [d] seconds. *)
Definition pauses (d : Q) (t : list event) : nat :=
  length (List.filter (fun d' => bool_decide (d' = d)) (sleeps t)).

(** What a pass loop [loop] over the operation [op] does with a queue whose
    operations return: the failure queue of the pass is [failed_items]; an
    empty one ends the run after the message, any other is followed by the
    message, a sleep of 10 seconds and the run of the loop on exactly that
    queue, in the world the pass left.  When the pass leaves one item and
    that item succeeds on its second attempt, the run ends after two
    passes. *)
Definition retry_queue_contract {W Item : Type} (op : Item -> M W (exn + bool))
    (loop : nat -> list Item -> M W (option (exn + nat))) : Prop :=
  forall (queue : list Item) (w : W),
    pass_returns op queue w ->
    let failed_tasks := failed_items op queue w in
    let w1 := world_after op queue w in
    (forall fuel,
        let run := loop (S fuel) queue w in
        match queue, failed_tasks with
        | [], _ => run = (Some (inr 0), w, [])
        | _ :: _, [] =>
            result run = Some (inr 1)
            /\ world run = w1
            /\ trace run = first_pass (trace run) ++ [Print PassClean]
        | _ :: _, _ :: _ =>
            let rerun := loop fuel failed_tasks w1 in
            result run = (sum_map id S <$> result rerun)
            /\ world run = world rerun
            /\ trace run
               = first_pass (trace run)
                 ++ [Print (PassFailed (length failed_tasks)); Sleep 10]
                 ++ trace rerun
        end)
    /\ (forall x fuel,
          failed_tasks = [x] ->
          result (op x w1) = inr true ->
          failed_items op failed_tasks w1 = []
          /\ result (loop (2 + fuel) queue w) = Some (inr 2)).

(** The three names of [three_accounts], as step 3 of the factory queues
    them. *)
Definition three_names : list string := ["sa-001"; "sa-002"; "sa-003"].

(** Three keys, the first delete refused for good. *)
Definition three_keys_denied : Fake.state :=
  Fake.with_faults
    [(DeleteServiceAccountKey "k1", Raised PermissionDenied "403 permission denied")]
    three_keys.

(** The key listing of the factory is cut short, once, by [RetryError]. *)
Definition holder_times_out : Fake.state :=
  Fake.with_faults [(ListServiceAccountKeys (key_resource "p" holder), retry_error)]
    three_keys.

(** A discovered account whose name has no number, holding ten keys. *)
Definition runner : string := "backup-runner@p.iam.gserviceaccount.com".

Definition runner_ten_keys : Fake.state :=
  Fake.with_keys ((fun i => (runner, "k" +:+ PyStr.str_of_nat i)) <$> seq 0 10)
    (Fake.fresh "p" ["backup-runner"]).

(** The exception classes by what the two list-and-delete functions do
    with them. *)
Definition transient_classes : list exn_class :=
  [Aborted; DeadlineExceeded; ServiceUnavailable].

Definition other_api_call_errors : list exn_class :=
  [InvalidArgument; AlreadyExists; PermissionDenied; NotFound; OtherAPICallError].

Definition other_exceptions : list exn_class :=
  [RetryError; UnicodeDecodeError; OSError; ValueError; OtherException].

(** The pauses a list-and-delete function can make: the one after a delete,
    and [backoff_factor ** k] for the attempts [k] it runs. *)
Definition attempt_pause (after_delete bf : Q) (attempt remaining : nat) (d : Q) : Prop :=
  d = after_delete
  \/ exists k, attempt <= k < attempt + remaining /\ d = Qpower bf (Z.of_nat k).
(** * Properties *)

(** ** Strings *)

Example split_email :
  PyStr.split "@" "sa-001@proj.iam.gserviceaccount.com"
  = ["sa-001"; "proj.iam.gserviceaccount.com"].
Proof. reflexivity. Qed.

Example split_without_separator : PyStr.split "@" "sa-001" = ["sa-001"].
Proof. reflexivity. Qed.

Example last_field_name : PyStr.last_field "-" "my-sa-017" = "017".
Proof. reflexivity. Qed.

Example fmt_03d_examples :
  (PyStr.fmt_03d 0, PyStr.fmt_03d 7, PyStr.fmt_03d 42, PyStr.fmt_03d 999, PyStr.fmt_03d 1000)
  = ("000", "007", "042", "999", "1000").
Proof. reflexivity. Qed.

Example int_examples :
  (PyStr.int "007", PyStr.int "1000", PyStr.int "", PyStr.int "x1")
  = (Some 7, Some 1000, None, None).
Proof. reflexivity. Qed.

Example lower_contains :
  PyStr.contains "key limit reached"
    (PyStr.lower "400 Precondition check failed: Key Limit Reached.") = true.
Proof. reflexivity. Qed.

Example decode_utf8_examples :
  (PyStr.decode_utf8 "plain", PyStr.decode_utf8 (String (ascii_of_nat 255) EmptyString),
   PyStr.decode_utf8 (String (ascii_of_nat 195) (String (ascii_of_nat 169) EmptyString)))
  = (Some "plain", None,
     Some (String (ascii_of_nat 195) (String (ascii_of_nat 169) EmptyString))).
Proof. reflexivity. Qed.

Example sorted_is_stable :
  PyStr.sorted (fun a b : nat * string => (a.1 <=? b.1)%nat)
    [(2, "a"); (1, "b"); (2, "c"); (1, "d")]
  = [(1, "b"); (1, "d"); (2, "a"); (2, "c")].
Proof. reflexivity. Qed.

Example match_number_examples :
  (Factory.match_number "sa" "sa-042@p.iam.gserviceaccount.com",
   Factory.match_number "sa" "sa-1000@p.iam.gserviceaccount.com",
   Factory.match_number "sa" "sb-042@p.iam.gserviceaccount.com")
  = (Some 42, None, None).
Proof. reflexivity. Qed.

Lemma prefix_iff_app (p s : string) :
  String.prefix p s = true <-> exists rest, s = p +:+ rest.
Proof.
  revert s. induction p as [|a p IH]; intros s.
  - split; [intros _; exists s; reflexivity | intros _; destruct s; reflexivity].
  - destruct s as [|b s]; simpl.
    + split; [discriminate | intros [rest Hrest]; discriminate].
    + destruct (ascii_dec a b) as [->|Hne].
      * rewrite IH. split; intros [rest Hrest]; exists rest.
        -- simpl. now rewrite Hrest.
        -- simpl in Hrest. now inversion Hrest.
      * split; [discriminate |].
        intros [rest Hrest]. simpl in Hrest. inversion Hrest. congruence.
Qed.

Lemma fold_left_append_filter {A} (p : A -> bool) (l acc : list A) :
  fold_left (fun acc x => if p x then acc ++ [x] else acc) l acc
  = acc ++ List.filter p l.
Proof.
  revert acc. induction l as [|x l IH]; intros acc; simpl.
  - now rewrite app_nil_r.
  - rewrite IH. destruct (p x); [|reflexivity].
    now rewrite <- app_assoc.
Qed.

Lemma fold_left_append_filter_map {A B} (p : A -> bool) (f : A -> B)
    (l : list A) (acc : list B) :
  fold_left (fun acc x => if p x then acc ++ [f x] else acc) l acc
  = acc ++ List.map f (List.filter p l).
Proof.
  revert acc. induction l as [|x l IH]; intros acc; simpl.
  - now rewrite app_nil_r.
  - rewrite IH. destruct (p x); [|reflexivity].
    simpl. now rewrite <- app_assoc.
Qed.

(** ** Account Directory *)

Lemma find_target_service_accounts_run {W} `{Provider W}
    (project_id prefix : string) (w w' : W) (accounts : list ServiceAccount) :
  iam_list_service_accounts ("projects/" +:+ project_id) w = (inr accounts, w') ->
  result (Removesakeys.find_target_service_accounts project_id prefix w)
  = inr (List.filter (matches prefix) accounts).
Proof.
  intros Hlist.
  unfold Removesakeys.find_target_service_accounts, bind, print, emit, invoke, perform, result.
  rewrite Hlist. simpl. f_equal.
  apply (fold_left_append_filter (matches prefix) accounts []).
Qed.

Lemma main_discover_run {W} `{Provider W}
    (project_id prefix : string) (w w' : W) (accounts : list ServiceAccount) :
  iam_list_service_accounts ("projects/" +:+ project_id) w = (inr accounts, w') ->
  result (Makesakeys.main_discover project_id prefix w)
  = match List.filter (matches prefix) accounts with
    | [] => inl 1%Z
    | found =>
        inr (List.map (fun a => {| Makesakeys.name := short_name a;
                                   Makesakeys.sa_email := email a |}) found)
    end.
Proof.
  intros Hlist.
  unfold Makesakeys.main_discover, bind, print, emit, invoke, perform, result.
  rewrite Hlist.
  pose proof (fold_left_append_filter_map (matches prefix)
                (fun a => {| Makesakeys.name := short_name a; Makesakeys.sa_email := email a |})
                accounts []) as E.
  unfold matches, short_name in *. cbn beta iota zeta in *. rewrite E. simpl.
  destruct (List.filter _ accounts); reflexivity.
Qed.

(** C4.  When the directory listing of the project returns [accounts], the
    result of the prefix filter of removesakeys.py is the sub-list of the
    accounts whose short name is the prefix followed by anything: an account
    is in the result exactly when it is listed and its short name reads
    [prefix ++ rest], character for character; and makesakeys.py selects the
    same accounts, in the same order. *)
Theorem prefix_filter_exact {W} `{Provider W}
    (project_id prefix : string) (w w' : W) (accounts : list ServiceAccount) :
  iam_list_service_accounts ("projects/" +:+ project_id) w = (inr accounts, w') ->
  exists targets,
    result (Removesakeys.find_target_service_accounts project_id prefix w) = inr targets
    /\ (forall a, In a targets <->
                  In a accounts /\ exists rest, short_name a = prefix +:+ rest)
    /\ targets = List.filter (matches prefix) accounts
    /\ result (Makesakeys.main_discover project_id prefix w)
       = match targets with
         | [] => inl 1%Z
         | _ => inr (List.map (fun a => {| Makesakeys.name := short_name a;
                                            Makesakeys.sa_email := email a |}) targets)
         end.
Proof.
  intros Hlist. exists (List.filter (matches prefix) accounts).
  split; [eapply find_target_service_accounts_run; eassumption|].
  split; [|split; [reflexivity|]].
  - intros a. rewrite filter_In. unfold matches, PyStr.startswith.
    now rewrite prefix_iff_app.
  - erewrite main_discover_run by eassumption.
    destruct (List.filter (matches prefix) accounts); reflexivity.
Qed.

Lemma prefix_filter_exact_witness :
  exists targets,
    result (Removesakeys.find_target_service_accounts "p" "sa" directory) = inr targets
    /\ (forall a, In a targets <->
                  In a (Fake.accounts directory) /\ exists rest, short_name a = "sa" +:+ rest)
    /\ targets = [Fake.account "p" "sa-001"; Fake.account "p" "sa"]
    /\ result (Makesakeys.main_discover "p" "sa" directory)
       = inr [ {| Makesakeys.name := "sa-001";
                  Makesakeys.sa_email := "sa-001@p.iam.gserviceaccount.com" |};
               {| Makesakeys.name := "sa";
                  Makesakeys.sa_email := "sa@p.iam.gserviceaccount.com" |} ].
Proof.
  destruct (prefix_filter_exact "p" "sa" directory directory (Fake.accounts directory))
    as (targets & Hrun & Hmem & Heq & Hdisc); [reflexivity|].
  exists targets. split; [exact Hrun|]. split; [exact Hmem|].
  split; [rewrite Heq; reflexivity|].
  rewrite Hdisc, Heq. reflexivity.
Defined.

(** ** Running the monad *)

Lemma run_bind {W A B} (m : M W A) (k : A -> M W B) (w : W) :
  bind m k w
  = (result (k (result (m w)) (world (m w))),
     world (k (result (m w)) (world (m w))),
     trace (m w) ++ trace (k (result (m w)) (world (m w)))).
Proof.
  unfold bind, result, world, trace.
  destruct (m w) as [[a w1] t1]. cbn [fst snd].
  destruct (k a w1) as [[b w2] t2]. reflexivity.
Qed.

Lemma result_bind {W A B} (m : M W A) (k : A -> M W B) (w : W) :
  result (bind m k w) = result (k (result (m w)) (world (m w))).
Proof. now rewrite run_bind. Qed.

Lemma world_bind {W A B} (m : M W A) (k : A -> M W B) (w : W) :
  world (bind m k w) = world (k (result (m w)) (world (m w))).
Proof. now rewrite run_bind. Qed.

Lemma trace_bind {W A B} (m : M W A) (k : A -> M W B) (w : W) :
  trace (bind m k w) = trace (m w) ++ trace (k (result (m w)) (world (m w))).
Proof. now rewrite run_bind. Qed.

Lemma run_bind_ok_inr {W A B} (m : M W (exn + A)) (k : A -> M W (exn + B)) (w : W) (a : A) :
  result (m w) = inr a ->
  bind_ok m k w
  = (result (k a (world (m w))), world (k a (world (m w))),
     trace (m w) ++ trace (k a (world (m w)))).
Proof. intros Hr. unfold bind_ok. now rewrite run_bind, Hr. Qed.

Lemma result_bind_ok_inr {W A B} (m : M W (exn + A)) (k : A -> M W (exn + B)) (w : W) (a : A) :
  result (m w) = inr a -> result (bind_ok m k w) = result (k a (world (m w))).
Proof. intros Hr. now rewrite (run_bind_ok_inr _ _ _ _ Hr). Qed.

Lemma world_bind_ok_inr {W A B} (m : M W (exn + A)) (k : A -> M W (exn + B)) (w : W) (a : A) :
  result (m w) = inr a -> world (bind_ok m k w) = world (k a (world (m w))).
Proof. intros Hr. now rewrite (run_bind_ok_inr _ _ _ _ Hr). Qed.

Lemma trace_bind_ok_inr {W A B} (m : M W (exn + A)) (k : A -> M W (exn + B)) (w : W) (a : A) :
  result (m w) = inr a ->
  trace (bind_ok m k w) = trace (m w) ++ trace (k a (world (m w))).
Proof. intros Hr. now rewrite (run_bind_ok_inr _ _ _ _ Hr). Qed.

Lemma run_bind_ok_inl {W A B} (m : M W (exn + A)) (k : A -> M W (exn + B)) (w : W) (e : exn) :
  result (m w) = inl e ->
  bind_ok m k w = (inl e, world (m w), trace (m w) ++ []).
Proof. intros Hr. unfold bind_ok. now rewrite run_bind, Hr. Qed.

Lemma run_eta {W A} (r : A * W * list event) : r = (result r, world r, trace r).
Proof. now destruct r as [[a w] t]. Qed.

Lemma result_mk {W A} (a : A) (w : W) (t : list event) : result (a, w, t) = a.
Proof. reflexivity. Qed.

Lemma world_mk {W A} (a : A) (w : W) (t : list event) : world (a, w, t) = w.
Proof. reflexivity. Qed.

Lemma trace_mk {W A} (a : A) (w : W) (t : list event) : trace (a, w, t) = t.
Proof. reflexivity. Qed.

Ltac run_mk := rewrite ?result_mk, ?world_mk, ?trace_mk in *.

(** ** Batch Driver *)

Section BatchDriverFacts.
Context {W Item : Type} `{EqDecision Item}.
Variable op : Item -> M W (exn + bool).
Variable cooldown : option Q.

Lemma rate_limit_world (d : Q) (i total : nat) (w : W) :
  world (rate_limit d i total w) = w /\ result (rate_limit d i total w) = tt.
Proof.
  unfold rate_limit. destruct (_ && _); split; reflexivity.
Qed.

Lemma process_queue_contract (Hret : returns op) (total i : nat)
    (queue : list Item) (w : W) :
  result (process_queue op cooldown total i queue w) = inr (failed_items op queue w)
  /\ world (process_queue op cooldown total i queue w) = world_after op queue w.
Proof.
  revert i w. induction queue as [|item rest IH]; intros i w; [split; reflexivity|].
  destruct (Hret item w) as [ok Hok].
  cbn [process_queue failed_items world_after].
  set (m := match cooldown with Some d => rate_limit d i total | None => ret tt end).
  assert (Hm : forall w1, world (m w1) = w1).
  { intros w1. subst m. destruct cooldown; [apply rate_limit_world | reflexivity]. }
  destruct (IH (S i) (world (op item w))) as [IHr IHw].
  rewrite (result_bind_ok_inr _ _ _ _ Hok), (world_bind_ok_inr _ _ _ _ Hok).
  rewrite result_bind, world_bind, Hm.
  rewrite (result_bind_ok_inr _ _ _ _ IHr), (world_bind_ok_inr _ _ _ _ IHr).
  rewrite Hok, IHw. destruct ok; split; reflexivity.
Qed.

Lemma run_pass_contract (Hret : returns op) (queue : list Item) (w : W) :
  result (run_pass op cooldown queue w) = inr (failed_items op queue w)
  /\ world (run_pass op cooldown queue w) = world_after op queue w.
Proof. apply process_queue_contract, Hret. Qed.

(** One turn of the [while]: what the pass left decides. *)
Lemma retry_until_clean_turn (fuel : nat) (queue : list Item) (w : W) :
  retry_until_clean op cooldown (S fuel) queue w
  = match queue with
    | [] => (Some (inr 0), w, [])
    | _ :: _ =>
        let p := run_pass op cooldown queue w in
        match result p with
        | inl e => (Some (inl e), world p, trace p ++ [])
        | inr [] => (Some (inr 1), world p, trace p ++ [Print PassClean])
        | inr ((_ :: _) as failed_tasks) =>
            let r := retry_until_clean op cooldown fuel failed_tasks (world p) in
            (sum_map id S <$> result r, world r,
             trace p ++ [Print (PassFailed (length failed_tasks)); Sleep 10] ++ trace r)
        end
    end.
Proof.
  destruct queue as [|item rest]; [reflexivity|].
  cbn [retry_until_clean]. unfold bind at 1. cbv zeta.
  unfold result, world, trace.
  destruct (run_pass op cooldown (item :: rest) w) as [[r w1] t1]. cbn [fst snd].
  destruct r as [e|[|y failed]]; [reflexivity | reflexivity |].
  unfold bind, print, sleep, emit, ret.
  destruct (retry_until_clean op cooldown fuel (y :: failed) w1) as [[r2 w2] t2].
  cbn. now rewrite app_nil_r.
Qed.

Lemma failed_items_incl (queue : list Item) (w : W) :
  incl (failed_items op queue w) queue.
Proof.
  revert w. induction queue as [|y queue IH]; intros w z Hz; [exact Hz|].
  cbn [failed_items] in Hz.
  destruct (result (op y w)) as [e|[|]].
  - right. eapply IH, Hz.
  - right. eapply IH, Hz.
  - destruct Hz as [->|Hz]; [left; reflexivity | right; eapply IH, Hz].
Qed.

(** The contract of a pass needs the operations to return along the pass
    only, not in every world. *)
Lemma process_queue_on_pass (total i : nat) (queue : list Item) (w : W) :
  pass_returns op queue w ->
  result (process_queue op cooldown total i queue w) = inr (failed_items op queue w)
  /\ world (process_queue op cooldown total i queue w) = world_after op queue w.
Proof.
  revert i w. induction queue as [|item rest IH]; intros i w Hret; [split; reflexivity|].
  destruct Hret as [[ok Hok] Hrest].
  cbn [process_queue failed_items world_after].
  set (m := match cooldown with Some d => rate_limit d i total | None => ret tt end).
  assert (Hm : forall w1, world (m w1) = w1).
  { intros w1. subst m. destruct cooldown; [apply rate_limit_world | reflexivity]. }
  destruct (IH (S i) (world (op item w)) Hrest) as [IHr IHw].
  rewrite (result_bind_ok_inr _ _ _ _ Hok), (world_bind_ok_inr _ _ _ _ Hok).
  rewrite result_bind, world_bind, Hm.
  rewrite (result_bind_ok_inr _ _ _ _ IHr), (world_bind_ok_inr _ _ _ _ IHr).
  rewrite Hok, IHw. destruct ok; split; reflexivity.
Qed.

Lemma run_pass_on_pass (queue : list Item) (w : W) :
  pass_returns op queue w ->
  result (run_pass op cooldown queue w) = inr (failed_items op queue w)
  /\ world (run_pass op cooldown queue w) = world_after op queue w.
Proof. apply process_queue_on_pass. Qed.

Lemma pass_returns_of_returns (queue : list Item) (w : W) :
  returns op -> pass_returns op queue w.
Proof.
  intros Hret. revert w. induction queue as [|item rest IH]; intros w; [exact I|].
  split; [apply Hret | apply IH].
Qed.

End BatchDriverFacts.

Section BatchDriverClaims.
Context {W Item : Type} `{EqDecision Item}.
Variable op : Item -> M W (exn + bool).
Variable cooldown : option Q.

Lemma always_failing_item_is_requeued (x : Item) (queue : list Item) (w : W) :
  always_fails op x -> In x queue -> In x (failed_items op queue w).
Proof.
  intros Hfail. revert w. induction queue as [|y queue IH]; intros w Hin; [contradiction|].
  cbn [failed_items].
  destruct Hin as [->|Hin].
  - rewrite Hfail. left. reflexivity.
  - destruct (result (op y w)) as [e|[|]]; [| |right]; apply IH, Hin.
Qed.

Lemma count_pass_failed_app (t1 t2 : list event) :
  length (List.filter is_pass_failed (t1 ++ t2))
  = length (List.filter is_pass_failed t1) + length (List.filter is_pass_failed t2).
Proof. now rewrite List.filter_app, length_app. Qed.


End BatchDriverClaims.

Lemma create_key_for_returns {W} `{Provider W} (project_id : string) :
  returns (Makesakeys.create_key_for project_id).
Proof.
  intros item w. unfold Makesakeys.create_key_for. rewrite result_bind. eexists. reflexivity.
Qed.

Lemma time_sleep_ok {W} (q : Q) (w : W) :
  Qle_bool 0 q = true -> time_sleep q w = (inr tt, w, [Sleep q]).
Proof. intros Hq. unfold time_sleep. now rewrite Hq. Qed.

Lemma time_sleep_negative {W} (q : Q) (w : W) :
  Qle_bool 0 q = false -> time_sleep q w = (inl negative_sleep, w, []).
Proof. intros Hq. unfold time_sleep. now rewrite Hq. Qed.

(** A non-negative factor never gives a negative pause. *)
Lemma backoff_nonneg (bf : Q) (attempt : nat) :
  (0 <= bf)%Q -> Qle_bool 0 (Qpower bf (Z.of_nat attempt)) = true.
Proof. intros Hbf. apply Qle_bool_iff, Qpower_0_le, Hbf. Qed.

Lemma factory_attempts_returns {W} `{Provider W}
    (sa_email sa_full_name : string) (retries : nat) (bf : Q) :
  (0 <= bf)%Q ->
  forall remaining attempt (w : W), exists ok : bool,
    result (Factory.attempts sa_email sa_full_name retries bf remaining attempt w) = inr ok.
Proof.
  intros Hbf. induction remaining as [|remaining IH]; intros attempt w.
  - eexists. reflexivity.
  - cbn [Factory.attempts]. rewrite result_bind.
    destruct (result (Factory.list_then_delete sa_full_name w)) as [e|ok];
      [|eexists; reflexivity].
    destruct (Factory.is_transient (class e)); [|eexists; reflexivity].
    cbv zeta. rewrite result_bind. unfold bind_ok. rewrite result_bind.
    rewrite time_sleep_ok by now apply backoff_nonneg. run_mk. apply IH.
Qed.

Lemma clear_keys_for_returns {W} `{Provider W} (project_id : string) :
  forall item (w : W), exists ok : bool,
    result (Factory.clear_keys_for project_id item w) = inr ok.
Proof.
  intros item w. unfold Factory.clear_keys_for, Factory.delete_all_user_keys_with_retry.
  apply factory_attempts_returns. discriminate.
Qed.

Lemma outage_always_fails (sa : Makesakeys.sa_info) :
  always_fails (W := unit) (Makesakeys.create_key_for "p") sa.
Proof. intros []. reflexivity. Qed.

Lemma outage_clearing_always_fails (sa_email : string) :
  always_fails (W := unit) (Factory.clear_keys_for "p") sa_email.
Proof. intros []. reflexivity. Qed.


(** ** Cooldown *)

Lemma marks_app (is_item : event -> bool) (d : Q) (t1 t2 : list event) :
  marks is_item d (t1 ++ t2) = marks is_item d t1 ++ marks is_item d t2.
Proof. apply omap_app. Qed.

Lemma trace_bind_ok_ret {W A B} (m : M W (exn + A)) (g : A -> exn + B) (w : W) :
  trace (bind_ok m (fun a => ret (g a)) w) = trace (m w).
Proof.
  unfold bind_ok. rewrite trace_bind.
  destruct (result (m w)); cbn; apply app_nil_r.
Qed.

Lemma rate_limit_marks {W} (is_item : event -> bool) (d : Q) (i total : nat) (w : W) :
  marks is_item d (trace (rate_limit d i total w))
  = if ((S i mod 4 =? 0)%nat && (S i <? total)%nat)%bool then [Pause] else [].
Proof.
  unfold rate_limit. rewrite Nat.add_1_r.
  destruct (_ && _); [|reflexivity].
  cbn. destruct (decide (d = d)); [reflexivity | contradiction].
Qed.

Section Schedule.
Context {W Item : Type}.
Variable op : Item -> M W (exn + bool).
Variable is_item : event -> bool.
Variable d : Q.

Lemma process_queue_schedule (total : nat) (queue : list Item) :
  Forall (one_item op is_item d) queue ->
  forall i w,
    marks is_item d (trace (process_queue op (Some d) total i queue w))
    = cooldown_schedule_from i total (length queue).
Proof.
  induction 1 as [|item rest Hitem Hrest IH]; intros i w; [reflexivity|].
  destruct (Hitem w) as [[ok Hok] Hmarks].
  cbn [process_queue length].
  rewrite (trace_bind_ok_inr _ _ _ _ Hok), trace_bind, trace_bind_ok_ret.
  rewrite !marks_app, Hmarks, rate_limit_marks, IH.
  unfold cooldown_schedule_from. cbn [seq flat_map]. reflexivity.
Qed.

Lemma run_pass_schedule (queue : list Item) (w : W) :
  Forall (one_item op is_item d) queue ->
  marks is_item d (trace (run_pass op (Some d) queue w))
  = cooldown_schedule (length queue).
Proof. intros Hq. now apply process_queue_schedule. Qed.

(** Without a cooldown the pass adds nothing to what the operations do. *)
Lemma run_pass_no_cooldown (total i : nat) (queue : list Item) (w : W) :
  (forall item w, exists ok : bool, result (op item w) = inr ok) ->
  trace (process_queue op None total i queue w) = ops_trace op queue w.
Proof.
  intros Hret. revert i w. induction queue as [|item rest IH]; intros i w; [reflexivity|].
  destruct (Hret item w) as [ok Hok].
  cbn [process_queue ops_trace].
  rewrite (trace_bind_ok_inr _ _ _ _ Hok), trace_bind, trace_bind_ok_ret.
  cbn. now rewrite IH.
Qed.

End Schedule.

Ltac run_create_key :=
  unfold Makesakeys.create_key_for, Makesakeys.create_and_save_key,
         Makesakeys.request_decode_write,
         Factory.create_and_save_key, Factory.request_decode_write;
  unfold bind_ok, bind, ret, print, emit, invoke, perform, result, world, trace;
  repeat match goal with
         | |- context [iam_create_service_account_key ?n ?w] =>
             destruct (iam_create_service_account_key n w) as [[?e|?data] ?w]; cbn
         | |- context [PyStr.decode_utf8 ?s] => destruct (PyStr.decode_utf8 s); cbn
         | |- context [open_write ?p ?c ?w] =>
             destruct (open_write p c w) as [[?e|[]] ?w]; cbn
         | |- context [class ?e] => destruct (class e); cbn
         | |- context [PyStr.contains ?a ?b] => destruct (PyStr.contains a b); cbn
         end.

Lemma discovery_one_item {W} `{Provider W} (project_id : string) (sa : Makesakeys.sa_info) :
  one_item (Makesakeys.create_key_for project_id) is_create_key 10 sa.
Proof.
  intros w. split.
  - unfold Makesakeys.create_key_for. rewrite result_bind. eexists. reflexivity.
  - run_create_key; reflexivity.
Qed.

Lemma factory_one_item {W} `{Provider W} (project_id sa_name : string) :
  numbered sa_name ->
  one_item (Factory.create_key_for project_id) is_create_key 10 sa_name.
Proof.
  intros [number Hnum] w. unfold Factory.create_key_for. rewrite Hnum. split.
  - rewrite result_bind. eexists. reflexivity.
  - run_create_key; reflexivity.
Qed.

Lemma create_service_account_mark {W} `{Provider W}
    (project_id prefix : string) (number : nat) (w : W) :
  marks is_create_account 20 (trace (Factory.create_service_account project_id prefix number w))
  = [Item_done].
Proof.
  unfold Factory.create_service_account.
  unfold bind_ok, bind, ret, print, sleep, emit, invoke, perform, result, world, trace.
  destruct (iam_create_service_account _ _ w) as [[e|[]] w1]; cbn.
  - destruct (class e); reflexivity.
  - destruct (decide _) as [Heq|]; [discriminate Heq | reflexivity].
Qed.

Lemma create_accounts_schedule {W} `{Provider W}
    (project_id prefix : string) (total : nat) (numbers : list nat) :
  forall i (w : W),
    marks is_create_account 20
      (trace (Factory.create_accounts project_id prefix total i numbers w))
    = cooldown_schedule_from i total (length numbers).
Proof.
  induction numbers as [|number rest IH]; intros i w; [reflexivity|].
  cbn [Factory.create_accounts length].
  rewrite trace_bind, trace_bind, !marks_app.
  rewrite create_service_account_mark, rate_limit_marks, IH.
  unfold cooldown_schedule_from. cbn [seq flat_map]. reflexivity.
Qed.

Lemma nine_names_numbered : Forall numbered nine_names.
Proof. repeat constructor; eexists; reflexivity. Qed.


(** ** Key Manager: list-and-delete of removesakeys.py *)

Section RemovesakeysFacts.
Context {W : Type} `{Provider W}.

Lemma deletes_app (t1 t2 : list event) : deletes (t1 ++ t2) = deletes t1 + deletes t2.
Proof. unfold deletes. now rewrite List.filter_app, length_app. Qed.

Lemma key_listings_app (t1 t2 : list event) :
  key_listings (t1 ++ t2) = key_listings t1 + key_listings t2.
Proof. unfold key_listings. now rewrite List.filter_app, length_app. Qed.

Lemma delete_each_turn (key_name : string) (rest : list string) (count : Z) (w : W) :
  Removesakeys.delete_each (key_name :: rest) count w
  = match iam_delete_service_account_key key_name w with
    | (inl e, w1) => (inl e, w1, [Call (DeleteServiceAccountKey key_name)])
    | (inr _, w1) =>
        let r := Removesakeys.delete_each rest (count + 1)%Z w1 in
        (result r, world r,
         [Call (DeleteServiceAccountKey key_name); Sleep (1 # 10)] ++ trace r)
    end.
Proof.
  cbn [Removesakeys.delete_each].
  unfold bind_ok, bind, ret, sleep, emit, invoke, perform, result, world, trace.
  destruct (iam_delete_service_account_key key_name w) as [[e|u] w1]; [reflexivity|].
  destruct (Removesakeys.delete_each rest (count + 1)%Z w1) as [[r w2] t2]. reflexivity.
Qed.

Lemma delete_each_counts (key_names : list string) :
  forall (count : Z) (w : W),
    key_listings (trace (Removesakeys.delete_each key_names count w)) = 0
    /\ forall n, result (Removesakeys.delete_each key_names count w) = inr n ->
                 n = (count + Z.of_nat (deletes (trace (Removesakeys.delete_each key_names count w))))%Z
                 /\ deletes (trace (Removesakeys.delete_each key_names count w))
                    = length key_names.
Proof.
  induction key_names as [|key_name rest IH]; intros count w.
  - split; [reflexivity|]. intros n Hn. cbn in Hn. injection Hn as <-.
    split; [cbn; lia | reflexivity].
  - rewrite delete_each_turn.
    destruct (iam_delete_service_account_key key_name w) as [[e|u] w1].
    + split; [reflexivity | intros n Hn; discriminate Hn].
    + destruct (IH (count + 1)%Z w1) as [IHl IHn]. cbv zeta. run_mk. split.
      * rewrite key_listings_app, IHl. reflexivity.
      * intros n Hn. destruct (IHn n Hn) as [Hcount Hlen].
        rewrite deletes_app. cbn [length].
        change (deletes [Call (DeleteServiceAccountKey key_name); Sleep (1 # 10)]) with 1.
        rewrite Hlen in *. split; lia.
Qed.

Lemma delete_each_succeeds (key_names : list string) :
  forall (count : Z) (w : W),
    deletes_succeed key_names w ->
    result (Removesakeys.delete_each key_names count w)
    = inr (count + Z.of_nat (length key_names))%Z
    /\ List.filter is_delete (trace (Removesakeys.delete_each key_names count w))
       = (fun k => Call (DeleteServiceAccountKey k)) <$> key_names.
Proof.
  induction key_names as [|key_name rest IH]; intros count w Hok.
  - split; [cbn; f_equal; lia | reflexivity].
  - destruct Hok as (w1 & Hdel & Hrest). rewrite delete_each_turn, Hdel. cbv zeta.
    destruct (IH (count + 1)%Z w1 Hrest) as [IHr IHt]. run_mk. split.
    + rewrite IHr. f_equal. cbn [length]. lia.
    + rewrite List.filter_app, IHt. reflexivity.
Qed.

Lemma list_then_delete_turn (sa_email : string) (w : W) :
  Removesakeys.list_then_delete sa_email w
  = let name := "projects/-/serviceAccounts/" +:+ sa_email in
    match iam_list_service_account_keys name w with
    | (inl e, w1) => (inl e, w1, [Call (ListServiceAccountKeys name)])
    | (inr [], w1) => (inr 0%Z, w1, [Call (ListServiceAccountKeys name)])
    | (inr key_names, w1) =>
        let r := Removesakeys.delete_each key_names 0 w1 in
        (result r, world r, [Call (ListServiceAccountKeys name)] ++ trace r)
    end.
Proof.
  unfold Removesakeys.list_then_delete.
  unfold bind_ok, bind, ret, invoke, perform, result, world, trace. cbv zeta.
  destruct (iam_list_service_account_keys _ w) as [[e|[|k ks]] w1]; [reflexivity | reflexivity |].
  destruct (Removesakeys.delete_each (k :: ks) 0 w1) as [[r w2] t2]. reflexivity.
Qed.

(** One attempt makes one listing, and a count it returns is the number of
    delete calls it made. *)
Lemma list_then_delete_counts (sa_email : string) (w : W) :
  key_listings (trace (Removesakeys.list_then_delete sa_email w)) = 1
  /\ forall n, result (Removesakeys.list_then_delete sa_email w) = inr n ->
               n = Z.of_nat (deletes (trace (Removesakeys.list_then_delete sa_email w))).
Proof.
  rewrite list_then_delete_turn. cbv zeta.
  destruct (iam_list_service_account_keys _ w) as [[e|[|k ks]] w1].
  - split; [reflexivity | intros n Hn; discriminate Hn].
  - split; [reflexivity | intros n Hn; injection Hn as <-; reflexivity].
  - destruct (delete_each_counts (k :: ks) 0 w1) as [Hl Hn]. run_mk. split.
    + rewrite (key_listings_app [_]), Hl. reflexivity.
    + intros n Hres. destruct (Hn n Hres) as [Hcount _].
      rewrite (deletes_app [_]). rewrite Hcount at 1.
      change (deletes [Call _]) with 0. lia.
Qed.

Lemma attempts_turn (sa_email : string) (retries : nat) (bf : Q)
    (remaining attempt : nat) (w : W) :
  Removesakeys.attempts sa_email retries bf (S remaining) attempt w
  = let a := Removesakeys.list_then_delete sa_email w in
    match result a with
    | inr n => (inr n, world a, trace a)
    | inl e =>
        if Removesakeys.is_transient (class e) then
          let sleep_time := Qpower bf (Z.of_nat attempt) in
          if Qle_bool 0 sleep_time then
            let r := Removesakeys.attempts sa_email retries bf remaining (S attempt)
                       (world a) in
            (result r, world r,
             trace a ++ [Print (TransientError sa_email (attempt + 1) retries sleep_time);
                         Sleep sleep_time] ++ trace r)
          else
            (inl negative_sleep, world a,
             trace a ++ [Print (TransientError sa_email (attempt + 1) retries sleep_time)])
        else if is_GoogleAPICallError (class e) then
          (inr (-1)%Z, world a, trace a ++ [Print (SevereError sa_email)])
        else (inl e, world a, trace a)
    end.
Proof.
  cbn [Removesakeys.attempts]. rewrite run_bind. cbv zeta.
  destruct (result (Removesakeys.list_then_delete sa_email w)) as [e|n].
  - destruct (Removesakeys.is_transient (class e)).
    + unfold bind_ok, bind, ret, print, emit, time_sleep, result, world, trace.
      destruct (Qle_bool 0 _); cbn.
      * destruct (Removesakeys.attempts _ _ _ _ _ _) as [[r w2] t2]. reflexivity.
      * reflexivity.
    + destruct (is_GoogleAPICallError (class e)); cbn; rewrite ?app_nil_r; reflexivity.
  - cbn. now rewrite app_nil_r.
Qed.

End RemovesakeysFacts.

(** Settle a goal about the class of [e] from its membership [Hin] in one
    of the lists of classes. *)
Ltac class_cases e Hin :=
  unfold transient_classes, other_api_call_errors, other_exceptions in Hin;
  destruct (class e); cbn in Hin;
  first [ exfalso; intuition discriminate
        | repeat split; reflexivity ].

Section RemovesakeysPolicy.
Context {W : Type} `{Provider W}.
Variables (sa_email : string) (retries : nat) (bf : Q).

Lemma existsb_app_l {A} (f : A -> bool) (l1 l2 : list A) :
  existsb f l1 = true -> existsb f (l1 ++ l2) = true.
Proof. intros Hl. rewrite existsb_app, Hl. reflexivity. Qed.

Lemma existsb_app_r {A} (f : A -> bool) (l1 l2 : list A) :
  existsb f l2 = true -> existsb f (l1 ++ l2) = true.
Proof. intros Hl. rewrite existsb_app, Hl. apply orb_true_r. Qed.

Lemma fatal_abort_self : fatal_abort sa_email (Print (SevereError sa_email)) = true.
Proof. cbn. apply String.eqb_refl. Qed.

Lemma removesakeys_bounded (remaining : nat) :
  forall attempt (w : W),
    key_listings (trace (Removesakeys.attempts sa_email retries bf remaining attempt w))
    <= remaining.
Proof.
  induction remaining as [|remaining IH]; intros attempt w; [cbn; lia|].
  rewrite attempts_turn. cbv zeta.
  destruct (list_then_delete_counts sa_email w) as [Hone _].
  destruct (result (Removesakeys.list_then_delete sa_email w)) as [e|n].
  - destruct (Removesakeys.is_transient (class e)).
    + destruct (Qle_bool 0 _); run_mk.
      * rewrite !key_listings_app, Hone.
        specialize (IH (S attempt) (world (Removesakeys.list_then_delete sa_email w))).
        change (key_listings [Print _; Sleep _]) with 0. lia.
      * rewrite key_listings_app, Hone. cbn. lia.
    + destruct (is_GoogleAPICallError (class e)); run_mk;
        rewrite ?key_listings_app, Hone; cbn; lia.
  - run_mk. lia.
Qed.

Lemma removesakeys_failure_is_late (remaining : nat) :
  forall attempt (w : W),
    result (Removesakeys.attempts sa_email retries bf remaining attempt w) = inr (-1)%Z ->
    key_listings (trace (Removesakeys.attempts sa_email retries bf remaining attempt w))
    = remaining
    \/ existsb (fatal_abort sa_email)
         (trace (Removesakeys.attempts sa_email retries bf remaining attempt w)) = true.
Proof.
  induction remaining as [|remaining IH]; intros attempt w; [left; reflexivity|].
  rewrite attempts_turn. cbv zeta.
  destruct (list_then_delete_counts sa_email w) as [Hone Hcount].
  destruct (result (Removesakeys.list_then_delete sa_email w)) as [e|n].
  - destruct (Removesakeys.is_transient (class e)).
    + destruct (Qle_bool 0 _); run_mk; intros Hres; [|discriminate Hres].
      destruct (IH _ _ Hres) as [IHn|IHf].
      * left. rewrite !key_listings_app, Hone, IHn.
        change (key_listings [Print _; Sleep _]) with 0. lia.
      * right. now apply existsb_app_r, existsb_app_r.
    + destruct (is_GoogleAPICallError (class e)); run_mk; intros Hres; [|discriminate Hres].
      right. apply existsb_app_r. cbn [existsb]. now rewrite fatal_abort_self.
  - run_mk. intros Hres. injection Hres as ->. specialize (Hcount _ eq_refl). lia.
Qed.

Lemma every_class_is_listed :
  forall c : exn_class,
    In c (transient_classes ++ other_api_call_errors ++ other_exceptions).
Proof. intros []; cbn; auto 20. Qed.

Lemma removesakeys_policy :
  retry_policy (Removesakeys.attempts sa_email retries bf)
    (Removesakeys.list_then_delete sa_email) (-1)%Z
    transient_classes other_api_call_errors other_exceptions
    sa_email retries bf.
Proof.
  split; [|split; [|split; [|split; [|split; [|split]]]]].
  - intros remaining attempt w. apply removesakeys_bounded.
  - intros remaining attempt w. apply removesakeys_failure_is_late.
  - intros remaining attempt w e He Hin. cbv zeta. rewrite attempts_turn. cbv zeta.
    rewrite He.
    assert (Ht : Removesakeys.is_transient (class e) = true)
      by (class_cases e Hin).
    now rewrite Ht.
  - intros remaining attempt w e He Hin. rewrite attempts_turn. cbv zeta. rewrite He.
    assert (Ht : Removesakeys.is_transient (class e) = false
                 /\ is_GoogleAPICallError (class e) = true)
      by (class_cases e Hin).
    destruct Ht as [Ht Ha]. now rewrite Ht, Ha.
  - intros remaining attempt w e He Hin. rewrite attempts_turn. cbv zeta. rewrite He.
    assert (Ht : Removesakeys.is_transient (class e) = false
                 /\ is_GoogleAPICallError (class e) = false)
      by (class_cases e Hin).
    destruct Ht as [Ht Ha]. now rewrite Ht, Ha.
  - reflexivity.
  - apply every_class_is_listed.
Qed.

Lemma sleeps_app (t1 t2 : list event) : sleeps (t1 ++ t2) = sleeps t1 ++ sleeps t2.
Proof. apply omap_app. Qed.

Lemma transient_is_retried (e : exn) :
  In (class e) transient_classes -> Removesakeys.is_transient (class e) = true.
Proof. intros Hin. class_cases e Hin. Qed.

Lemma removesakeys_exhausted_from (remaining : nat) :
  (0 <= bf)%Q ->
  listing_always_raises_one_of transient_classes
    ("projects/-/serviceAccounts/" +:+ sa_email) ->
  forall attempt (w : W),
    let run := Removesakeys.attempts sa_email retries bf remaining attempt w in
    result run = inr (-1)%Z
    /\ key_listings (trace run) = remaining
    /\ sleeps (trace run)
       = (fun k => Qpower bf (Z.of_nat k)) <$> seq attempt remaining.
Proof.
  intros Hbf Hdown. induction remaining as [|remaining IH]; intros attempt w; cbv zeta.
  - repeat split.
  - rewrite attempts_turn, list_then_delete_turn. cbv zeta.
    destruct (Hdown w) as (e & w1 & Hlist & Htransient). rewrite Hlist. run_mk.
    rewrite (transient_is_retried e Htransient), (backoff_nonneg bf attempt Hbf). run_mk.
    destruct (IH (S attempt) w1) as (IHr & IHl & IHs).
    split; [exact IHr|]. split.
    + rewrite !key_listings_app, IHl. reflexivity.
    + rewrite !sleeps_app, IHs. reflexivity.
Qed.

End RemovesakeysPolicy.

(** ** Key Manager: list-and-delete of serviceaccountfactory.py *)

Section FactoryPolicy.
Context {W : Type} `{Provider W}.
Variables (sa_email sa_full_name : string) (retries : nat) (bf : Q).

Lemma factory_delete_each_turn (key_name : string) (rest : list string) (w : W) :
  Factory.delete_each (key_name :: rest) w
  = match iam_delete_service_account_key key_name w with
    | (inl e, w1) => (inl e, w1, [Call (DeleteServiceAccountKey key_name)])
    | (inr _, w1) =>
        let r := Factory.delete_each rest w1 in
        (result r, world r,
         [Call (DeleteServiceAccountKey key_name); Sleep (1 # 20)] ++ trace r)
    end.
Proof.
  cbn [Factory.delete_each].
  unfold bind_ok, bind, ret, sleep, emit, invoke, perform, result, world, trace.
  destruct (iam_delete_service_account_key key_name w) as [[e|u] w1]; [reflexivity|].
  destruct (Factory.delete_each rest w1) as [[r w2] t2]. reflexivity.
Qed.

Lemma factory_delete_each_counts (key_names : list string) :
  forall w : W,
    key_listings (trace (Factory.delete_each key_names w)) = 0
    /\ forall ok, result (Factory.delete_each key_names w) = inr ok -> ok = true.
Proof.
  induction key_names as [|key_name rest IH]; intros w.
  - split; [reflexivity|]. intros ok Hok. now injection Hok as <-.
  - rewrite factory_delete_each_turn.
    destruct (iam_delete_service_account_key key_name w) as [[e|u] w1].
    + split; [reflexivity | intros ok Hok; discriminate Hok].
    + destruct (IH w1) as [IHl IHok]. cbv zeta. run_mk. split; [|exact IHok].
      rewrite key_listings_app, IHl. reflexivity.
Qed.

Lemma factory_list_then_delete_turn (w : W) :
  Factory.list_then_delete sa_full_name w
  = match iam_list_service_account_keys sa_full_name w with
    | (inl e, w1) => (inl e, w1, [Call (ListServiceAccountKeys sa_full_name)])
    | (inr [], w1) => (inr true, w1, [Call (ListServiceAccountKeys sa_full_name)])
    | (inr key_names, w1) =>
        let r := Factory.delete_each key_names w1 in
        (result r, world r, [Call (ListServiceAccountKeys sa_full_name)] ++ trace r)
    end.
Proof.
  unfold Factory.list_then_delete.
  unfold bind_ok, bind, ret, invoke, perform, result, world, trace.
  destruct (iam_list_service_account_keys _ w) as [[e|[|k ks]] w1]; [reflexivity | reflexivity |].
  destruct (Factory.delete_each (k :: ks) w1) as [[r w2] t2]. reflexivity.
Qed.

Lemma factory_list_then_delete_counts (w : W) :
  key_listings (trace (Factory.list_then_delete sa_full_name w)) = 1
  /\ forall ok, result (Factory.list_then_delete sa_full_name w) = inr ok -> ok = true.
Proof.
  rewrite factory_list_then_delete_turn.
  destruct (iam_list_service_account_keys _ w) as [[e|[|k ks]] w1].
  - split; [reflexivity | intros ok Hok; discriminate Hok].
  - split; [reflexivity | intros ok Hok; now injection Hok as <-].
  - destruct (factory_delete_each_counts (k :: ks) w1) as [Hl Hok]. cbv zeta. run_mk.
    split; [|exact Hok]. rewrite (key_listings_app [_]), Hl. reflexivity.
Qed.

Lemma factory_attempts_turn (remaining attempt : nat) (w : W) :
  Factory.attempts sa_email sa_full_name retries bf (S remaining) attempt w
  = let a := Factory.list_then_delete sa_full_name w in
    match result a with
    | inr ok => (inr ok, world a, trace a)
    | inl e =>
        if Factory.is_transient (class e) then
          let sleep_time := Qpower bf (Z.of_nat attempt) in
          if Qle_bool 0 sleep_time then
            let r := Factory.attempts sa_email sa_full_name retries bf
                       remaining (S attempt) (world a) in
            (result r, world r,
             trace a ++ [Print (TransientError sa_email (attempt + 1) retries sleep_time);
                         Sleep sleep_time] ++ trace r)
          else
            (inl negative_sleep, world a,
             trace a ++ [Print (TransientError sa_email (attempt + 1) retries sleep_time)])
        else (inr false, world a, trace a ++ [Print (SevereError sa_email)])
    end.
Proof.
  cbn [Factory.attempts]. rewrite run_bind. cbv zeta.
  destruct (result (Factory.list_then_delete sa_full_name w)) as [e|ok].
  - destruct (Factory.is_transient (class e)).
    + unfold bind_ok, bind, ret, print, emit, time_sleep, result, world, trace.
      destruct (Qle_bool 0 _); cbn.
      * destruct (Factory.attempts _ _ _ _ _ _ _) as [[r w2] t2]. reflexivity.
      * reflexivity.
    + reflexivity.
  - cbn. now rewrite app_nil_r.
Qed.

Lemma factory_bounded (remaining : nat) :
  forall attempt (w : W),
    key_listings (trace (Factory.attempts sa_email sa_full_name retries bf
                           remaining attempt w)) <= remaining.
Proof.
  induction remaining as [|remaining IH]; intros attempt w; [cbn; lia|].
  rewrite factory_attempts_turn. cbv zeta.
  destruct (factory_list_then_delete_counts w) as [Hone _].
  destruct (result (Factory.list_then_delete sa_full_name w)) as [e|ok].
  - destruct (Factory.is_transient (class e)); [destruct (Qle_bool 0 _)|]; run_mk.
    + rewrite !key_listings_app, Hone.
      specialize (IH (S attempt) (world (Factory.list_then_delete sa_full_name w))).
      change (key_listings [Print _; Sleep _]) with 0. lia.
    + rewrite key_listings_app, Hone. cbn. lia.
    + rewrite key_listings_app, Hone. cbn. lia.
  - run_mk. lia.
Qed.

Lemma factory_failure_is_late (remaining : nat) :
  forall attempt (w : W),
    result (Factory.attempts sa_email sa_full_name retries bf remaining attempt w)
    = inr false ->
    key_listings (trace (Factory.attempts sa_email sa_full_name retries bf
                           remaining attempt w)) = remaining
    \/ existsb (fatal_abort sa_email)
         (trace (Factory.attempts sa_email sa_full_name retries bf
                   remaining attempt w)) = true.
Proof.
  induction remaining as [|remaining IH]; intros attempt w; [left; reflexivity|].
  rewrite factory_attempts_turn. cbv zeta.
  destruct (factory_list_then_delete_counts w) as [Hone Hok].
  destruct (result (Factory.list_then_delete sa_full_name w)) as [e|ok].
  - destruct (Factory.is_transient (class e)); [destruct (Qle_bool 0 _)|];
      run_mk; intros Hres.
    + destruct (IH _ _ Hres) as [IHn|IHf].
      * left. rewrite !key_listings_app, Hone, IHn.
        change (key_listings [Print _; Sleep _]) with 0. lia.
      * right. now apply existsb_app_r, existsb_app_r.
    + discriminate Hres.
    + right. apply existsb_app_r. cbn [existsb]. now rewrite fatal_abort_self.
  - run_mk. intros Hres. injection Hres as ->. now specialize (Hok _ eq_refl).
Qed.

Lemma factory_policy :
  retry_policy (Factory.attempts sa_email sa_full_name retries bf)
    (Factory.list_then_delete sa_full_name) false
    (transient_classes ++ [RetryError])
    (other_api_call_errors ++ [UnicodeDecodeError; OSError; ValueError; OtherException])
    []
    sa_email retries bf.
Proof.
  split; [|split; [|split; [|split; [|split; [|split]]]]].
  - intros remaining attempt w. apply factory_bounded.
  - intros remaining attempt w. apply factory_failure_is_late.
  - intros remaining attempt w e He Hin. cbv zeta. rewrite factory_attempts_turn. cbv zeta.
    rewrite He.
    assert (Ht : Factory.is_transient (class e) = true) by (class_cases e Hin).
    now rewrite Ht.
  - intros remaining attempt w e He Hin. rewrite factory_attempts_turn. cbv zeta.
    rewrite He.
    assert (Ht : Factory.is_transient (class e) = false) by (class_cases e Hin).
    now rewrite Ht.
  - intros remaining attempt w e He [].
  - reflexivity.
  - intros []; cbn; auto 20.
Qed.

Lemma factory_transient_is_retried (e : exn) :
  In (class e) (transient_classes ++ [RetryError]) ->
  Factory.is_transient (class e) = true.
Proof. intros Hin. class_cases e Hin. Qed.

Lemma factory_exhausted_from (remaining : nat) :
  (0 <= bf)%Q ->
  listing_always_raises_one_of (transient_classes ++ [RetryError]) sa_full_name ->
  forall attempt (w : W),
    let run := Factory.attempts sa_email sa_full_name retries bf remaining attempt w in
    result run = inr false
    /\ key_listings (trace run) = remaining
    /\ sleeps (trace run)
       = (fun k => Qpower bf (Z.of_nat k)) <$> seq attempt remaining.
Proof.
  intros Hbf Hdown. induction remaining as [|remaining IH]; intros attempt w; cbv zeta.
  - repeat split.
  - rewrite factory_attempts_turn, factory_list_then_delete_turn. cbv zeta.
    destruct (Hdown w) as (e & w1 & Hlist & Htransient). rewrite Hlist. run_mk.
    rewrite (factory_transient_is_retried e Htransient), (backoff_nonneg bf attempt Hbf).
    run_mk.
    destruct (IH (S attempt) w1) as (IHr & IHl & IHs).
    split; [exact IHr|]. split.
    + rewrite !key_listings_app, IHl. reflexivity.
    + rewrite !sleeps_app, IHs. reflexivity.
Qed.

End FactoryPolicy.


Lemma outage_listing_raises_unavailable (classes : list exn_class) (name : string) :
  In ServiceUnavailable classes ->
  listing_always_raises_one_of (W := unit) classes name.
Proof. intros Hin w. exists Outage.unavailable, w. split; [reflexivity | exact Hin]. Qed.



(** C3, as the script has it.  When the listing of the account returns
    [key_names] and every delete call returns, list-and-delete (with at
    least one attempt allowed) makes one listing, issues one delete call
    per listed key, in listing order, and returns their number; with no
    key listed it returns 0 and issues no delete call. *)
Theorem delete_count_equals_keys {W} `{Provider W}
    (sa_email : string) (retries : nat) (bf : Q) (w w1 : W) (key_names : list string) :
  iam_list_service_account_keys ("projects/-/serviceAccounts/" +:+ sa_email) w
  = (inr key_names, w1) ->
  deletes_succeed key_names w1 ->
  0 < retries ->
  let run := Removesakeys.delete_keys_for_account sa_email retries bf w in
  result run = inr (Z.of_nat (length key_names))
  /\ deletes (trace run) = length key_names
  /\ List.filter is_delete (trace run)
     = (fun k => Call (DeleteServiceAccountKey k)) <$> key_names
  /\ key_listings (trace run) = 1
  /\ (key_names = [] -> result run = inr 0%Z /\ deletes (trace run) = 0).
Proof.
  intros Hlist Hdel Hretries run.
  assert (Hmain : result run = inr (Z.of_nat (length key_names))
                  /\ List.filter is_delete (trace run)
                     = (fun k => Call (DeleteServiceAccountKey k)) <$> key_names
                  /\ key_listings (trace run) = 1).
  { subst run. unfold Removesakeys.delete_keys_for_account.
    destruct retries as [|n]; [lia|].
    rewrite attempts_turn. cbv zeta.
    destruct (list_then_delete_counts sa_email w) as [Hone _].
    revert Hone. rewrite list_then_delete_turn. cbv zeta. rewrite Hlist.
    destruct key_names as [|k ks]; [intros _; repeat split|].
    destruct (delete_each_succeeds (k :: ks) 0 w1 Hdel) as [Hr Ht].
    run_mk. rewrite Hr. run_mk. intros Hone.
    split; [reflexivity|]. split; [|exact Hone].
    rewrite List.filter_app, Ht. reflexivity. }
  destruct Hmain as (Hr & Ht & Hl).
  assert (Hd : deletes (trace run) = length key_names).
  { unfold deletes. rewrite Ht. apply length_fmap. }
  split; [exact Hr|]. split; [exact Hd|]. split; [exact Ht|]. split; [exact Hl|].
  intros ->. split; [exact Hr | exact Hd].
Qed.

Lemma delete_count_equals_keys_witness :
  deletes_succeed ["k1"; "k2"; "k3"] three_keys
  /\ (let run := Removesakeys.delete_keys_for_account holder 3 (3 # 2) three_keys in
      result run = inr 3%Z /\ deletes (trace run) = 3 /\ key_listings (trace run) = 1).
Proof.
  assert (Hdel : deletes_succeed ["k1"; "k2"; "k3"] three_keys).
  { repeat (eexists; split; [reflexivity|]). exact I. }
  split; [exact Hdel|].
  assert (Hlist : iam_list_service_account_keys
                    ("projects/-/serviceAccounts/" +:+ holder) three_keys
                  = (inr ["k1"; "k2"; "k3"], three_keys)) by reflexivity.
  destruct (delete_count_equals_keys holder 3 (3 # 2) three_keys three_keys
              ["k1"; "k2"; "k3"] Hlist Hdel (le_S _ _ (le_S _ _ (le_n 1))))
    as (Hr & Hd & _ & Hl & _).
  cbv zeta. split; [exact Hr|]. split; [exact Hd | exact Hl].
Defined.

(** C3 as stated fails when a delete call raises.  The listing returns
    three keys; with the second delete cut short once by [Aborted] the
    function issues four delete calls and returns 2, and with the first
    delete refused it issues one delete call and returns -1. *)
Lemma listed_keys_are_not_always_the_count :
  iam_list_service_account_keys (wildcard_resource holder) three_keys_one_abort
  = (inr ["k1"; "k2"; "k3"], three_keys_one_abort)
  /\ (let run := Removesakeys.delete_keys_for_account holder 3 (3 # 2)
                   three_keys_one_abort in
      result run = inr 2%Z /\ deletes (trace run) = 4)
  /\ iam_list_service_account_keys (wildcard_resource holder) three_keys_denied
     = (inr ["k1"; "k2"; "k3"], three_keys_denied)
  /\ (let run := Removesakeys.delete_keys_for_account holder 3 (3 # 2)
                   three_keys_denied in
      result run = inr (-1)%Z /\ deletes (trace run) = 1).
Proof. vm_compute. repeat split. Qed.

Section FinalAttempt.
Context {W : Type} `{Provider W}.
Variables (sa_email : string) (retries : nat) (bf : Q).

Lemma count_is_of_final_attempt (remaining : nat) :
  forall attempt (w : W) (n : Z),
    let run := Removesakeys.attempts sa_email retries bf remaining attempt w in
    result run = inr n -> (0 <= n)%Z ->
    exists w_last t_before,
      let final := Removesakeys.list_then_delete sa_email w_last in
      trace run = t_before ++ trace final
      /\ result final = inr n
      /\ world final = world run
      /\ n = Z.of_nat (deletes (trace final))
      /\ deletes (trace run) = deletes t_before + Z.to_nat n.
Proof.
  induction remaining as [|remaining IH]; intros attempt w n; cbv zeta.
  - cbn. intros Hn. injection Hn as <-. lia.
  - rewrite attempts_turn. cbv zeta.
    destruct (list_then_delete_counts sa_email w) as [_ Hcount].
    destruct (result (Removesakeys.list_then_delete sa_email w)) as [e|m] eqn:Hres.
    + destruct (Removesakeys.is_transient (class e)).
      * destruct (Qle_bool 0 _); run_mk; intros Hn Hpos; [|discriminate Hn].
        destruct (IH _ _ _ Hn Hpos) as (w_last & t_before & Ht & Hr & Hw & Hc & Hd).
        exists w_last.
        exists (trace (Removesakeys.list_then_delete sa_email w)
                ++ [Print (TransientError sa_email (attempt + 1) retries
                             (Qpower bf (Z.of_nat attempt)));
                    Sleep (Qpower bf (Z.of_nat attempt))]
                ++ t_before).
        cbv zeta in *.
        split; [rewrite Ht, <- !app_assoc; reflexivity|].
        split; [exact Hr|]. split; [exact Hw|]. split; [exact Hc|].
        rewrite !deletes_app, Hd. lia.
      * destruct (is_GoogleAPICallError (class e)); run_mk; intros Hn Hpos;
          [injection Hn as <-; lia | discriminate Hn].
    + run_mk. intros Hn Hpos. injection Hn as ->.
      exists w, []. cbv zeta. rewrite Hres.
      specialize (Hcount n eq_refl).
      split; [reflexivity|]. split; [reflexivity|]. split; [reflexivity|].
      split; [exact Hcount|]. cbn. lia.
Qed.

End FinalAttempt.

(** C9.  A count returned by list-and-delete is the number of delete calls
    of its final attempt, which listed the keys afresh and counted from 0:
    the delete calls of earlier attempts are in the trace and not in the
    count.  On an account with three keys, one transient error on the
    second delete makes the function issue four delete calls, delete all
    three keys and return 2. *)
Theorem count_excludes_earlier_attempts :
  (forall {W} `{Provider W} (sa_email : string) (retries : nat) (bf : Q) (w : W) (n : Z),
      let run := Removesakeys.delete_keys_for_account sa_email retries bf w in
      result run = inr n -> (0 <= n)%Z ->
      exists w_last t_before,
        let final := Removesakeys.list_then_delete sa_email w_last in
        trace run = t_before ++ trace final
        /\ result final = inr n
        /\ world final = world run
        /\ n = Z.of_nat (deletes (trace final))
        /\ deletes (trace run) = deletes t_before + Z.to_nat n)
  /\ (let run := Removesakeys.delete_keys_for_account holder 3 (3 # 2)
                   three_keys_one_abort in
      length (Fake.keys_of three_keys_one_abort holder) = 3
      /\ result run = inr 2%Z
      /\ deletes (trace run) = 4
      /\ Fake.keys_of (world run) holder = []).
Proof.
  split.
  - intros W P sa_email retries bf w n. apply count_is_of_final_attempt.
  - vm_compute. auto.
Qed.

Lemma count_excludes_earlier_attempts_witness :
  exists (w_last : Fake.state) t_before,
    let run := Removesakeys.delete_keys_for_account holder 3 (3 # 2) three_keys_one_abort in
    let final := Removesakeys.list_then_delete holder w_last in
    trace run = t_before ++ trace final
    /\ result final = inr 2%Z
    /\ deletes t_before = 2.
Proof.
  assert (Hrun : result (Removesakeys.delete_keys_for_account holder 3 (3 # 2)
                           three_keys_one_abort) = inr 2%Z) by (vm_compute; reflexivity).
  destruct (proj1 count_excludes_earlier_attempts Fake.state _ holder 3 (3 # 2)
              three_keys_one_abort 2%Z Hrun (Z.le_0_2))
    as (w_last & t_before & Ht & Hr & _ & _ & Hd).
  exists w_last, t_before. cbv zeta. split; [exact Ht|]. split; [exact Hr|].
  change (deletes (trace (Removesakeys.delete_keys_for_account holder 3 (3 # 2)
                            three_keys_one_abort))) with 4 in Hd.
  change (Z.to_nat 2) with 2 in Hd. lia.
Defined.

(** ** Key Manager: create-and-save *)

Ltac run_monad :=
  unfold bind_ok, bind, ret, print, sleep, emit, invoke, perform, result, world, trace in *.

Lemma discovery_invalid_argument {W} `{Provider W}
    (project_id sa_email sa_name : string) (w w' : W) (e : exn) :
  iam_create_service_account_key (key_resource project_id sa_email) w = (inl e, w') ->
  class e = InvalidArgument ->
  Makesakeys.create_and_save_key project_id sa_email sa_name w
  = (true, w',
     [Call (CreateServiceAccountKey (key_resource project_id sa_email));
      Print (if PyStr.contains "key limit reached" (PyStr.lower (text e))
             then KeyLimitReached sa_email else KeyArgumentError sa_email)]).
Proof.
  intros Hcall Hclass.
  unfold Makesakeys.create_and_save_key, Makesakeys.request_decode_write, key_resource in *.
  run_monad. rewrite Hcall. simpl. rewrite Hclass.
  destruct (PyStr.contains _ _); reflexivity.
Qed.

Lemma factory_invalid_argument {W} `{Provider W}
    (project_id sa_email : string) (number : nat) (w w' : W) (e : exn) :
  iam_create_service_account_key (key_resource project_id sa_email) w = (inl e, w') ->
  class e = InvalidArgument ->
  Factory.create_and_save_key project_id sa_email number w
  = (false, w',
     [Call (CreateServiceAccountKey (key_resource project_id sa_email));
      Print (if PyStr.contains "key limit reached" (PyStr.lower (text e))
             then KeyLimitReached sa_email else KeyArgumentError sa_email)]).
Proof.
  intros Hcall Hclass.
  unfold Factory.create_and_save_key, Factory.request_decode_write, key_resource in *.
  run_monad. rewrite Hcall. simpl. rewrite Hclass.
  destruct (PyStr.contains _ _); reflexivity.
Qed.

Lemma failed_items_single {W Item} (op : Item -> M W (exn + bool)) (x : Item) (w : W) :
  failed_items op [x] w = match result (op x w) with inr false => [x] | _ => [] end.
Proof. cbn. destruct (result (op x w)) as [e|[|]]; reflexivity. Qed.

Lemma discovery_op_result {W} `{Provider W} (project_id : string)
    (sa : Makesakeys.sa_info) (w : W) :
  result (Makesakeys.create_key_for project_id sa w)
  = inr (result (Makesakeys.create_and_save_key project_id
                   (Makesakeys.sa_email sa) (Makesakeys.name sa) w)).
Proof. unfold Makesakeys.create_key_for. now rewrite result_bind. Qed.

Lemma factory_op_result {W} `{Provider W} (project_id sa_name : string)
    (number : nat) (w : W) :
  PyStr.int (PyStr.last_field "-" sa_name) = Some number ->
  result (Factory.create_key_for project_id sa_name w)
  = inr (result (Factory.create_and_save_key project_id
                   (Factory.sa_email_of project_id sa_name) number w)).
Proof. intros Hn. unfold Factory.create_key_for. now rewrite Hn, result_bind. Qed.

(** C7.  When the key request for an account, any account, raises
    [InvalidArgument] with a text that contains, in any letter case,
    [key limit reached]: create-and-save of makesakeys.py prints the
    key-limit warning and returns [True], whatever the name of the account,
    so the account is not in the failure queue of its pass;
    create-and-save of serviceaccountfactory.py prints the warning and
    returns [False], whatever the number, so the account (a numbered name
    of step 3) is in the failure queue of its pass. *)
Theorem key_limit_by_mode {W} `{Provider W}
    (project_id sa_email : string) (w w' : W) (e : exn) :
  iam_create_service_account_key (key_resource project_id sa_email) w = (inl e, w') ->
  class e = InvalidArgument ->
  PyStr.contains "key limit reached" (PyStr.lower (text e)) = true ->
  (forall sa_name,
      Makesakeys.create_and_save_key project_id sa_email sa_name w
      = (true, w', [Call (CreateServiceAccountKey (key_resource project_id sa_email));
                    Print (KeyLimitReached sa_email)]))
  /\ (forall number,
        Factory.create_and_save_key project_id sa_email number w
        = (false, w', [Call (CreateServiceAccountKey (key_resource project_id sa_email));
                       Print (KeyLimitReached sa_email)]))
  /\ (forall sa_name,
        failed_items (Makesakeys.create_key_for project_id)
          [{| Makesakeys.name := sa_name; Makesakeys.sa_email := sa_email |}] w = [])
  /\ (forall sa_name,
        sa_email = Factory.sa_email_of project_id sa_name ->
        numbered sa_name ->
        failed_items (Factory.create_key_for project_id) [sa_name] w = [sa_name]).
Proof.
  intros Hcall Hclass Hlimit.
  assert (Hd : forall sa_name,
             Makesakeys.create_and_save_key project_id sa_email sa_name w
             = (true, w', [Call (CreateServiceAccountKey (key_resource project_id sa_email));
                           Print (KeyLimitReached sa_email)])).
  { intros sa_name.
    rewrite (discovery_invalid_argument project_id sa_email sa_name w w' e Hcall Hclass).
    now rewrite Hlimit. }
  assert (Hf : forall number,
             Factory.create_and_save_key project_id sa_email number w
             = (false, w', [Call (CreateServiceAccountKey (key_resource project_id sa_email));
                            Print (KeyLimitReached sa_email)])).
  { intros number.
    rewrite (factory_invalid_argument project_id sa_email number w w' e Hcall Hclass).
    now rewrite Hlimit. }
  split; [exact Hd|]. split; [exact Hf|]. split.
  - intros sa_name. rewrite failed_items_single, discovery_op_result.
    cbn [Makesakeys.sa_email Makesakeys.name]. now rewrite Hd.
  - intros sa_name -> [number Hnumber].
    rewrite failed_items_single, (factory_op_result _ _ _ _ Hnumber). now rewrite Hf.
Qed.

Lemma key_limit_by_mode_witness :
  iam_create_service_account_key (key_resource "p" runner) runner_ten_keys
  = (inl (Raised InvalidArgument "400 Precondition check failed: Key limit reached"),
     runner_ten_keys)
  /\ result (Makesakeys.create_and_save_key "p" runner "backup-runner" runner_ten_keys) = true
  /\ failed_items (Makesakeys.create_key_for "p") [discovered "p" "backup-runner"]
       runner_ten_keys = []
  /\ result (Factory.create_and_save_key "p" holder 1 ten_keys) = false
  /\ failed_items (Factory.create_key_for "p") ["sa-001"] ten_keys = ["sa-001"].
Proof.
  assert (Hrunner : iam_create_service_account_key (key_resource "p" runner) runner_ten_keys
                    = (inl (Raised InvalidArgument
                              "400 Precondition check failed: Key limit reached"),
                       runner_ten_keys)) by (vm_compute; reflexivity).
  assert (Hholder : iam_create_service_account_key (key_resource "p" holder) ten_keys
                    = (inl (Raised InvalidArgument
                              "400 Precondition check failed: Key limit reached"),
                       ten_keys)) by (vm_compute; reflexivity).
  split; [exact Hrunner|].
  destruct (key_limit_by_mode "p" runner runner_ten_keys runner_ten_keys _ Hrunner
              eq_refl eq_refl) as (Hd & _ & Hq & _).
  destruct (key_limit_by_mode "p" holder ten_keys ten_keys _ Hholder
              eq_refl eq_refl) as (_ & Hf & _ & Hfq).
  split; [exact (f_equal result (Hd "backup-runner"))|].
  split; [exact (Hq "backup-runner")|].
  split; [exact (f_equal result (Hf 1))|].
  apply (Hfq "sa-001"); [reflexivity | eexists; reflexivity].
Defined.

(** C10.  When the key request raises [InvalidArgument], whatever its
    text, create-and-save of makesakeys.py returns [True]: nothing is
    written, the world is as the refused request left it, the account is
    not in the failure queue of its pass, and a run on that account alone
    ends after one pass. *)
Theorem invalid_argument_is_handled {W} `{Provider W}
    (project_id : string) (sa : Makesakeys.sa_info) (w w' : W) (e : exn) :
  iam_create_service_account_key
    (key_resource project_id (Makesakeys.sa_email sa)) w = (inl e, w') ->
  class e = InvalidArgument ->
  let run := Makesakeys.create_and_save_key project_id
               (Makesakeys.sa_email sa) (Makesakeys.name sa) w in
  result run = true
  /\ world run = w'
  /\ List.filter is_write (trace run) = []
  /\ trace run
     = [Call (CreateServiceAccountKey (key_resource project_id (Makesakeys.sa_email sa)));
        Print (if PyStr.contains "key limit reached" (PyStr.lower (text e))
               then KeyLimitReached (Makesakeys.sa_email sa)
               else KeyArgumentError (Makesakeys.sa_email sa))]
  /\ failed_items (Makesakeys.create_key_for project_id) [sa] w = []
  /\ forall fuel, result (Makesakeys.main_create_keys (S fuel) project_id [sa] w)
                  = Some (inr 1).
Proof.
  intros Hcall Hclass run.
  pose proof (discovery_invalid_argument project_id (Makesakeys.sa_email sa)
                (Makesakeys.name sa) w w' e Hcall Hclass) as Hrun.
  fold run in Hrun.
  assert (Hfailed : failed_items (Makesakeys.create_key_for project_id) [sa] w = []).
  { rewrite failed_items_single, discovery_op_result. fold run. now rewrite Hrun. }
  rewrite Hrun. run_mk.
  split; [reflexivity|]. split; [reflexivity|].
  split; [destruct (PyStr.contains _ _); reflexivity|].
  split; [reflexivity|]. split; [exact Hfailed|].
  intros fuel. unfold Makesakeys.main_create_keys.
  rewrite retry_until_clean_turn. cbv zeta.
  destruct (run_pass_contract (Makesakeys.create_key_for project_id) (Some 10%Q)
              (create_key_for_returns project_id) [sa] w) as [Hr _].
  rewrite Hr, Hfailed. reflexivity.
Qed.

Lemma invalid_argument_is_handled_witness :
  let run := Makesakeys.create_and_save_key "p" holder "sa-001" refused in
  result run = true
  /\ trace run = [Call (CreateServiceAccountKey (key_resource "p" holder));
                  Print (KeyArgumentError holder)]
  /\ Fake.keys (world run) = []
  /\ Fake.files (world run) = [].
Proof.
  assert (Hcall : iam_create_service_account_key (key_resource "p" holder) refused
                  = (inl (Raised InvalidArgument "400 Invalid key algorithm"),
                     Fake.fresh "p" ["sa-001"])) by (vm_compute; reflexivity).
  destruct (invalid_argument_is_handled "p" (discovered "p" "sa-001") refused _ _
              Hcall eq_refl) as (Hr & Hw & _ & Ht & _ & _).
  cbv zeta. split; [exact Hr|]. split; [exact Ht|].
  change (world (Makesakeys.create_and_save_key "p" holder "sa-001" refused))
    with (world (Makesakeys.create_and_save_key "p"
                   (Makesakeys.sa_email (discovered "p" "sa-001"))
                   (Makesakeys.name (discovered "p" "sa-001")) refused)).
  rewrite Hw. split; reflexivity.
Defined.

(** ** Reconciler *)

Section ReconcilerFacts.
Context {W : Type} `{Provider W}.

Lemma target_sa_emails_list (prefix project_id : string) (n : Z) :
  Factory.target_sa_emails prefix project_id n
  = list_to_set ((fun i => Factory.sa_email_of project_id (numbered_name prefix i))
                   <$> seq 1 (Z.to_nat n)).
Proof.
  unfold Factory.target_sa_emails, Factory.target_sa_names.
  apply set_eq. intros x.
  rewrite elem_of_map, elem_of_list_to_set, list_elem_of_fmap.
  split.
  - intros (name & -> & Hname).
    apply elem_of_list_to_set, list_elem_of_fmap in Hname as (i & -> & Hi).
    exists i. split; [reflexivity | exact Hi].
  - intros (i & -> & Hi). exists (numbered_name prefix i). split; [reflexivity|].
    apply elem_of_list_to_set, list_elem_of_fmap. exists i. split; [reflexivity | exact Hi].
Qed.

(** [AlreadyExists] counts as success. *)
Lemma already_exists_is_success (project_id prefix : string) (number : nat)
    (w w' : W) (e : exn) :
  iam_create_service_account ("projects/" +:+ project_id) (numbered_name prefix number) w
  = (inl e, w') ->
  class e = AlreadyExists ->
  Factory.create_service_account project_id prefix number w
  = (true, w', [Call (CreateServiceAccount ("projects/" +:+ project_id)
                        (numbered_name prefix number))]).
Proof.
  intros Hcall Hclass. unfold Factory.create_service_account, numbered_name in *.
  unfold bind, ret, invoke, perform. rewrite Hcall. cbn. now rewrite Hclass.
Qed.

(** A satisfied target set: one listing, no create call, and the loop ends. *)
Lemma satisfied_targets_end_the_loop (project_id prefix : string)
    (targets : gset string) (all : list ServiceAccount) (w w' : W) (fuel : nat) :
  iam_list_service_accounts ("projects/" +:+ project_id) w = (inr all, w') ->
  targets ⊆ list_to_set (email <$> all) ->
  Factory.main_ensure_accounts (S fuel) project_id prefix targets w
  = (Some tt, w',
     [Print FetchingAccounts; Call (ListServiceAccounts ("projects/" +:+ project_id));
      Print AllAccountsExist]).
Proof.
  intros Hlist Hsub. cbn [Factory.main_ensure_accounts].
  unfold Factory.ensure_accounts_turn, bind, ret, print, emit, invoke, perform.
  rewrite Hlist.
  destruct (decide (targets ∖ list_to_set (email <$> all) = ∅)) as [_|Hne]; [reflexivity|].
  exfalso. apply Hne. now apply subseteq_empty_difference_L.
Qed.

(** A turn that finds one account missing whose email the pattern does not
    match: no create call, and the loop goes on. *)
Lemma unmatched_missing_account (project_id prefix : string)
    (targets : gset string) (all : list ServiceAccount) (w w' : W) (x : string) :
  iam_list_service_accounts ("projects/" +:+ project_id) w = (inr all, w') ->
  targets ∖ list_to_set (email <$> all) = {[ x ]} ->
  Factory.match_number prefix x = None ->
  Factory.ensure_accounts_turn project_id prefix targets w
  = (false, w',
     [Print FetchingAccounts; Call (ListServiceAccounts ("projects/" +:+ project_id));
      Print (MissingAccounts 1); Print Revalidating; Sleep 5]).
Proof.
  intros Hlist Hmissing Hmatch.
  unfold Factory.ensure_accounts_turn, bind, ret, print, sleep, emit, invoke, perform.
  rewrite Hlist, Hmissing.
  destruct (decide ({[ x ]} = (∅ : gset string))) as [Hempty|_];
    [now apply non_empty_singleton_L in Hempty|].
  rewrite size_singleton, elements_singleton. cbn. rewrite Hmatch. reflexivity.
Qed.

End ReconcilerFacts.

Lemma thousandth_is_new :
  forallb (fun i => negb (String.eqb (Factory.sa_email_of "p" (numbered_name "sa" i))
                                      (Factory.sa_email_of "p" (numbered_name "sa" 1000))))
          (seq 1 999) = true.
Proof. vm_compute. reflexivity. Qed.

Lemma almost_thousand_missing :
  Factory.target_sa_emails "sa" "p" 1000
    ∖ list_to_set (email <$> Fake.accounts almost_thousand)
  = {[ "sa-1000@p.iam.gserviceaccount.com" ]}.
Proof.
  rewrite target_sa_emails_list.
  change (Z.to_nat 1000) with (999 + 1).
  rewrite seq_app, fmap_app, list_to_set_app_L.
  change (email <$> Fake.accounts almost_thousand)
    with (email <$> (Fake.account "p" <$> (numbered_name "sa" <$> seq 1 999))).
  rewrite <- !list_fmap_compose.
  set (f := fun i => Factory.sa_email_of "p" (numbered_name "sa" i)).
  change (email ∘ Fake.account "p" ∘ numbered_name "sa") with f.
  change (f <$> seq (1 + 999) 1) with [f 1000].
  assert (Hnew : f 1000 ∉ (list_to_set (f <$> seq 1 999) : gset string)).
  { rewrite elem_of_list_to_set, list_elem_of_fmap. intros (i & Heq & Hi).
    pose proof thousandth_is_new as Hall. rewrite forallb_forall in Hall.
    apply list_elem_of_In in Hi. specialize (Hall i Hi). fold (f i) (f 1000) in Hall.
    rewrite <- Heq, String.eqb_refl in Hall. discriminate Hall. }
  change "sa-1000@p.iam.gserviceaccount.com" with (f 1000).
  generalize dependent (list_to_set (f <$> seq 1 999) : gset string).
  generalize (f 1000). clear. intros x existing Hnew.
  apply set_eq. intros y.
  rewrite elem_of_difference, elem_of_union, elem_of_list_to_set, list_elem_of_singleton,
    elem_of_singleton.
  split; [intros [[Hy| ->] Hnot]; [contradiction | reflexivity] | intros ->; auto].
Qed.

(** C5, at the input [prefix = sa], [total_target_count = 1000], with
    [sa-001 .. sa-999] present: [sa-1000] is in the target set, every turn
    of the reconciler finds it missing and issues no create call, and the
    loop is still running after any number of turns. *)
Theorem thousandth_account_is_never_created (fuel : nat) :
  let targets := Factory.target_sa_emails "sa" "p" 1000 in
  let run := Factory.main_ensure_accounts fuel "p" "sa" targets almost_thousand in
  Factory.sa_email_of "p" (numbered_name "sa" 1000) ∈ targets
  /\ Factory.match_number "sa" (Factory.sa_email_of "p" (numbered_name "sa" 1000)) = None
  /\ result run = None
  /\ world run = almost_thousand
  /\ List.filter is_create_account (trace run) = []
  /\ length (List.filter (fun e => match e with Print (MissingAccounts 1) => true | _ => false end)
               (trace run)) = fuel.
Proof.
  cbv zeta. split; [|split; [reflexivity|]].
  - rewrite target_sa_emails_list, elem_of_list_to_set, list_elem_of_fmap.
    exists 1000. split; [reflexivity|].
    apply list_elem_of_In, in_seq. cbn. lia.
  - induction fuel as [|fuel IH]; [repeat split|].
    cbn [Factory.main_ensure_accounts].
    assert (Hturn : Factory.ensure_accounts_turn "p" "sa"
                      (Factory.target_sa_emails "sa" "p" 1000) almost_thousand
                    = (false, almost_thousand,
                       [Print FetchingAccounts; Call (ListServiceAccounts "projects/p");
                        Print (MissingAccounts 1); Print Revalidating; Sleep 5])).
    { apply (unmatched_missing_account "p" "sa" _ (Fake.accounts almost_thousand)
               almost_thousand almost_thousand "sa-1000@p.iam.gserviceaccount.com").
      - reflexivity.
      - exact almost_thousand_missing.
      - reflexivity. }
    rewrite run_bind, Hturn. run_mk.
    destruct IH as (IHr & IHw & IHc & IHm).
    split; [exact IHr|]. split; [exact IHw|].
    rewrite !List.filter_app, IHc, length_app, IHm. split; reflexivity.
Qed.

(** * Further properties *)

(** ** Names, numbers and the discovery filter *)

Lemma append_nil (s : string) : EmptyString +:+ s = s.
Proof. reflexivity. Qed.

Lemma append_cons (c : ascii) (a b : string) : String c a +:+ b = String c (a +:+ b).
Proof. reflexivity. Qed.

Lemma split_nonempty (sep : ascii) (s : string) : PyStr.split sep s <> [].
Proof.
  destruct s as [|c s]; [discriminate|]. cbn.
  destruct (Ascii.eqb c sep); [discriminate|].
  destruct (PyStr.split sep s); discriminate.
Qed.

Lemma split_app (sep : ascii) (a b : string) :
  PyStr.split sep (a +:+ String sep b) = PyStr.split sep a ++ PyStr.split sep b.
Proof.
  induction a as [|c a IH]; rewrite ?append_nil, ?append_cons; cbn.
  - now rewrite Ascii.eqb_refl.
  - destruct (Ascii.eqb c sep); [now rewrite IH|].
    rewrite IH.
    destruct (PyStr.split sep a) as [|h t] eqn:Ha; [now apply split_nonempty in Ha|].
    reflexivity.
Qed.

Lemma split_absent (sep : ascii) (s : string) :
  occurs sep s = false -> PyStr.split sep s = [s].
Proof.
  induction s as [|c s IH]; [reflexivity|]. cbn.
  intros Hocc. apply orb_false_elim in Hocc as [Hc Hs].
  now rewrite Hc, (IH Hs).
Qed.

Lemma occurs_app (c : ascii) (a b : string) :
  occurs c (a +:+ b) = occurs c a || occurs c b.
Proof.
  induction a as [|x a IH]; [reflexivity|].
  rewrite append_cons. cbn. now rewrite IH, orb_assoc.
Qed.

Lemma first_field_app (sep : ascii) (a b : string) :
  occurs sep a = false -> PyStr.first_field sep (a +:+ String sep b) = a.
Proof.
  intros Ha. unfold PyStr.first_field. now rewrite split_app, (split_absent _ _ Ha).
Qed.

Lemma last_field_app (sep : ascii) (a b : string) :
  occurs sep b = false -> PyStr.last_field sep (a +:+ String sep b) = b.
Proof.
  intros Hb. unfold PyStr.last_field.
  rewrite split_app, (split_absent _ _ Hb). apply last_last.
Qed.

Lemma digits_only (c : ascii) (d : Decimal.uint) :
  PyStr.is_digit c = false -> occurs c (NilEmpty.string_of_uint d) = false.
Proof.
  intros Hc.
  induction d; cbn [occurs NilEmpty.string_of_uint]; rewrite ?IHd; try reflexivity;
    match goal with
    | |- context [Ascii.eqb ?a c] =>
        destruct (Ascii.eqb_spec a c) as [<-|_]; [discriminate Hc | reflexivity]
    end.
Qed.

Lemma fmt_03d_digits_only (c : ascii) (n : nat) :
  PyStr.is_digit c = false -> occurs c (PyStr.fmt_03d n) = false.
Proof.
  intros Hc. unfold PyStr.fmt_03d.
  pose proof (digits_only c (Nat.to_uint n) Hc) as Hd.
  assert (Hz : Ascii.eqb "0" c = false).
  { destruct (Ascii.eqb_spec "0"%char c) as [<-|_]; [discriminate Hc | reflexivity]. }
  destruct (String.length _) as [|[|[|k]]]; rewrite ?append_cons, ?append_nil;
    cbn [occurs]; rewrite ?Hz; exact Hd.
Qed.

Lemma int_fmt_03d (n : nat) : PyStr.int (PyStr.fmt_03d n) = Some n.
Proof.
  unfold PyStr.fmt_03d.
  pose proof (NilEmpty.usu (Nat.to_uint n)) as Hu.
  pose proof (DecimalNat.Unsigned.of_to n) as Hn.
  destruct (NilEmpty.string_of_uint (Nat.to_uint n)) as [|a [|b [|c s]]] eqn:Hs.
  - cbn in Hu. injection Hu as Hu. rewrite <- Hu in Hn. cbn in Hn. subst n.
    discriminate Hs.
  - cbn [String.length]. unfold PyStr.int. rewrite !append_cons, append_nil.
    cbn [NilEmpty.uint_of_string] in *. rewrite Hu.
    change (Some (Nat.of_uint (Nat.to_uint n)) = Some n). now rewrite Hn.
  - cbn [String.length]. unfold PyStr.int. rewrite !append_cons, append_nil.
    cbn [NilEmpty.uint_of_string] in *. rewrite Hu.
    change (Some (Nat.of_uint (Nat.to_uint n)) = Some n). now rewrite Hn.
  - cbn [String.length]. unfold PyStr.int. rewrite Hu.
    change (Some (Nat.of_uint (Nat.to_uint n)) = Some n). now rewrite Hn.
Qed.

Lemma numbered_name_last_field (prefix : string) (n : nat) :
  PyStr.last_field "-" (numbered_name prefix n) = PyStr.fmt_03d n.
Proof.
  unfold numbered_name.
  change (prefix +:+ "-" +:+ PyStr.fmt_03d n)
    with (prefix +:+ String "-"%char (PyStr.fmt_03d n)).
  apply last_field_app, fmt_03d_digits_only. reflexivity.
Qed.

Lemma target_sa_names_elem (prefix : string) (total : Z) (sa_name : string) :
  sa_name ∈ Factory.target_sa_names prefix total <->
  exists i, 1 <= i <= Z.to_nat total /\ sa_name = numbered_name prefix i.
Proof.
  unfold Factory.target_sa_names.
  rewrite elem_of_list_to_set, list_elem_of_fmap. split.
  - intros (i & -> & Hi). apply list_elem_of_In, in_seq in Hi.
    exists i. split; [lia | reflexivity].
  - intros (i & Hi & ->). exists i. split; [reflexivity|].
    apply list_elem_of_In, in_seq. lia.
Qed.

(** X1.  Every name of the target set of serviceaccountfactory.py is
    [prefix-NNN] for an index between 1 and the target count, and step 3
    reads that index back from the name: [int] never raises there, and the
    per-item work is create-and-save for that index, whatever the prefix
    (hyphens included) and however large the count. *)
Theorem step3_reads_back_the_index {W} `{Provider W}
    (prefix project_id : string) (total : Z) (sa_name : string) :
  sa_name ∈ Factory.target_sa_names prefix total ->
  exists i,
    1 <= i <= Z.to_nat total
    /\ sa_name = prefix +:+ "-" +:+ PyStr.fmt_03d i
    /\ PyStr.int (PyStr.last_field "-" sa_name) = Some i
    /\ forall w : W,
         result (Factory.create_key_for project_id sa_name w)
         = inr (result (Factory.create_and_save_key project_id
                          (Factory.sa_email_of project_id sa_name) i w)).
Proof.
  intros Hin. apply target_sa_names_elem in Hin as (i & Hi & ->).
  assert (Hint : PyStr.int (PyStr.last_field "-" (numbered_name prefix i)) = Some i).
  { rewrite numbered_name_last_field. apply int_fmt_03d. }
  exists i. split; [exact Hi|]. split; [reflexivity|]. split; [exact Hint|].
  intros w. now apply factory_op_result.
Qed.

Lemma step3_reads_back_the_index_witness :
  "my-sa-1234" ∈ Factory.target_sa_names "my-sa" 2000
  /\ PyStr.int (PyStr.last_field "-" "my-sa-1234") = Some 1234.
Proof.
  assert (Hin : "my-sa-1234" ∈ Factory.target_sa_names "my-sa" 2000).
  { apply target_sa_names_elem. exists 1234. split; [lia | reflexivity]. }
  split; [exact Hin|].
  destruct (step3_reads_back_the_index (W := unit) "my-sa" "p" 2000 "my-sa-1234" Hin)
    as (i & _ & Hname & Hint & _).
  rewrite Hint. f_equal.
  assert (Hi : PyStr.int (PyStr.last_field "-" "my-sa-1234") = Some 1234) by reflexivity.
  congruence.
Defined.

Lemma numbered_name_no_at (prefix : string) (n : nat) :
  occurs "@" prefix = false -> occurs "@" (numbered_name prefix n) = false.
Proof.
  intros Hp. unfold numbered_name. rewrite !occurs_app, Hp.
  now rewrite (fmt_03d_digits_only "@" n eq_refl).
Qed.

(** X2.  An account with the email serviceaccountfactory.py gives to
    [prefix-NNN] has [prefix-NNN] as its short name and passes the prefix
    filter of removesakeys.py for the same prefix, provided the prefix
    contains no [@]: what the factory creates, the deletion script finds. *)
Theorem factory_accounts_pass_the_filter {W} `{Provider W}
    (prefix project_id : string) (n : nat) (a : ServiceAccount)
    (accounts : list ServiceAccount) (w w' : W) :
  occurs "@" prefix = false ->
  email a = Factory.sa_email_of project_id (prefix +:+ "-" +:+ PyStr.fmt_03d n) ->
  iam_list_service_accounts ("projects/" +:+ project_id) w = (inr accounts, w') ->
  In a accounts ->
  short_name a = prefix +:+ "-" +:+ PyStr.fmt_03d n
  /\ exists targets,
       result (Removesakeys.find_target_service_accounts project_id prefix w) = inr targets
       /\ In a targets.
Proof.
  intros Hp Hemail Hlist Hin.
  assert (Hshort : short_name a = numbered_name prefix n).
  { unfold short_name. rewrite Hemail. unfold Factory.sa_email_of.
    apply (first_field_app "@" (numbered_name prefix n)
             (project_id +:+ ".iam.gserviceaccount.com")).
    now apply numbered_name_no_at. }
  split; [exact Hshort|].
  exists (List.filter (matches prefix) accounts).
  split; [eapply find_target_service_accounts_run; eassumption|].
  apply filter_In. split; [exact Hin|].
  unfold matches, PyStr.startswith. rewrite Hshort.
  apply prefix_iff_app. eexists. reflexivity.
Qed.

Lemma factory_accounts_pass_the_filter_witness :
  exists targets,
    result (Removesakeys.find_target_service_accounts "p" "sa" nine_accounts) = inr targets
    /\ In (Fake.account "p" "sa-007") targets.
Proof.
  assert (Hlist : iam_list_service_accounts ("projects/" +:+ "p") nine_accounts
                  = (inr (Fake.accounts nine_accounts), nine_accounts)) by reflexivity.
  destruct (factory_accounts_pass_the_filter "sa" "p" 7 (Fake.account "p" "sa-007")
              (Fake.accounts nine_accounts) nine_accounts nine_accounts
              eq_refl eq_refl Hlist) as [_ Htargets].
  - cbn. tauto.
  - exact Htargets.
Defined.

(** ** Sorting as the scripts use it *)

Section SortedFacts.
Context {A : Type} (leb : A -> A -> bool).

Lemma insert_sorted_perm (x : A) (l : list A) :
  Permutation (x :: l) (PyStr.insert_sorted leb x l).
Proof.
  induction l as [|y l IH]; cbn; [reflexivity|].
  destruct (leb y x); [|reflexivity].
  rewrite perm_swap. now apply perm_skip.
Qed.

Lemma sorted_perm (l : list A) : Permutation l (PyStr.sorted leb l).
Proof.
  unfold PyStr.sorted.
  assert (Hgen : forall acc, Permutation (acc ++ l)
                   (fold_left (fun acc x => PyStr.insert_sorted leb x acc) l acc)).
  { induction l as [|x l IH]; intros acc; cbn; [now rewrite app_nil_r|].
    rewrite <- IH, <- insert_sorted_perm. cbn.
    symmetry. apply Permutation_middle. }
  exact (Hgen []).
Qed.

Hypothesis leb_total : forall a b, leb a b = true \/ leb b a = true.

Lemma insert_sorted_Sorted (x : A) (l : list A) :
  Sorted (fun a b => leb a b = true) l ->
  Sorted (fun a b => leb a b = true) (PyStr.insert_sorted leb x l).
Proof.
  induction 1 as [|y l Hsorted IH Hhd]; cbn; [repeat constructor|].
  destruct (leb y x) eqn:Hyx.
  - constructor; [exact IH|].
    destruct l as [|z l]; cbn; [constructor; exact Hyx|].
    destruct (leb z x); constructor; [now inversion Hhd | exact Hyx].
  - constructor; [now constructor|]. constructor.
    destruct (leb_total x y) as [Hxy|Hxy]; [exact Hxy | congruence].
Qed.

Lemma sorted_Sorted (l : list A) :
  Sorted (fun a b => leb a b = true) (PyStr.sorted leb l).
Proof.
  unfold PyStr.sorted.
  assert (Hgen : forall acc, Sorted (fun a b => leb a b = true) acc ->
                   Sorted (fun a b => leb a b = true)
                     (fold_left (fun acc x => PyStr.insert_sorted leb x acc) l acc)).
  { induction l as [|x l IH]; intros acc Hacc; cbn; [exact Hacc|].
    apply IH, insert_sorted_Sorted, Hacc. }
  apply Hgen. constructor.
Qed.

End SortedFacts.

Lemma Sorted_weaken {A} (R R' : A -> A -> Prop) (l : list A) :
  (forall a b, R a b -> R' a b) -> Sorted R l -> Sorted R' l.
Proof.
  intros Himpl. induction 1 as [|x l Hs IH Hhd]; constructor; [exact IH|].
  destruct Hhd; constructor. now apply Himpl.
Qed.

Lemma nat_leb_total (a b : nat) : Nat.leb a b = true \/ Nat.leb b a = true.
Proof. rewrite !Nat.leb_le. lia. Qed.

Lemma sorted_numbers (l : list nat) : Sorted le (PyStr.sorted Nat.leb l).
Proof.
  apply (Sorted_weaken (fun a b => Nat.leb a b = true)).
  - intros a b. apply Nat.leb_le.
  - apply sorted_Sorted, nat_leb_total.
Qed.

Lemma create_key_for_requests {W} `{Provider W} (project_id : string)
    (sa : Makesakeys.sa_info) (w : W) :
  List.filter is_create_key (trace (Makesakeys.create_key_for project_id sa w))
  = [Call (CreateServiceAccountKey (key_resource project_id (Makesakeys.sa_email sa)))].
Proof. unfold key_resource. run_create_key; reflexivity. Qed.

Lemma rate_limit_no_request {W} (is_item : event -> bool) (d : Q) (i total : nat) (w : W) :
  (forall d', is_item (Sleep d') = false) ->
  List.filter is_item (trace (rate_limit d i total w)) = [].
Proof.
  intros Hs. unfold rate_limit. destruct (_ && _); [|reflexivity].
  cbn. now rewrite Hs.
Qed.

Lemma pass_requests {W} `{Provider W} (project_id : string) (total : nat)
    (queue : list Makesakeys.sa_info) :
  forall i (w : W),
    List.filter is_create_key
      (trace (process_queue (Makesakeys.create_key_for project_id) (Some 10%Q) total i queue w))
    = (fun sa => Call (CreateServiceAccountKey
                         (key_resource project_id (Makesakeys.sa_email sa)))) <$> queue.
Proof.
  induction queue as [|sa rest IH]; intros i w; [reflexivity|].
  destruct (create_key_for_returns project_id sa w) as [ok Hok].
  cbn [process_queue].
  rewrite (trace_bind_ok_inr _ _ _ _ Hok), trace_bind, trace_bind_ok_ret.
  rewrite !List.filter_app, create_key_for_requests, IH.
  now rewrite (rate_limit_no_request is_create_key) by reflexivity.
Qed.

(** X3.  The queue of makesakeys.py holds every discovered account once,
    in the order of the names, and a pass sends one key request per queued
    account in that order, whatever the provider answers. *)
Theorem queue_is_sorted_and_complete {W} `{Provider W}
    (project_id : string) (target_sas : list Makesakeys.sa_info) (w : W) :
  let queue := Makesakeys.key_creation_queue target_sas in
  Permutation target_sas queue
  /\ Sorted (fun a b => String.leb (Makesakeys.name a) (Makesakeys.name b) = true) queue
  /\ List.filter is_create_key
       (trace (run_pass (Makesakeys.create_key_for project_id) (Some 10%Q) queue w))
     = (fun sa => Call (CreateServiceAccountKey
                          (key_resource project_id (Makesakeys.sa_email sa)))) <$> queue.
Proof.
  cbv zeta. split; [apply sorted_perm|]. split.
  - apply (sorted_Sorted (fun a b => String.leb (Makesakeys.name a) (Makesakeys.name b))).
    intros a b. apply String.leb_total.
  - apply pass_requests.
Qed.

(** ** Reconciler: the counts the pattern covers *)

Lemma append_assoc (a b c : string) : (a +:+ b) +:+ c = a +:+ (b +:+ c).
Proof.
  induction a as [|x a IH]; [reflexivity|].
  rewrite !append_cons. now rewrite IH.
Qed.

Lemma strip_prefix_app (p s : string) : PyStr.strip_prefix p (p +:+ s) = Some s.
Proof.
  induction p as [|a p IH]; [now destruct s|].
  rewrite append_cons. cbn. now rewrite Ascii.eqb_refl.
Qed.

Lemma three_digits_below_1000 :
  forallb (fun n => match PyStr.fmt_03d n with
                    | String d1 (String d2 (String d3 EmptyString)) =>
                        PyStr.is_digit d1 && PyStr.is_digit d2 && PyStr.is_digit d3
                    | _ => false
                    end) (seq 0 1000) = true.
Proof. vm_compute. reflexivity. Qed.

(** The model of the match, on the email of a numbered name. *)
Lemma match_number_on_numbered_name (prefix project_id : string) (n : nat) :
  n <= 999 ->
  Factory.match_number prefix
    (Factory.sa_email_of project_id (prefix +:+ "-" +:+ PyStr.fmt_03d n)) = Some n.
Proof.
  intros Hn.
  pose proof three_digits_below_1000 as Hall. rewrite forallb_forall in Hall.
  specialize (Hall n). rewrite in_seq in Hall. specialize (Hall ltac:(lia)).
  pose proof (int_fmt_03d n) as Hint.
  unfold Factory.match_number, Factory.sa_email_of.
  replace ((prefix +:+ "-" +:+ PyStr.fmt_03d n)
           +:+ "@" +:+ project_id +:+ ".iam.gserviceaccount.com")
    with ((prefix +:+ "-")
          +:+ (PyStr.fmt_03d n +:+ "@" +:+ project_id +:+ ".iam.gserviceaccount.com")).
  2:{ now rewrite !append_assoc. }
  rewrite strip_prefix_app.
  destruct (PyStr.fmt_03d n) as [|d1 [|d2 [|d3 [|d4 s]]]]; try discriminate Hall.
  rewrite !append_cons, append_nil. now rewrite Hall.
Qed.


(** X4.  For a prefix that holds no character with a special meaning in a
    pattern, and an index of at most three digits, the pattern of
    serviceaccountfactory.py:155 reads the index back from the email of
    [prefix-NNN], whatever the project.  (With a special character in the
    prefix the script's pattern is another one, which the model does not
    follow.) *)
Theorem match_number_reads_back (prefix project_id : string) (n : nat) :
  Factory.regex_literal prefix = true ->
  n <= 999 ->
  Factory.match_number prefix
    (Factory.sa_email_of project_id (prefix +:+ "-" +:+ PyStr.fmt_03d n)) = Some n.
Proof. intros _ Hn. now apply match_number_on_numbered_name. Qed.

Lemma match_number_reads_back_witness :
  Factory.match_number "my-sa" "my-sa-042@proj.iam.gserviceaccount.com" = Some 42.
Proof.
  apply (match_number_reads_back "my-sa" "proj" 42); [reflexivity | lia].
Defined.

Section ReconcilerTurn.
Context {W : Type} `{Provider W}.
Variables (project_id prefix : string).

Lemma create_service_account_call (number : nat) (w : W) :
  List.filter is_create_account
    (trace (Factory.create_service_account project_id prefix number w))
  = [Call (CreateServiceAccount ("projects/" +:+ project_id) (numbered_name prefix number))].
Proof.
  unfold Factory.create_service_account, numbered_name.
  unfold bind, ret, print, sleep, emit, invoke, perform, trace.
  destruct (iam_create_service_account _ _ w) as [[e|[]] w1]; cbn; [|reflexivity].
  destruct (class e); reflexivity.
Qed.

Lemma create_accounts_calls (total : nat) (numbers : list nat) :
  forall i (w : W),
    List.filter is_create_account
      (trace (Factory.create_accounts project_id prefix total i numbers w))
    = (fun n => Call (CreateServiceAccount ("projects/" +:+ project_id)
                        (numbered_name prefix n))) <$> numbers.
Proof.
  induction numbers as [|number rest IH]; intros i w; [reflexivity|].
  cbn [Factory.create_accounts].
  rewrite !trace_bind, !List.filter_app, create_service_account_call, IH.
  now rewrite (rate_limit_no_request is_create_account) by reflexivity.
Qed.

Lemma fold_left_append_omap {A B} (f : A -> option B) (l : list A) (acc : list B) :
  fold_left (fun acc x => match f x with Some y => acc ++ [y] | None => acc end) l acc
  = acc ++ omap f l.
Proof.
  revert acc. induction l as [|x l IH]; intros acc; cbn; [now rewrite app_nil_r|].
  rewrite IH. destruct (f x); [|reflexivity]. now rewrite <- app_assoc.
Qed.

(** The create calls of one turn, for any target set. *)
Lemma turn_create_calls (targets : gset string) (all : list ServiceAccount) (w w' : W) :
  iam_list_service_accounts ("projects/" +:+ project_id) w = (inr all, w') ->
  List.filter is_create_account
    (trace (Factory.ensure_accounts_turn project_id prefix targets w))
  = (fun n => Call (CreateServiceAccount ("projects/" +:+ project_id)
                      (numbered_name prefix n)))
      <$> PyStr.sorted Nat.leb
            (omap (Factory.match_number prefix)
                  (elements (targets ∖ list_to_set (email <$> all)))).
Proof.
  intros Hlist.
  unfold Factory.ensure_accounts_turn, bind, ret, print, sleep, emit, invoke, perform.
  rewrite Hlist.
  destruct (decide (targets ∖ list_to_set (email <$> all) = ∅)) as [Hempty|Hne].
  - rewrite Hempty, elements_empty. reflexivity.
  - rewrite (fold_left_append_omap (Factory.match_number prefix)). cbn [app].
    match goal with
    | |- context [Factory.create_accounts ?p ?q ?total ?i ?numbers ?w0] =>
        pose proof (create_accounts_calls total numbers i w0) as Hcalls;
        destruct (Factory.create_accounts p q total i numbers w0) as [[u w2] t2]
    end.
    unfold trace in Hcalls |- *. cbn [snd] in Hcalls |- *.
    cbn [List.filter is_create_account].
    rewrite List.filter_app, Hcalls. cbn. now rewrite app_nil_r.
Qed.

End ReconcilerTurn.

Lemma NoDup_omap_inj {A B} (g : A -> option B) (l : list A) :
  NoDup l ->
  (forall x y z, x ∈ l -> y ∈ l -> g x = Some z -> g y = Some z -> x = y) ->
  NoDup (omap g l).
Proof.
  induction 1 as [|x l Hx Hl IH]; intros Hinj; cbn; [constructor|].
  assert (IH' : NoDup (omap g l)).
  { apply IH. intros a b z Ha Hb. apply Hinj; now right. }
  destruct (g x) as [z|] eqn:Hgx; [|exact IH'].
  constructor; [|exact IH'].
  rewrite list_elem_of_omap. intros (y & Hy & Hgy).
  apply Hx. rewrite (Hinj x y z); auto; [left | now right].
Qed.

Lemma listed_elem (all : list ServiceAccount) (sa_email : string) :
  listed all sa_email = true <-> sa_email ∈ (list_to_set (email <$> all) : gset string).
Proof.
  unfold listed. rewrite existsb_exists, elem_of_list_to_set, list_elem_of_fmap.
  split.
  - intros (a & Ha & Heq). apply String.eqb_eq in Heq. exists a.
    split; [now symmetry | now apply list_elem_of_In].
  - intros (a & -> & Ha). exists a. split; [now apply list_elem_of_In | apply String.eqb_refl].
Qed.

Lemma StronglySorted_filter {A} (R : A -> A -> Prop) (p : A -> bool) (l : list A) :
  StronglySorted R l -> StronglySorted R (List.filter p l).
Proof.
  induction 1 as [|x l Hs IH Hall]; cbn; [constructor|].
  destruct (p x); [|exact IH]. constructor; [exact IH|].
  rewrite Forall_forall in *. intros y Hy. apply list_elem_of_In, filter_In in Hy.
  apply Hall, list_elem_of_In, Hy.
Qed.

Lemma StronglySorted_seq (a n : nat) : StronglySorted le (seq a n).
Proof.
  revert a. induction n as [|n IH]; intros a; cbn; constructor; [apply IH|].
  rewrite Forall_forall. intros y Hy. apply list_elem_of_In, in_seq in Hy. lia.
Qed.

Section ReconcilerUpTo999.
Variables (prefix project_id : string) (total : Z) (all : list ServiceAccount).
Hypothesis Htotal : (total <= 999)%Z.

Let f (i : nat) : string := Factory.sa_email_of project_id (numbered_name prefix i).
Let missing : gset string :=
  Factory.target_sa_emails prefix project_id total ∖ list_to_set (email <$> all).

Lemma missing_elem (e : string) :
  e ∈ missing <-> exists i, 1 <= i <= Z.to_nat total /\ e = f i /\ listed all e = false.
Proof.
  unfold missing. rewrite elem_of_difference, target_sa_emails_list.
  rewrite elem_of_list_to_set, list_elem_of_fmap, <- listed_elem. split.
  - intros [(i & -> & Hi) Hnot]. apply list_elem_of_In, in_seq in Hi.
    exists i. split; [lia|]. split; [reflexivity|]. now destruct (listed all _).
  - intros (i & Hi & -> & Hnot). split.
    + exists i. split; [reflexivity|]. apply list_elem_of_In, in_seq. lia.
    + now rewrite Hnot.
Qed.

Lemma match_number_on_target (i : nat) :
  1 <= i <= Z.to_nat total -> Factory.match_number prefix (f i) = Some i.
Proof. intros Hi. apply match_number_on_numbered_name. lia. Qed.

Lemma numbers_of_missing :
  Permutation (omap (Factory.match_number prefix) (elements missing))
              (missing_indices prefix project_id total all).
Proof.
  apply NoDup_Permutation.
  - apply NoDup_omap_inj; [apply NoDup_elements|].
    intros x y z Hx Hy Hgx Hgy.
    apply elem_of_elements, missing_elem in Hx as (i & Hi & -> & _).
    apply elem_of_elements, missing_elem in Hy as (j & Hj & -> & _).
    rewrite match_number_on_target in Hgx, Hgy by assumption. congruence.
  - unfold missing_indices. apply NoDup_ListNoDup, List.NoDup_filter, NoDup_ListNoDup, NoDup_seq.
  - intros i. rewrite list_elem_of_omap. unfold missing_indices.
    rewrite list_elem_of_In, filter_In, in_seq, negb_true_iff. fold (f i). split.
    + intros (e & He & Hm). apply elem_of_elements, missing_elem in He as (j & Hj & -> & Hnot).
      rewrite match_number_on_target in Hm by assumption. injection Hm as <-.
      split; [lia | exact Hnot].
    + intros [Hi Hnot]. exists (f i). split.
      * apply elem_of_elements, missing_elem. exists i. split; [lia|]. now split.
      * apply match_number_on_target. lia.
Qed.

Lemma sorted_numbers_of_missing :
  PyStr.sorted Nat.leb (omap (Factory.match_number prefix) (elements missing))
  = missing_indices prefix project_id total all.
Proof.
  apply (StronglySorted_unique le).
  - apply Sorted_StronglySorted; [apply _ | apply sorted_numbers].
  - apply StronglySorted_filter, StronglySorted_seq.
  - rewrite <- sorted_perm. exact numbers_of_missing.
Qed.

End ReconcilerUpTo999.

(** X5.  For a prefix that holds no character with a special meaning in a
    pattern and a target count of at most 999, one turn of the reconciler
    whose listing returns issues one create-account call for every target
    name that has no account in the listing and for no other name, in
    ascending order of the index; it breaks the loop exactly when no target
    name is missing. *)
Theorem reconciler_creates_the_missing {W} `{Provider W}
    (project_id prefix : string) (total : Z) (all : list ServiceAccount) (w w' : W) :
  Factory.regex_literal prefix = true ->
  (total <= 999)%Z ->
  iam_list_service_accounts ("projects/" +:+ project_id) w = (inr all, w') ->
  let turn := Factory.ensure_accounts_turn project_id prefix
                (Factory.target_sa_emails prefix project_id total) w in
  List.filter is_create_account (trace turn)
  = (fun i => Call (CreateServiceAccount ("projects/" +:+ project_id)
                      (prefix +:+ "-" +:+ PyStr.fmt_03d i)))
      <$> missing_indices prefix project_id total all
  /\ (result turn = true <-> missing_indices prefix project_id total all = []).
Proof.
  intros _ Htotal Hlist turn. split.
  - subst turn. rewrite (turn_create_calls _ _ _ all w w' Hlist).
    now rewrite sorted_numbers_of_missing.
  - subst turn.
    unfold Factory.ensure_accounts_turn, bind, ret, print, sleep, emit, invoke, perform.
    rewrite Hlist.
    pose proof (numbers_of_missing prefix project_id total all Htotal) as Hperm.
    destruct (decide (_ ∖ _ = ∅)) as [Hempty|Hne].
    + rewrite Hempty, elements_empty in Hperm. cbn in Hperm.
      apply Permutation_nil in Hperm. rewrite Hperm. run_mk. tauto.
    + match goal with
      | |- context [Factory.create_accounts ?p ?q ?t ?i ?numbers ?w0] =>
          destruct (Factory.create_accounts p q t i numbers w0) as [[u w2] t2]
      end.
      run_mk. split; [discriminate|].
      intros Hnil. rewrite Hnil in Hperm. apply Permutation_sym, Permutation_nil in Hperm.
      exfalso.
      destruct (elements _) as [|e l] eqn:He.
      * apply Hne, set_eq. intros x. rewrite <- elem_of_elements, He.
        rewrite elem_of_nil. split; [tauto | intros Hx; now apply not_elem_of_empty in Hx].
      * assert (Hin : e ∈ Factory.target_sa_emails prefix project_id total
                          ∖ list_to_set (email <$> all)).
        { apply elem_of_elements. rewrite He. left. }
        apply (missing_elem prefix project_id total all) in Hin as (i & Hi & -> & _).
        cbn [omap list_omap] in Hperm.
        rewrite (match_number_on_target prefix project_id total Htotal i Hi) in Hperm.
        discriminate Hperm.
Qed.

Lemma reconciler_creates_the_missing_witness :
  missing_indices "sa" "p" 6 (Fake.accounts two_of_six) = [1; 3; 4; 6]
  /\ List.filter is_create_account
       (trace (Factory.ensure_accounts_turn "p" "sa"
                 (Factory.target_sa_emails "sa" "p" 6) two_of_six))
     = [Call (CreateServiceAccount "projects/p" "sa-001");
        Call (CreateServiceAccount "projects/p" "sa-003");
        Call (CreateServiceAccount "projects/p" "sa-004");
        Call (CreateServiceAccount "projects/p" "sa-006")].
Proof.
  split; [reflexivity|].
  assert (Hlist : iam_list_service_accounts ("projects/" +:+ "p") two_of_six
                  = (inr (Fake.accounts two_of_six), two_of_six)) by reflexivity.
  destruct (reconciler_creates_the_missing "p" "sa" 6 (Fake.accounts two_of_six)
              two_of_six two_of_six eq_refl ltac:(lia) Hlist) as [Hcalls _].
  rewrite Hcalls. reflexivity.
Defined.

(** X6.  While the directory listing raises, the reconciler only waits:
    every turn is one listing and a 10-second sleep, no account is created,
    and the loop is still running after any number of turns. *)
Theorem reconciler_waits_for_the_directory {W} `{Provider W}
    (project_id prefix : string) (targets : gset string) :
  listing_always_raises ("projects/" +:+ project_id) ->
  forall (fuel : nat) (w : W),
    let run := Factory.main_ensure_accounts fuel project_id prefix targets w in
    result run = None
    /\ List.filter is_create_account (trace run) = []
    /\ sleeps (trace run) = repeat 10%Q fuel
    /\ length (List.filter (fun e => match e with
                                     | Call (ListServiceAccounts _) => true
                                     | _ => false
                                     end) (trace run)) = fuel.
Proof.
  intros Hdown fuel. induction fuel as [|fuel IH]; intros w; cbv zeta; [repeat split|].
  cbn [Factory.main_ensure_accounts].
  destruct (Hdown w) as (e & w1 & Hlist).
  assert (Hturn : Factory.ensure_accounts_turn project_id prefix targets w
                  = (false, w1,
                     [Print FetchingAccounts;
                      Call (ListServiceAccounts ("projects/" +:+ project_id));
                      Print StepError; Sleep 10])).
  { unfold Factory.ensure_accounts_turn, bind, ret, print, sleep, emit, invoke, perform.
    now rewrite Hlist. }
  rewrite run_bind, Hturn. run_mk.
  destruct (IH w1) as (IHr & IHc & IHs & IHl).
  split; [exact IHr|].
  rewrite !List.filter_app, sleeps_app, IHc, IHs, length_app, IHl.
  repeat split.
Qed.

Lemma outage_listing_raises (name : string) : listing_always_raises (W := unit) name.
Proof. intros w. exists Outage.unavailable, w. reflexivity. Qed.

Lemma reconciler_waits_for_the_directory_witness :
  listing_always_raises (W := unit) ("projects/" +:+ "p")
  /\ result (Factory.main_ensure_accounts 5 "p" "sa"
               (Factory.target_sa_emails "sa" "p" 3) tt) = None.
Proof.
  split; [apply outage_listing_raises|].
  destruct (reconciler_waits_for_the_directory (W := unit) "p" "sa"
              (Factory.target_sa_emails "sa" "p" 3)
              (outage_listing_raises _) 5 tt) as (Hnone & _).
  exact Hnone.
Defined.

(** ** Key Manager: what ends up in the file *)

Lemma path_join_relative (file : string) :
  String.prefix "/" file = false -> PyStr.path_join "accounts" file = "accounts/" +:+ file.
Proof. intros Hrel. unfold PyStr.path_join. now rewrite Hrel. Qed.

Lemma numbered_file_is_relative (number : nat) :
  String.prefix "/" (PyStr.str_of_nat number +:+ ".json") = false.
Proof.
  unfold PyStr.str_of_nat.
  pose proof (digits_only "/" (Nat.to_uint number) eq_refl) as Hd.
  destruct (NilEmpty.string_of_uint (Nat.to_uint number)) as [|c s]; [reflexivity|].
  rewrite append_cons. cbn [occurs] in Hd. apply orb_false_elim in Hd as [Hc _].
  cbn [String.prefix]. destruct (ascii_dec "/" c) as [<-|_]; [discriminate Hc | reflexivity].
Qed.

(** X7.  When the key request returns well-formed UTF-8 data and the file
    can be written, create-and-save returns [True] after exactly one key
    request and one write, and what it writes is the returned data,
    unchanged: to [accounts/<name>.json] in makesakeys.py (for a name that
    does not start with a slash) and to [accounts/<number>.json], the
    number without its zero padding, in serviceaccountfactory.py. *)
Theorem saved_key_is_the_returned_key {W} `{Provider W}
    (project_id sa_email sa_name : string) (number : nat) (data : string) (w w1 : W) :
  iam_create_service_account_key (key_resource project_id sa_email) w = (inr data, w1) ->
  PyStr.utf8_valid data = true ->
  String.prefix "/" sa_name = false ->
  (forall w2, open_write ("accounts/" +:+ sa_name +:+ ".json") data w1 = (inr tt, w2) ->
     Makesakeys.create_and_save_key project_id sa_email sa_name w
     = (true, w2,
        [Call (CreateServiceAccountKey (key_resource project_id sa_email));
         WriteFile ("accounts/" +:+ sa_name +:+ ".json") data]))
  /\ (forall w2,
        open_write ("accounts/" +:+ PyStr.str_of_nat number +:+ ".json") data w1
        = (inr tt, w2) ->
        Factory.create_and_save_key project_id sa_email number w
        = (true, w2,
           [Call (CreateServiceAccountKey (key_resource project_id sa_email));
            WriteFile ("accounts/" +:+ PyStr.str_of_nat number +:+ ".json") data])).
Proof.
  intros Hcall Hvalid Hrel.
  assert (Hname : String.prefix "/" (sa_name +:+ ".json") = false).
  { destruct sa_name as [|c s]; [reflexivity|]. rewrite append_cons.
    cbn [String.prefix] in *.
    destruct (ascii_dec "/" c); [destruct s; discriminate Hrel | reflexivity]. }
  split; intros w2 Hwrite.
  - unfold Makesakeys.create_and_save_key, Makesakeys.request_decode_write,
      PyStr.decode_utf8, key_resource in *.
    rewrite (path_join_relative _ Hname).
    unfold bind_ok, bind, ret, invoke, perform.
    now rewrite Hcall, Hvalid, Hwrite.
  - unfold Factory.create_and_save_key, Factory.request_decode_write,
      PyStr.decode_utf8, key_resource in *.
    rewrite (path_join_relative _ (numbered_file_is_relative number)).
    unfold bind_ok, bind, ret, invoke, perform.
    now rewrite Hcall, Hvalid, Hwrite.
Qed.

Lemma saved_key_is_the_returned_key_witness :
  let run := Factory.create_and_save_key "p" holder 1 (Fake.fresh "p" ["sa-001"]) in
  result run = true
  /\ Fake.files (world run)
     = [("accounts/1.json",
         "private key of projects/p/serviceAccounts/sa-001@p.iam.gserviceaccount.com/keys/0")].
Proof.
  pose (data := "private key of projects/p/serviceAccounts/sa-001@p.iam.gserviceaccount.com/keys/0").
  pose (w1 := Fake.with_keys
                [(holder, "projects/p/serviceAccounts/sa-001@p.iam.gserviceaccount.com/keys/0")]
                (Fake.fresh "p" ["sa-001"])).
  assert (Hcall : iam_create_service_account_key (key_resource "p" holder)
                    (Fake.fresh "p" ["sa-001"])
                  = (inr data, {| Fake.project := "p";
                                  Fake.accounts := Fake.accounts w1;
                                  Fake.keys := Fake.keys w1;
                                  Fake.faults := [];
                                  Fake.files := [];
                                  Fake.issued := 1 |})) by (vm_compute; reflexivity).
  destruct (saved_key_is_the_returned_key "p" holder "sa-001" 1 data _ _ Hcall
              eq_refl eq_refl) as [_ Hfactory].
  cbv zeta. erewrite Hfactory by reflexivity. split; reflexivity.
Defined.

(** X8.  [True] from create-and-save of serviceaccountfactory.py means
    saved, and conversely: the function returns [True] exactly when the key
    request returned, its data decoded and the write returned.  In
    makesakeys.py [True] means saved or refused: the function returns
    [True] exactly in that case and when the request, the decoding or the
    write raised [InvalidArgument]. *)
Theorem true_means_saved {W} `{Provider W}
    (project_id sa_email sa_name : string) (number : nat) (w : W) :
  let saved file :=
    exists data w1 w2,
      iam_create_service_account_key (key_resource project_id sa_email) w = (inr data, w1)
      /\ PyStr.utf8_valid data = true
      /\ open_write (PyStr.path_join "accounts" file) data w1 = (inr tt, w2) in
  (result (Factory.create_and_save_key project_id sa_email number w) = true <->
   saved (PyStr.str_of_nat number +:+ ".json"))
  /\ (result (Makesakeys.create_and_save_key project_id sa_email sa_name w) = true <->
      saved (sa_name +:+ ".json")
      \/ exists e,
           result (Makesakeys.request_decode_write
                     (PyStr.path_join "accounts" (sa_name +:+ ".json"))
                     (key_resource project_id sa_email) w) = inl e
           /\ class e = InvalidArgument).
Proof.
  unfold key_resource. cbv zeta. split.
  - unfold Factory.create_and_save_key, Factory.request_decode_write, PyStr.decode_utf8.
    unfold bind_ok, bind, ret, print, emit, invoke, perform, result.
    destruct (iam_create_service_account_key _ w) as [[e|data] w1] eqn:Hcall; cbn.
    + split; [destruct (class e); cbn; try discriminate;
                destruct (PyStr.contains _ _); discriminate|].
      intros (d & w1' & w2 & Habs & _). discriminate Habs.
    + destruct (PyStr.utf8_valid data) eqn:Hvalid; cbn.
      * destruct (open_write _ data w1) as [[e|[]] w2] eqn:Hwrite; cbn.
        -- split; [destruct (class e); cbn; try discriminate;
                destruct (PyStr.contains _ _); discriminate|].
           intros (d & w1' & w2' & Heq & _ & Hw). injection Heq as <- <-.
           rewrite Hwrite in Hw. discriminate Hw.
        -- split; [|reflexivity]. intros _. exists data, w1, w2. auto.
      * split; [discriminate|].
        intros (d & w1' & w2' & Heq & Hv & _). injection Heq as <- <-. congruence.
  - unfold Makesakeys.create_and_save_key, Makesakeys.request_decode_write, PyStr.decode_utf8.
    unfold bind_ok, bind, ret, print, emit, invoke, perform, result.
    destruct (iam_create_service_account_key _ w) as [[e|data] w1] eqn:Hcall; cbn.
    + split.
      * intros Hres. right. exists e. split; [reflexivity|].
        destruct (class e); cbn in Hres; try discriminate Hres. reflexivity.
      * intros [(d & w1' & w2 & Habs & _)|(e' & Heq & Hc)]; [discriminate Habs|].
        injection Heq as <-. rewrite Hc. cbn. destruct (PyStr.contains _ _); reflexivity.
    + destruct (PyStr.utf8_valid data) eqn:Hvalid; cbn.
      * destruct (open_write _ data w1) as [[e|[]] w2] eqn:Hwrite; cbn.
        -- split.
           ++ intros Hres. right. exists e. split; [reflexivity|].
              destruct (class e); cbn in Hres; try discriminate Hres. reflexivity.
           ++ intros [(d & w1' & w2' & Heq & _ & Hw)|(e' & Heq & Hc)].
              ** injection Heq as <- <-. rewrite Hwrite in Hw. discriminate Hw.
              ** injection Heq as <-. rewrite Hc. cbn.
                 destruct (PyStr.contains _ _); reflexivity.
        -- split; [|reflexivity]. intros _. left. exists data, w1, w2. auto.
      * split; [discriminate|].
        intros [(d & w1' & w2' & Heq & Hv & _)|(e' & Heq & Hc)].
        -- injection Heq as <- <-. congruence.
        -- injection Heq as <-. discriminate Hc.
Qed.

Lemma true_means_saved_witness :
  result (Factory.create_and_save_key "p" holder 1 three_keys) = true.
Proof.
  destruct (true_means_saved "p" holder "sa-001" 1 three_keys) as [[_ Hsaved] _].
  apply Hsaved. do 3 eexists. split; [reflexivity|]. split; reflexivity.
Defined.

(** ** What each script asks of the provider *)

Lemma forallb_app' {A} (p : A -> bool) (l1 l2 : list A) :
  forallb p l1 = true -> forallb p l2 = true -> forallb p (l1 ++ l2) = true.
Proof. intros H1 H2. now rewrite forallb_app, H1, H2. Qed.

Section AllowedInPasses.
Context {W Item : Type}.
Variable op : Item -> M W (exn + bool).
Variable cooldown : option Q.
Variable ok : request -> bool.
Hypothesis op_allowed : forall item w, forallb (allowed ok) (trace (op item w)) = true.

Lemma rate_limit_allowed (d : Q) (i total : nat) (w : W) :
  forallb (allowed ok) (trace (rate_limit d i total w)) = true.
Proof. unfold rate_limit. destruct (_ && _); reflexivity. Qed.

Lemma process_queue_allowed (total : nat) (queue : list Item) :
  forall i w, forallb (allowed ok) (trace (process_queue op cooldown total i queue w)) = true.
Proof.
  induction queue as [|item rest IH]; intros i w; [reflexivity|].
  cbn [process_queue]. unfold bind_ok at 1. rewrite trace_bind.
  apply forallb_app'; [apply op_allowed|].
  destruct (result (op item w)) as [e|b]; [reflexivity|].
  rewrite trace_bind. apply forallb_app'.
  - destruct cooldown; [apply rate_limit_allowed | reflexivity].
  - rewrite trace_bind_ok_ret. apply IH.
Qed.

Lemma retry_until_clean_allowed (fuel : nat) :
  forall queue w,
    forallb (allowed ok) (trace (retry_until_clean op cooldown fuel queue w)) = true.
Proof.
  induction fuel as [|fuel IH]; intros queue w; [destruct queue; reflexivity|].
  rewrite retry_until_clean_turn.
  destruct queue as [|item rest]; [reflexivity|]. cbv zeta.
  pose proof (process_queue_allowed (length (item :: rest)) (item :: rest) 0 w) as Hpass.
  fold (run_pass op cooldown (item :: rest)) in Hpass.
  destruct (result (run_pass op cooldown (item :: rest) w)) as [e|[|y failed]]; run_mk.
  - now apply forallb_app'.
  - now apply forallb_app'.
  - apply forallb_app'; [exact Hpass|]. apply (forallb_app' _ [_; _]); [reflexivity | apply IH].
Qed.

End AllowedInPasses.

Section AllowedByScript.
Context {W : Type} `{Provider W}.

Lemma makesakeys_op_allowed (project_id : string) (sa : Makesakeys.sa_info) (w : W) :
  forallb (allowed key_creation_request)
    (trace (Makesakeys.create_key_for project_id sa w)) = true.
Proof. run_create_key; reflexivity. Qed.

Lemma factory_create_op_allowed (project_id sa_name : string) (w : W) :
  forallb (allowed key_creation_request)
    (trace (Factory.create_key_for project_id sa_name w)) = true.
Proof.
  unfold Factory.create_key_for.
  destruct (PyStr.int _); [|reflexivity]. run_create_key; reflexivity.
Qed.

Lemma factory_delete_each_allowed (key_names : list string) :
  forall w : W,
    forallb (allowed key_removal_request) (trace (Factory.delete_each key_names w)) = true.
Proof.
  induction key_names as [|k ks IH]; intros w; [reflexivity|].
  rewrite factory_delete_each_turn.
  destruct (iam_delete_service_account_key k w) as [[e|u] w1]; [reflexivity|].
  cbv zeta. run_mk. apply (forallb_app' _ [_; _]); [reflexivity | apply IH].
Qed.

Lemma factory_list_then_delete_allowed (sa_full_name : string) (w : W) :
  forallb (allowed key_removal_request)
    (trace (Factory.list_then_delete sa_full_name w)) = true.
Proof.
  rewrite factory_list_then_delete_turn.
  destruct (iam_list_service_account_keys _ w) as [[e|[|k ks]] w1]; try reflexivity.
  cbv zeta. run_mk. apply (forallb_app' _ [_]); [reflexivity | apply factory_delete_each_allowed].
Qed.

Lemma factory_attempts_allowed (sa_email sa_full_name : string) (retries : nat) (bf : Q)
    (remaining : nat) :
  forall attempt (w : W),
    forallb (allowed key_removal_request)
      (trace (Factory.attempts sa_email sa_full_name retries bf remaining attempt w)) = true.
Proof.
  induction remaining as [|remaining IH]; intros attempt w; [reflexivity|].
  rewrite factory_attempts_turn. cbv zeta.
  pose proof (factory_list_then_delete_allowed sa_full_name w) as Hbody.
  destruct (result (Factory.list_then_delete sa_full_name w)) as [e|b]; [|exact Hbody].
  destruct (Factory.is_transient (class e)); [destruct (Qle_bool 0 _)|]; run_mk.
  - apply forallb_app'; [exact Hbody|].
    apply (forallb_app' _ [_; _]); [reflexivity | apply IH].
  - now apply forallb_app'.
  - now apply forallb_app'.
Qed.

Lemma factory_clear_op_allowed (project_id sa_email : string) (w : W) :
  forallb (allowed key_removal_request)
    (trace (Factory.clear_keys_for project_id sa_email w)) = true.
Proof.
  unfold Factory.clear_keys_for, Factory.delete_all_user_keys_with_retry.
  apply factory_attempts_allowed.
Qed.

Lemma create_accounts_allowed (project_id prefix : string) (total : nat)
    (numbers : list nat) :
  forall i (w : W),
    forallb (allowed account_request)
      (trace (Factory.create_accounts project_id prefix total i numbers w)) = true.
Proof.
  induction numbers as [|n rest IH]; intros i w; [reflexivity|].
  cbn [Factory.create_accounts]. rewrite !trace_bind.
  apply forallb_app'; [|apply forallb_app'; [apply rate_limit_allowed | apply IH]].
  unfold Factory.create_service_account.
  unfold bind, ret, print, sleep, emit, invoke, perform, trace.
  destruct (iam_create_service_account _ _ w) as [[e|[]] w1]; cbn; [|reflexivity].
  destruct (class e); reflexivity.
Qed.

Lemma ensure_accounts_turn_allowed (project_id prefix : string) (targets : gset string)
    (w : W) :
  forallb (allowed account_request)
    (trace (Factory.ensure_accounts_turn project_id prefix targets w)) = true.
Proof.
  unfold Factory.ensure_accounts_turn, bind, ret, print, sleep, emit, invoke, perform.
  destruct (iam_list_service_accounts _ w) as [[e|all] w1]; [reflexivity|].
  destruct (decide _); [reflexivity|].
  match goal with
  | |- context [Factory.create_accounts ?p ?q ?t ?i ?numbers ?w0] =>
      pose proof (create_accounts_allowed p q t numbers i w0) as Hc;
      destruct (Factory.create_accounts p q t i numbers w0) as [[u w2] t2]
  end.
  unfold trace in *. cbn [snd] in *.
  rewrite !forallb_app, Hc. reflexivity.
Qed.

Lemma main_ensure_accounts_allowed (project_id prefix : string) (targets : gset string)
    (fuel : nat) :
  forall w : W,
    forallb (allowed account_request)
      (trace (Factory.main_ensure_accounts fuel project_id prefix targets w)) = true.
Proof.
  induction fuel as [|fuel IH]; intros w; [reflexivity|].
  cbn [Factory.main_ensure_accounts]. rewrite trace_bind.
  apply forallb_app'; [apply ensure_accounts_turn_allowed|].
  destruct (result _); [reflexivity | apply IH].
Qed.

End AllowedByScript.

Section RemovesakeysRequests.
Context {W : Type} `{Provider W}.
Variable ok : request -> bool.
Hypothesis ok_delete : forall k, ok (DeleteServiceAccountKey k) = true.

Lemma removesakeys_delete_each_allowed (key_names : list string) :
  forall count (w : W),
    forallb (allowed ok) (trace (Removesakeys.delete_each key_names count w)) = true.
Proof.
  induction key_names as [|k ks IH]; intros count w; [reflexivity|].
  rewrite delete_each_turn.
  destruct (iam_delete_service_account_key k w) as [[e|u] w1]; cbv zeta; run_mk.
  - cbn. now rewrite ok_delete.
  - apply (forallb_app' _ [_; _]); [cbn; now rewrite ok_delete | apply IH].
Qed.

Lemma removesakeys_attempts_allowed (sa_email : string) (retries : nat) (bf : Q)
    (remaining : nat) :
  ok (ListServiceAccountKeys (wildcard_resource sa_email)) = true ->
  forall attempt (w : W),
    forallb (allowed ok)
      (trace (Removesakeys.attempts sa_email retries bf remaining attempt w)) = true.
Proof.
  intros Hlist. induction remaining as [|remaining IH]; intros attempt w; [reflexivity|].
  rewrite attempts_turn. cbv zeta.
  assert (Hbody : forallb (allowed ok) (trace (Removesakeys.list_then_delete sa_email w))
                  = true).
  { rewrite list_then_delete_turn. cbv zeta. fold (wildcard_resource sa_email).
    destruct (iam_list_service_account_keys _ w) as [[e|[|k ks]] w1]; run_mk;
      try (cbn; now rewrite Hlist).
    apply (forallb_app' _ [_]); [cbn; now rewrite Hlist|].
    apply removesakeys_delete_each_allowed. }
  destruct (result (Removesakeys.list_then_delete sa_email w)) as [e|n]; [|exact Hbody].
  destruct (Removesakeys.is_transient (class e)); [destruct (Qle_bool 0 _)|]; run_mk.
  - apply forallb_app'; [exact Hbody|].
    apply (forallb_app' _ [_; _]); [reflexivity | apply IH].
  - now apply forallb_app'.
  - destruct (is_GoogleAPICallError (class e)); run_mk; [|exact Hbody].
    now apply forallb_app'.
Qed.

Lemma main_delete_loop_allowed (target_accounts : list ServiceAccount) :
  (forall a, In a target_accounts ->
             ok (ListServiceAccountKeys (wildcard_resource (email a))) = true) ->
  forall total (w : W),
    forallb (allowed ok)
      (trace (Removesakeys.main_delete_loop target_accounts total w)) = true.
Proof.
  induction target_accounts as [|a rest IH]; intros Hok total w; [reflexivity|].
  cbn [Removesakeys.main_delete_loop]. unfold bind_ok at 1. rewrite trace_bind.
  apply forallb_app'.
  - apply removesakeys_attempts_allowed, Hok. now left.
  - destruct (result _) as [e|n]; [reflexivity|].
    rewrite !trace_bind. apply forallb_app'; [|apply forallb_app'; [reflexivity|]].
    + destruct (0 <? n)%Z; [reflexivity|]. destruct (n =? 0)%Z; reflexivity.
    + apply IH. intros b Hb. apply Hok. now right.
Qed.

End RemovesakeysRequests.

Lemma find_target_service_accounts_full {W} `{Provider W}
    (project_id prefix : string) (w w' : W) (accounts : list ServiceAccount) :
  iam_list_service_accounts ("projects/" +:+ project_id) w = (inr accounts, w') ->
  Removesakeys.find_target_service_accounts project_id prefix w
  = (inr (List.filter (matches prefix) accounts), w',
     [Print (Searching project_id prefix);
      Call (ListServiceAccounts ("projects/" +:+ project_id))]).
Proof.
  intros Hlist.
  unfold Removesakeys.find_target_service_accounts, bind, print, emit, invoke, perform, ret.
  rewrite Hlist. cbn. do 3 f_equal.
  apply (fold_left_append_filter (matches prefix) accounts []).
Qed.

Lemma find_target_service_accounts_requests {W} `{Provider W}
    (project_id prefix : string) (w : W) :
  List.filter (fun e => match e with Call _ => true | _ => false end)
    (trace (Removesakeys.find_target_service_accounts project_id prefix w))
  = [Call (ListServiceAccounts ("projects/" +:+ project_id))].
Proof.
  unfold Removesakeys.find_target_service_accounts, bind, print, emit, invoke, perform, ret.
  destruct (iam_list_service_accounts _ w) as [[e|accounts] w1]; reflexivity.
Qed.

(** X9.  removesakeys.py deletes nothing that was not confirmed: unless the
    answer to the confirmation prompt, lowercased, is [yes], [main] ends
    with [sys.exit] after at most the directory listing, with no key listing
    and no delete call. *)
Theorem no_deletion_without_yes {W} `{Provider W}
    (project_id prefix answer : string) (w : W) :
  PyStr.lower answer <> "yes" ->
  let run := removesakeys_main project_id prefix answer w in
  (exists code, result run = Exit code)
  /\ deletes (trace run) = 0
  /\ key_listings (trace run) = 0
  /\ List.filter (fun e => match e with Call _ => true | _ => false end) (trace run)
     = if is_empty prefix then []
       else [Call (ListServiceAccounts ("projects/" +:+ project_id))].
Proof.
  intros Hno run. subst run.
  assert (Hneq : String.eqb (PyStr.lower answer) "yes" = false) by now apply String.eqb_neq.
  unfold removesakeys_main, Removesakeys.find_target_service_accounts.
  unfold bind, ret, print, emit, invoke, perform, result, trace.
  destruct (is_empty prefix); [cbn; eauto|].
  destruct (iam_list_service_accounts _ w) as [[e|accounts] w1]; [cbn; eauto|].
  destruct (fold_left _ accounts []) as [|a l]; cbn; [eauto|].
  rewrite Hneq. cbn. eauto.
Qed.

Lemma no_deletion_without_yes_witness :
  let run := removesakeys_main "p" "sa" "Y" three_keys in
  result run = Exit 0%Z /\ Fake.keys (world run) = Fake.keys three_keys.
Proof.
  assert (Hno : PyStr.lower "Y" <> "yes") by discriminate.
  destruct (no_deletion_without_yes "p" "sa" "Y" three_keys Hno) as ([code Hcode] & _).
  cbv zeta. split; [|reflexivity].
  rewrite Hcode. f_equal.
  assert (Hrun : result (removesakeys_main "p" "sa" "Y" three_keys) = Exit 0%Z)
    by reflexivity.
  congruence.
Defined.

Lemma allowed_In (ok : request -> bool) (t : list event) (r : request) :
  forallb (allowed ok) t = true -> In (Call r) t -> ok r = true.
Proof.
  intros Hall Hin. rewrite forallb_forall in Hall. exact (Hall _ Hin).
Qed.

(** X10.  When confirmed, removesakeys.py asks for the keys of the
    accounts that pass the prefix filter and of no other account: every key
    listing of [main] is for an account of the directory listing whose
    short name starts with the prefix; and [main] never asks the provider
    to create anything. *)
Theorem keys_are_listed_for_matching_accounts_only {W} `{Provider W}
    (project_id prefix answer : string) (accounts : list ServiceAccount) (w w' : W) :
  iam_list_service_accounts ("projects/" +:+ project_id) w = (inr accounts, w') ->
  let run := removesakeys_main project_id prefix answer w in
  (forall name, In (Call (ListServiceAccountKeys name)) (trace run) ->
     exists a, In a accounts
               /\ (exists rest, short_name a = prefix +:+ rest)
               /\ name = "projects/-/serviceAccounts/" +:+ email a)
  /\ forallb (allowed removal_request) (trace run) = true.
Proof.
  intros Hlist run. subst run.
  set (targets := List.filter (matches prefix) accounts).
  set (names := (fun a => wildcard_resource (email a)) <$> targets).
  assert (Hnames : forall b, In b targets ->
                     existsb (String.eqb (wildcard_resource (email b))) names = true).
  { intros b Hb. apply existsb_exists.
    exists (wildcard_resource (email b)). split; [|apply String.eqb_refl].
    apply in_map_iff. exists b. split; [reflexivity | exact Hb]. }
  assert (Hrev : forall n, existsb (String.eqb n) names = true ->
                   exists a, In a targets /\ n = wildcard_resource (email a)).
  { intros n Hn. apply existsb_exists in Hn as (m & Hm & Heq).
    apply String.eqb_eq in Heq. subst m.
    apply in_map_iff in Hm as (a & <- & Ha). eauto. }
  clearbody names.
  assert (Hall : forallb (allowed (fun r => lists_keys_of names r && removal_request r))
                   (trace (removesakeys_main project_id prefix answer w)) = true).
  { unfold removesakeys_main.
    destruct (is_empty prefix); [reflexivity|].
    rewrite trace_bind, (find_target_service_accounts_full _ _ _ _ _ Hlist). run_mk.
    apply (forallb_app' _ [_; _]); [reflexivity|]. fold targets.
    destruct targets as [|a l] eqn:Ht; [reflexivity|]. rewrite <- Ht.
    rewrite trace_bind. apply (forallb_app' _ [_]); [reflexivity|].
    destruct (negb _); [reflexivity|].
    rewrite trace_bind. apply forallb_app'.
    - apply main_delete_loop_allowed; [reflexivity|].
      intros b Hb. unfold lists_keys_of, removal_request.
      rewrite andb_true_r. apply Hnames. rewrite <- Ht. exact Hb.
    - destruct (result _); reflexivity. }
  split.
  - intros name Hin. pose proof (allowed_In _ _ _ Hall Hin) as Hok.
    cbn in Hok. rewrite andb_true_r in Hok.
    apply Hrev in Hok as (a & Ha & ->).
    apply filter_In in Ha as [Ha Hm]. exists a. split; [exact Ha|]. split; [|reflexivity].
    unfold matches, PyStr.startswith in Hm. now apply prefix_iff_app.
  - rewrite forallb_forall in *. intros e He. specialize (Hall e He).
    destruct e as [r| | |]; try reflexivity. cbn in *.
    now apply andb_true_iff in Hall as [_ Hr].
Qed.

Lemma keys_are_listed_for_matching_accounts_only_witness :
  In (Call (ListServiceAccountKeys
              "projects/-/serviceAccounts/sa-001@p.iam.gserviceaccount.com"))
     (trace (removesakeys_main "p" "sa" "yes" directory))
  /\ exists a, In a (Fake.accounts directory)
               /\ (exists rest, short_name a = "sa" +:+ rest)
               /\ "projects/-/serviceAccounts/sa-001@p.iam.gserviceaccount.com"
                  = "projects/-/serviceAccounts/" +:+ email a.
Proof.
  assert (Hlist : iam_list_service_accounts ("projects/" +:+ "p") directory
                  = (inr (Fake.accounts directory), directory)) by reflexivity.
  destruct (keys_are_listed_for_matching_accounts_only "p" "sa" "yes" _ _ _ Hlist)
    as [Honly _].
  assert (Hin : In (Call (ListServiceAccountKeys
                            "projects/-/serviceAccounts/sa-001@p.iam.gserviceaccount.com"))
                   (trace (removesakeys_main "p" "sa" "yes" directory))).
  { vm_compute. repeat ((left; reflexivity) || right). }
  split; [exact Hin | exact (Honly _ Hin)].
Defined.

(** ** removesakeys.py: the loop over the accounts *)

(** X11.  An exception that is neither transient nor a
    [GoogleAPICallError] ([RetryError] is one) has no handler in
    removesakeys.py: raised by the key listing of an account, it ends the
    loop there, and the accounts after it are not touched. *)
Theorem uncaught_exception_stops_the_run {W} `{Provider W}
    (a : ServiceAccount) (rest : list ServiceAccount) (total : Z) (w w1 : W) (e : exn) :
  iam_list_service_account_keys (wildcard_resource (email a)) w = (inl e, w1) ->
  Removesakeys.is_transient (class e) = false ->
  is_GoogleAPICallError (class e) = false ->
  Removesakeys.main_delete_loop (a :: rest) total w
  = (inl e, w1, [Call (ListServiceAccountKeys (wildcard_resource (email a)))]).
Proof.
  intros Hlist Ht Ha.
  cbn [Removesakeys.main_delete_loop].
  unfold Removesakeys.delete_keys_for_account, Removesakeys.default_retries.
  assert (Hattempt : Removesakeys.attempts (email a) 3 Removesakeys.default_backoff_factor 3 0 w
                     = (inl e, w1, [Call (ListServiceAccountKeys (wildcard_resource (email a)))])).
  { rewrite attempts_turn, list_then_delete_turn. cbv zeta.
    fold (wildcard_resource (email a)). rewrite Hlist. run_mk. now rewrite Ht, Ha. }
  unfold bind_ok. rewrite run_bind, Hattempt. reflexivity.
Qed.

Lemma uncaught_exception_stops_the_run_witness :
  let run := removesakeys_main "p" "sa" "yes" two_holders in
  result run = Uncaught retry_error
  /\ Fake.keys (world run) = Fake.keys two_holders.
Proof.
  pose (w1 := Fake.with_faults [] two_holders).
  assert (Hlist : iam_list_service_account_keys (wildcard_resource holder) two_holders
                  = (inl retry_error, w1)) by reflexivity.
  pose proof (uncaught_exception_stops_the_run (Fake.account "p" "sa-001")
                [Fake.account "p" "sa-002"] 0 two_holders w1 retry_error
                Hlist eq_refl eq_refl) as Hloop.
  cbv zeta. unfold removesakeys_main.
  assert (Hfind : Removesakeys.find_target_service_accounts "p" "sa" two_holders
                  = (inr [Fake.account "p" "sa-001"; Fake.account "p" "sa-002"], two_holders,
                     [Print (Searching "p" "sa"); Call (ListServiceAccounts "projects/p")]))
    by reflexivity.
  change (is_empty "sa") with false. cbv iota.
  rewrite run_bind, Hfind. run_mk.
  rewrite run_bind. unfold print, emit. run_mk.
  cbv zeta. change (negb (PyStr.lower "yes" =? "yes")%string) with false. cbv iota.
  rewrite run_bind, Hloop. split; reflexivity.
Defined.

Lemma attempts_count_bound {W} `{Provider W} (sa_email : string) (retries : nat) (bf : Q)
    (remaining attempt : nat) (w : W) (n : Z) :
  result (Removesakeys.attempts sa_email retries bf remaining attempt w) = inr n ->
  (n <= Z.of_nat (deletes (trace (Removesakeys.attempts sa_email retries bf
                                    remaining attempt w))))%Z.
Proof.
  intros Hn. destruct (Z.le_gt_cases 0 n) as [Hpos|Hneg]; [|lia].
  destruct (count_is_of_final_attempt sa_email retries bf remaining attempt w n Hn Hpos)
    as (w_last & t_before & _ & _ & _ & _ & Hd).
  lia.
Qed.

(** X12.  The total that removesakeys.py reports is never more than the
    number of delete calls it issued, and never less than what it started
    from: failed accounts and earlier attempts are left out of it. *)
Theorem reported_total_is_bounded {W} `{Provider W}
    (target_accounts : list ServiceAccount) :
  forall (total0 : Z) (w : W) (total : Z),
    let run := Removesakeys.main_delete_loop target_accounts total0 w in
    result run = inr total ->
    (total0 <= total <= total0 + Z.of_nat (deletes (trace run)))%Z.
Proof.
  induction target_accounts as [|a rest IH]; intros total0 w total; cbv zeta.
  - cbn. intros Hr. injection Hr as <-. lia.
  - cbn [Removesakeys.main_delete_loop].
    pose proof (attempts_count_bound (email a) Removesakeys.default_retries
                  Removesakeys.default_backoff_factor Removesakeys.default_retries 0 w) as Hb.
    fold (Removesakeys.delete_keys_for_account (email a) Removesakeys.default_retries
            Removesakeys.default_backoff_factor) in Hb.
    destruct (result (Removesakeys.delete_keys_for_account (email a)
                        Removesakeys.default_retries Removesakeys.default_backoff_factor w))
      as [e|n] eqn:Hres.
    { rewrite (run_bind_ok_inl _ _ _ _ Hres). run_mk. discriminate. }
    specialize (Hb n eq_refl).
    rewrite (result_bind_ok_inr _ _ _ _ Hres), (trace_bind_ok_inr _ _ _ _ Hres).
    rewrite !result_bind, !trace_bind. intros Hr.
    apply IH in Hr. rewrite !deletes_app.
    assert (Hmsg : forall w0 : W, deletes (trace ((if (0 <? n)%Z
                              then print (KeysDeleted (email a) n)
                              else if (n =? 0)%Z then print (NoKeysFound (email a))
                                   else ret tt) w0)) = 0).
    { intros w0. destruct (0 <? n)%Z; [reflexivity|]. destruct (n =? 0)%Z; reflexivity. }
    rewrite Hmsg. unfold sleep at 1, emit at 1. run_mk.
    change (deletes [Sleep (1 # 5)]) with 0.
    destruct (0 <? n)%Z eqn:Hpos; [apply Z.ltb_lt in Hpos | apply Z.ltb_ge in Hpos]; lia.
Qed.

Lemma reported_total_is_bounded_witness :
  let run := Removesakeys.main_delete_loop (Fake.accounts three_keys_one_abort) 0
               three_keys_one_abort in
  result run = inr 2%Z /\ deletes (trace run) = 4.
Proof.
  assert (Hrun : result (Removesakeys.main_delete_loop (Fake.accounts three_keys_one_abort) 0
                           three_keys_one_abort) = inr 2%Z) by (vm_compute; reflexivity).
  pose proof (reported_total_is_bounded (Fake.accounts three_keys_one_abort) 0
                three_keys_one_abort 2 Hrun) as Hbound.
  cbv zeta. split; [exact Hrun|]. vm_compute. reflexivity.
Defined.

(** ** makesakeys.py and serviceaccountfactory.py as wholes *)

Lemma allowed_weaken (ok ok' : request -> bool) (t : list event) :
  (forall r, ok r = true -> ok' r = true) ->
  forallb (allowed ok) t = true -> forallb (allowed ok') t = true.
Proof.
  intros Himpl. rewrite !forallb_forall. intros Hall e He. specialize (Hall e He).
  destruct e; cbn in *; auto.
Qed.

Lemma allowed_no_deletes (ok : request -> bool) (t : list event) :
  (forall k, ok (DeleteServiceAccountKey k) = false) ->
  forallb (allowed ok) t = true -> deletes t = 0.
Proof.
  intros Hno. unfold deletes. induction t as [|e t IH]; [reflexivity|].
  cbn [forallb]. intros Hall. apply andb_true_iff in Hall as [He Ht].
  cbn [List.filter]. destruct e as [[]| | |]; cbn in *; auto.
  now rewrite Hno in He.
Qed.

Lemma main_discover_allowed {W} `{Provider W} (project_id prefix : string) (w : W) :
  forallb (allowed discovery_request) (trace (Makesakeys.main_discover project_id prefix w))
  = true.
Proof.
  unfold Makesakeys.main_discover, bind, ret, print, emit, invoke, perform, trace.
  destruct (iam_list_service_accounts _ w) as [[e|all] w1]; [reflexivity|].
  destruct (fold_left _ all []); reflexivity.
Qed.

(** X13.  Discovery mode never deletes: whatever the provider answers and
    however long it runs, makesakeys.py sends the directory listing and key
    requests and nothing else: no delete call, no key listing, no account
    creation. *)
Theorem discovery_mode_never_deletes {W} `{Provider W}
    (fuel : nat) (project_id prefix : string) (w : W) :
  let run := makesakeys_main fuel project_id prefix w in
  forallb (allowed discovery_request) (trace run) = true
  /\ deletes (trace run) = 0
  /\ List.filter is_create_account (trace run) = []
  /\ key_listings (trace run) = 0.
Proof.
  cbv zeta.
  assert (Hall : forallb (allowed discovery_request)
                   (trace (makesakeys_main fuel project_id prefix w)) = true).
  { unfold makesakeys_main. destruct (is_empty prefix); [reflexivity|].
    rewrite trace_bind. apply forallb_app'; [apply main_discover_allowed|].
    destruct (result _) as [code|targets]; [reflexivity|].
    rewrite trace_bind. apply forallb_app'; [|reflexivity].
    unfold Makesakeys.main_create_keys.
    apply (allowed_weaken key_creation_request); [now intros []|].
    apply retry_until_clean_allowed. intros item w0. apply makesakeys_op_allowed. }
  split; [exact Hall|]. split; [now apply (allowed_no_deletes discovery_request)|].
  revert Hall. generalize (trace (makesakeys_main fuel project_id prefix w)). intros t.
  unfold key_listings. induction t as [|e t IH]; [now split|].
  cbn [forallb]. intros Hall. apply andb_true_iff in Hall as [He Ht].
  destruct (IH Ht) as [IH1 IH2].
  destruct e as [[]| | |]; cbn in *; try discriminate He; now split.
Qed.

(** X14.  serviceaccountfactory.py keeps its three steps apart: the trace
    of [main] is the account step, then the key deletion step, then the key
    creation step, each sending only its own kind of request, so that no key
    is deleted before the account loop has ended and none is created before
    the deletion loop has ended; unless the answer to the prompt,
    lowercased, is [y], nothing is sent at all. *)
Theorem factory_steps_do_not_interleave {W} `{Provider W}
    (fuel : nat) (project_id prefix : string) (total : Z) (answer : string) (w : W) :
  let run := serviceaccountfactory_main fuel project_id prefix total answer w in
  (exists t1 t2 t3,
      trace run = t1 ++ t2 ++ t3
      /\ forallb (allowed account_request) t1 = true
      /\ forallb (allowed key_removal_request) t2 = true
      /\ forallb (allowed key_creation_request) t3 = true)
  /\ (PyStr.lower answer <> "y" -> run = (Some (Exit 1%Z), w, [])).
Proof.
  cbv zeta. split.
  - unfold serviceaccountfactory_main.
    destruct (negb _); [exists [], [], []; repeat split|].
    cbv zeta. rewrite trace_bind.
    set (r1 := Factory.main_ensure_accounts fuel project_id prefix _ w).
    pose proof (main_ensure_accounts_allowed project_id prefix
                  (Factory.target_sa_emails prefix project_id total) fuel w) as H1.
    fold r1 in H1.
    destruct (result r1) as [[]|].
    2:{ exists (trace r1), [], []. repeat split; auto. }
    rewrite trace_bind.
    set (r2 := Factory.main_clear_keys fuel project_id _ (world r1)).
    assert (H2 : forallb (allowed key_removal_request) (trace r2) = true).
    { subst r2. unfold Factory.main_clear_keys. apply retry_until_clean_allowed.
      intros item w0. apply factory_clear_op_allowed. }
    destruct (result r2) as [[e|passes]|].
    + exists (trace r1), (trace r2), []. repeat split; auto.
    + rewrite trace_bind.
      set (r3 := Factory.main_create_keys fuel project_id _ (world r2)).
      assert (H3 : forallb (allowed key_creation_request) (trace r3) = true).
      { subst r3. unfold Factory.main_create_keys. apply retry_until_clean_allowed.
        intros item w0. apply factory_create_op_allowed. }
      exists (trace r1), (trace r2), (trace r3). repeat split; auto.
      cbn. now rewrite app_nil_r.
    + exists (trace r1), (trace r2), []. repeat split; auto.
  - intros Hno. unfold serviceaccountfactory_main.
    apply String.eqb_neq in Hno. now rewrite Hno.
Qed.

Lemma factory_steps_do_not_interleave_witness :
  serviceaccountfactory_main 5 "p" "sa" 3 "" (Fake.fresh "p" [])
  = (Some (Exit 1%Z), Fake.fresh "p" [], []).
Proof.
  apply (factory_steps_do_not_interleave 5 "p" "sa" 3 "" (Fake.fresh "p" [])).
  discriminate.
Defined.

(** ** Which keys a list-and-delete sequence touches *)

Section ListedKeysOnly.
Context {W : Type} `{Provider W}.

Lemma removesakeys_delete_each_prefix (key_names : list string) :
  forall (count : Z) (w : W),
    let run := Removesakeys.delete_each key_names count w in
    exists k, k <= length key_names
      /\ List.filter is_delete (trace run)
         = (fun n => Call (DeleteServiceAccountKey n)) <$> firstn k key_names
      /\ (forall n, result run = inr n -> k = length key_names).
Proof.
  induction key_names as [|key_name rest IH]; intros count w; cbv zeta.
  - exists 0. repeat split; auto.
  - rewrite delete_each_turn.
    destruct (iam_delete_service_account_key key_name w) as [[e|u] w1].
    + exists 1. run_mk. cbn [length firstn]. split; [lia|]. split; [reflexivity|].
      intros n Hn. discriminate Hn.
    + destruct (IH (count + 1)%Z w1) as (k & Hk & Ht & Hr). cbv zeta. run_mk.
      exists (S k). cbn [length firstn]. split; [lia|]. split.
      * rewrite List.filter_app, Ht. reflexivity.
      * intros n Hn. f_equal. now apply (Hr n).
Qed.

Lemma factory_delete_each_prefix (key_names : list string) :
  forall w : W,
    let run := Factory.delete_each key_names w in
    exists k, k <= length key_names
      /\ List.filter is_delete (trace run)
         = (fun n => Call (DeleteServiceAccountKey n)) <$> firstn k key_names
      /\ (forall b, result run = inr b -> k = length key_names).
Proof.
  induction key_names as [|key_name rest IH]; intros w; cbv zeta.
  - exists 0. repeat split; auto.
  - rewrite factory_delete_each_turn.
    destruct (iam_delete_service_account_key key_name w) as [[e|u] w1].
    + exists 1. run_mk. cbn [length firstn]. split; [lia|]. split; [reflexivity|].
      intros n Hn. discriminate Hn.
    + destruct (IH w1) as (k & Hk & Ht & Hr). cbv zeta. run_mk.
      exists (S k). cbn [length firstn]. split; [lia|]. split.
      * rewrite List.filter_app, Ht. reflexivity.
      * intros n Hn. f_equal. now apply (Hr n).
Qed.

Lemma factory_delete_each_succeeds (key_names : list string) :
  forall w : W,
    deletes_succeed key_names w ->
    result (Factory.delete_each key_names w) = inr true
    /\ List.filter is_delete (trace (Factory.delete_each key_names w))
       = (fun k => Call (DeleteServiceAccountKey k)) <$> key_names
    /\ key_listings (trace (Factory.delete_each key_names w)) = 0.
Proof.
  induction key_names as [|key_name rest IH]; intros w Hok.
  - repeat split.
  - destruct Hok as (w1 & Hdel & Hrest). rewrite factory_delete_each_turn, Hdel. cbv zeta.
    destruct (IH w1 Hrest) as (IHr & IHt & IHl). run_mk. split; [exact IHr|]. split.
    + rewrite List.filter_app, IHt. reflexivity.
    + rewrite key_listings_app, IHl. reflexivity.
Qed.

End ListedKeysOnly.



(** X16.  serviceaccountfactory.py, deleting the keys of one account: when
    the listing returns [key_names] and every delete call returns, the
    function (with at least one attempt allowed) returns [True] after one
    listing and one delete request per listed key, in listing order, with
    no pause other than the 0.05 seconds after each delete. *)
Theorem factory_clears_every_listed_key {W} `{Provider W}
    (project_id sa_email : string) (retries : nat) (bf : Q) (w w1 : W)
    (key_names : list string) :
  iam_list_service_account_keys (key_resource project_id sa_email) w
  = (inr key_names, w1) ->
  deletes_succeed key_names w1 ->
  0 < retries ->
  let run := Factory.delete_all_user_keys_with_retry project_id sa_email retries bf w in
  result run = inr true
  /\ List.filter is_delete (trace run)
     = (fun k => Call (DeleteServiceAccountKey k)) <$> key_names
  /\ key_listings (trace run) = 1
  /\ sleeps (trace run) = repeat (1 # 20)%Q (length key_names).
Proof.
  intros Hlist Hdel Hretries. cbv zeta.
  unfold Factory.delete_all_user_keys_with_retry. cbv zeta.
  fold (key_resource project_id sa_email).
  destruct retries as [|n]; [lia|].
  rewrite factory_attempts_turn. cbv zeta.
  rewrite factory_list_then_delete_turn, Hlist.
  destruct key_names as [|k ks]; [repeat split|].
  destruct (factory_delete_each_succeeds (k :: ks) w1 Hdel) as (Hr & Ht & Hl).
  assert (Hs : forall (l : list string) (w0 : W), deletes_succeed l w0 ->
             sleeps (trace (Factory.delete_each l w0)) = repeat (1 # 20)%Q (length l)).
  { induction l as [|x l IH]; intros w0 Hok; [reflexivity|].
    destruct Hok as (w2 & Hd & Hrest). rewrite factory_delete_each_turn, Hd. cbv zeta.
    run_mk. rewrite sleeps_app, (IH w2 Hrest). reflexivity. }
  run_mk. rewrite Hr. run_mk. split; [reflexivity|]. split; [|split].
  - rewrite List.filter_app, Ht. reflexivity.
  - rewrite (key_listings_app [_]), Hl. reflexivity.
  - rewrite (sleeps_app [_]), (Hs _ _ Hdel). reflexivity.
Qed.

Lemma factory_clears_every_listed_key_witness :
  let run := Factory.delete_all_user_keys_with_retry "p" holder 3 2 three_keys in
  result run = inr true
  /\ List.filter is_delete (trace run)
     = (fun k => Call (DeleteServiceAccountKey k)) <$> ["k1"; "k2"; "k3"]
  /\ key_listings (trace run) = 1
  /\ sleeps (trace run) = repeat (1 # 20)%Q 3.
Proof.
  assert (Hdel : deletes_succeed ["k1"; "k2"; "k3"] three_keys).
  { repeat (eexists; split; [reflexivity|]). exact I. }
  assert (Hlist : iam_list_service_account_keys (key_resource "p" holder) three_keys
                  = (inr ["k1"; "k2"; "k3"], three_keys)) by reflexivity.
  exact (factory_clears_every_listed_key "p" holder 3 2 three_keys three_keys
           ["k1"; "k2"; "k3"] Hlist Hdel (le_S _ _ (le_S _ _ (le_n 1)))).
Defined.

(** * The pass loops of makesakeys.py and serviceaccountfactory.py *)

Lemma first_pass_quiet (t : list event) :
  forallb within_pass t = true -> first_pass t = t.
Proof.
  induction t as [|e t IH]; [reflexivity|]. cbn [forallb first_pass].
  intros Hq. apply andb_true_iff in Hq as [He Ht]. unfold within_pass in He.
  destruct (is_pass_end e); [discriminate He|]. now rewrite IH.
Qed.

Lemma first_pass_until (t1 t2 : list event) (e : event) :
  forallb within_pass t1 = true -> is_pass_end e = true ->
  first_pass (t1 ++ e :: t2) = t1.
Proof.
  intros Hq He. induction t1 as [|e1 t1 IH]; cbn [app first_pass forallb] in *.
  - now rewrite He.
  - apply andb_true_iff in Hq as [He1 Ht1]. unfold within_pass in He1.
    destruct (is_pass_end e1); [discriminate He1|]. now rewrite IH.
Qed.

Section QuietPasses.
Context {W Item : Type}.
Variable op : Item -> M W (exn + bool).
Variable cooldown : option Q.
Hypothesis op_quiet : forall item w, forallb within_pass (trace (op item w)) = true.

Lemma process_queue_quiet (total : nat) (queue : list Item) :
  forall i w, forallb within_pass (trace (process_queue op cooldown total i queue w)) = true.
Proof.
  induction queue as [|item rest IH]; intros i w; [reflexivity|].
  cbn [process_queue]. unfold bind_ok at 1. rewrite trace_bind.
  apply forallb_app'; [apply op_quiet|].
  destruct (result (op item w)) as [e|b]; [reflexivity|].
  rewrite trace_bind. apply forallb_app'.
  - destruct cooldown; [|reflexivity]. unfold rate_limit. destruct (_ && _); reflexivity.
  - rewrite trace_bind_ok_ret. apply IH.
Qed.

Lemma run_pass_quiet (queue : list Item) (w : W) :
  forallb within_pass (trace (run_pass op cooldown queue w)) = true.
Proof. apply process_queue_quiet. Qed.

(** The first pass of a run is the pass on its queue. *)
Lemma first_pass_of_run (fuel : nat) (queue : list Item) (w : W) :
  first_pass (trace (retry_until_clean op cooldown (S fuel) queue w))
  = trace (run_pass op cooldown queue w).
Proof.
  rewrite retry_until_clean_turn.
  destruct queue as [|item rest]; [reflexivity|]. cbv zeta.
  pose proof (run_pass_quiet (item :: rest) w) as Hq.
  destruct (result (run_pass op cooldown (item :: rest) w)) as [e|[|y failed]]; run_mk.
  - rewrite app_nil_r. now apply first_pass_quiet.
  - now apply first_pass_until.
  - cbn [app]. now apply first_pass_until.
Qed.

Lemma retry_queue_contract_holds :
  retry_queue_contract op (fun fuel => retry_until_clean op cooldown fuel).
Proof.
  intros queue w Hret. cbv zeta. split.
  - intros fuel. rewrite first_pass_of_run. rewrite retry_until_clean_turn.
    destruct queue as [|item rest]; [reflexivity|]. cbv zeta.
    destruct (run_pass_on_pass op cooldown (item :: rest) w Hret) as [Hr Hw].
    rewrite Hr.
    destruct (failed_items op (item :: rest) w) as [|y failed]; run_mk.
    + split; [reflexivity|]. split; [exact Hw | reflexivity].
    + rewrite Hw. split; [reflexivity|]. split; reflexivity.
  - intros x fuel Hfailed Hx.
    assert (Hclean : failed_items op [x] (world_after op queue w) = []).
    { rewrite failed_items_single, Hx. reflexivity. }
    rewrite Hfailed. split; [exact Hclean|].
    change (2 + fuel) with (S (S fuel)). rewrite retry_until_clean_turn.
    destruct queue as [|item rest]; [discriminate Hfailed|]. cbv zeta.
    destruct (run_pass_on_pass op cooldown (item :: rest) w Hret) as [Hr Hw].
    rewrite Hr, Hfailed. run_mk. rewrite retry_until_clean_turn. cbv zeta.
    assert (Hret2 : pass_returns op [x] (world (run_pass op cooldown (item :: rest) w))).
    { rewrite Hw. split; [now exists true | exact I]. }
    destruct (run_pass_on_pass op cooldown [x] _ Hret2) as [Hr2 _].
    rewrite Hr2, Hw, Hclean. reflexivity.
Qed.

End QuietPasses.

Section ScriptPasses.
Context {W : Type} `{Provider W}.

Lemma makesakeys_op_quiet (project_id : string) (sa : Makesakeys.sa_info) (w : W) :
  forallb within_pass (trace (Makesakeys.create_key_for project_id sa w)) = true.
Proof. run_create_key; reflexivity. Qed.

Lemma factory_create_op_quiet (project_id sa_name : string) (w : W) :
  forallb within_pass (trace (Factory.create_key_for project_id sa_name w)) = true.
Proof.
  unfold Factory.create_key_for.
  destruct (PyStr.int _) as [number|]; [|reflexivity].
  run_create_key; reflexivity.
Qed.

Lemma makesakeys_pass_returns (project_id : string) (queue : list Makesakeys.sa_info) (w : W) :
  pass_returns (Makesakeys.create_key_for project_id) queue w.
Proof. apply pass_returns_of_returns, create_key_for_returns. Qed.

Lemma factory_pass_returns (project_id : string) (queue : list string) :
  Forall numbered queue ->
  forall w : W, pass_returns (Factory.create_key_for project_id) queue w.
Proof.
  induction 1 as [|sa_name rest [number Hnumber] Hrest IH]; intros w; [exact I|].
  split; [|apply IH].
  rewrite (factory_op_result project_id sa_name number w Hnumber). eexists. reflexivity.
Qed.

Lemma numbered_name_is_numbered (prefix : string) (i : nat) :
  numbered (numbered_name prefix i).
Proof.
  exists i. rewrite numbered_name_last_field. apply int_fmt_03d.
Qed.

(** The queue of step 3 holds numbered names only. *)
Lemma step3_queue_is_numbered (prefix : string) (total : Z) :
  Forall numbered
    (PyStr.sorted String.leb (elements (Factory.target_sa_names prefix total))).
Proof.
  apply Forall_forall. intros sa_name Hin.
  rewrite <- (sorted_perm String.leb) in Hin.
  apply elem_of_elements, target_sa_names_elem in Hin as (i & _ & ->).
  apply numbered_name_is_numbered.
Qed.

End ScriptPasses.

(** C1.  The key creation loops of makesakeys.py and of step 3 of
    serviceaccountfactory.py, on a queue whose operations return (every
    queue of makesakeys.py, every queue of numbered names in the factory,
    and the queue of step 3 is one): the failure queue of a pass holds
    exactly the items whose operation returned failure; when it is empty
    the run ends after the message; otherwise the first pass is followed by
    the message, a sleep of 10 seconds and the run of the loop on exactly
    that queue, in the world the pass left, and so on until a pass leaves
    no failure.  When the pass leaves one item and that item succeeds on
    its second attempt, the second pass leaves no failure and the run ends
    after two passes. *)
Theorem retry_queue_converges {W} `{Provider W} (project_id : string) :
  retry_queue_contract (Makesakeys.create_key_for project_id)
    (fun fuel => Makesakeys.main_create_keys fuel project_id)
  /\ retry_queue_contract (Factory.create_key_for project_id)
       (fun fuel => Factory.main_create_keys fuel project_id)
  /\ (forall queue (w : W),
        pass_returns (Makesakeys.create_key_for project_id) queue w)
  /\ (forall queue (w : W),
        Forall numbered queue ->
        pass_returns (Factory.create_key_for project_id) queue w)
  /\ (forall prefix total,
        Forall numbered
          (PyStr.sorted String.leb (elements (Factory.target_sa_names prefix total)))).
Proof.
  split; [|split; [|split; [|split]]].
  - apply (retry_queue_contract_holds (Makesakeys.create_key_for project_id) (Some 10%Q)).
    apply makesakeys_op_quiet.
  - apply (retry_queue_contract_holds (Factory.create_key_for project_id) (Some 10%Q)).
    apply factory_create_op_quiet.
  - apply makesakeys_pass_returns.
  - intros queue w Hq. now apply factory_pass_returns.
  - apply step3_queue_is_numbered.
Qed.

Lemma three_names_numbered : Forall numbered three_names.
Proof. repeat constructor; eexists; reflexivity. Qed.

Lemma retry_queue_converges_witness :
  failed_items (Makesakeys.create_key_for "p") three_accounts true
  = [discovered "p" "sa-002"]
  /\ result (Makesakeys.main_create_keys 2 "p" three_accounts true) = Some (inr 2)
  /\ failed_items (Factory.create_key_for "p") three_names true = ["sa-002"]
  /\ result (Factory.main_create_keys 2 "p" three_names true) = Some (inr 2).
Proof.
  destruct (retry_queue_converges (W := bool) "p") as (Hm & Hf & Hmr & Hfr & _).
  assert (Hmf : failed_items (Makesakeys.create_key_for "p") three_accounts true
                = [discovered "p" "sa-002"]) by reflexivity.
  assert (Hff : failed_items (Factory.create_key_for "p") three_names true = ["sa-002"])
    by reflexivity.
  split; [exact Hmf|]. split; [|split; [exact Hff|]].
  - destruct (Hm three_accounts true (Hmr three_accounts true)) as [_ Hconv].
    exact (proj2 (Hconv (discovered "p" "sa-002") 0 Hmf eq_refl)).
  - destruct (Hf three_names true (Hfr three_names true three_names_numbered)) as [_ Hconv].
    exact (proj2 (Hconv "sa-002" 0 Hff eq_refl)).
Defined.

(** * The pauses of the loops *)

Lemma pauses_app (d : Q) (t1 t2 : list event) :
  pauses d (t1 ++ t2) = pauses d t1 + pauses d t2.
Proof. unfold pauses. now rewrite sleeps_app, List.filter_app, length_app. Qed.

Lemma no_pause (d : Q) (t : list event) :
  Forall (fun d' => d' <> d) (sleeps t) -> pauses d t = 0.
Proof.
  unfold pauses. induction (sleeps t) as [|d' l IH]; intros Hall; [reflexivity|].
  apply Forall_cons in Hall as [Hd Hl]. cbn [List.filter].
  rewrite bool_decide_false by exact Hd. now apply IH.
Qed.

Section PausesOfDeletion.
Context {W : Type} `{Provider W}.

Lemma delete_each_sleeps (key_names : list string) :
  forall count (w : W),
    Forall (fun d => d = 1 # 10)
      (sleeps (trace (Removesakeys.delete_each key_names count w))).
Proof.
  induction key_names as [|key_name rest IH]; intros count w; [constructor|].
  rewrite delete_each_turn.
  destruct (iam_delete_service_account_key key_name w) as [[e|u] w1]; [constructor|].
  cbv zeta. run_mk. rewrite sleeps_app. apply Forall_app. split; [|apply IH].
  repeat constructor.
Qed.

Lemma list_then_delete_sleeps (sa_email : string) (w : W) :
  Forall (fun d => d = 1 # 10)
    (sleeps (trace (Removesakeys.list_then_delete sa_email w))).
Proof.
  rewrite list_then_delete_turn. cbv zeta.
  destruct (iam_list_service_account_keys _ w) as [[e|[|k ks]] w1];
    [constructor | constructor |].
  run_mk. rewrite (sleeps_app [_]). apply (delete_each_sleeps (k :: ks)).
Qed.

Lemma removesakeys_attempts_sleeps (sa_email : string) (retries : nat) (bf : Q)
    (remaining : nat) :
  forall attempt (w : W),
    Forall (attempt_pause (1 # 10) bf attempt remaining)
      (sleeps (trace (Removesakeys.attempts sa_email retries bf remaining attempt w))).
Proof.
  induction remaining as [|remaining IH]; intros attempt w; [constructor|].
  rewrite attempts_turn. cbv zeta.
  assert (Hbody : Forall (attempt_pause (1 # 10) bf attempt (S remaining))
                    (sleeps (trace (Removesakeys.list_then_delete sa_email w)))).
  { eapply Forall_impl; [apply list_then_delete_sleeps|]. intros d ->. now left. }
  destruct (result (Removesakeys.list_then_delete sa_email w)) as [e|n]; [|exact Hbody].
  destruct (Removesakeys.is_transient (class e)); [destruct (Qle_bool 0 _)|]; run_mk.
  - rewrite !sleeps_app. apply Forall_app. split; [exact Hbody|].
    apply Forall_app. split.
    + cbn. apply Forall_cons. split; [|constructor].
      right. exists attempt. split; [lia | reflexivity].
    + eapply Forall_impl; [apply IH|]. intros d [->|(k & Hk & ->)]; [now left|].
      right. exists k. split; [lia | reflexivity].
  - rewrite sleeps_app. apply Forall_app. split; [exact Hbody | constructor].
  - destruct (is_GoogleAPICallError (class e)); run_mk; [|exact Hbody].
    rewrite sleeps_app. apply Forall_app. split; [exact Hbody | constructor].
Qed.

Lemma factory_delete_each_sleeps (key_names : list string) :
  forall w : W,
    Forall (fun d => d = 1 # 20) (sleeps (trace (Factory.delete_each key_names w))).
Proof.
  induction key_names as [|key_name rest IH]; intros w; [constructor|].
  rewrite factory_delete_each_turn.
  destruct (iam_delete_service_account_key key_name w) as [[e|u] w1]; [constructor|].
  cbv zeta. run_mk. rewrite sleeps_app. apply Forall_app. split; [|apply IH].
  repeat constructor.
Qed.

Lemma factory_list_then_delete_sleeps (sa_full_name : string) (w : W) :
  Forall (fun d => d = 1 # 20) (sleeps (trace (Factory.list_then_delete sa_full_name w))).
Proof.
  rewrite factory_list_then_delete_turn.
  destruct (iam_list_service_account_keys _ w) as [[e|[|k ks]] w1];
    [constructor | constructor |].
  cbv zeta. run_mk. rewrite (sleeps_app [_]). apply (factory_delete_each_sleeps (k :: ks)).
Qed.

Lemma factory_attempts_sleeps (sa_email sa_full_name : string) (retries : nat) (bf : Q)
    (remaining : nat) :
  forall attempt (w : W),
    Forall (attempt_pause (1 # 20) bf attempt remaining)
      (sleeps (trace (Factory.attempts sa_email sa_full_name retries bf
                        remaining attempt w))).
Proof.
  induction remaining as [|remaining IH]; intros attempt w; [constructor|].
  rewrite factory_attempts_turn. cbv zeta.
  assert (Hbody : Forall (attempt_pause (1 # 20) bf attempt (S remaining))
                    (sleeps (trace (Factory.list_then_delete sa_full_name w)))).
  { eapply Forall_impl; [apply factory_list_then_delete_sleeps|]. intros d ->. now left. }
  destruct (result (Factory.list_then_delete sa_full_name w)) as [e|b]; [|exact Hbody].
  destruct (Factory.is_transient (class e)); [destruct (Qle_bool 0 _)|]; run_mk.
  - rewrite !sleeps_app. apply Forall_app. split; [exact Hbody|].
    apply Forall_app. split.
    + cbn. apply Forall_cons. split; [|constructor].
      right. exists attempt. split; [lia | reflexivity].
    + eapply Forall_impl; [apply IH|]. intros d [->|(k & Hk & ->)]; [now left|].
      right. exists k. split; [lia | reflexivity].
  - rewrite sleeps_app. apply Forall_app. split; [exact Hbody | constructor].
  - rewrite sleeps_app. apply Forall_app. split; [exact Hbody | constructor].
Qed.

(** With the defaults of the scripts no pause of list-and-delete lasts 0.2
    or 10 seconds. *)
Lemma removesakeys_default_pauses (sa_email : string) (w : W) :
  Forall (fun d => d <> 1 # 5 /\ d <> 10%Q)
    (sleeps (trace (Removesakeys.delete_keys_for_account sa_email
                      Removesakeys.default_retries Removesakeys.default_backoff_factor w))).
Proof.
  eapply Forall_impl; [apply removesakeys_attempts_sleeps|].
  intros d [->|(k & Hk & ->)]; [split; discriminate|].
  destruct k as [|[|[|k]]]; [| | |unfold Removesakeys.default_retries in Hk; lia];
    split; intros Heq; vm_compute in Heq; discriminate Heq.
Qed.

Lemma factory_default_pauses (project_id sa_email : string) (w : W) :
  Forall (fun d : Q => d <> 10%Q) (sleeps (trace (Factory.clear_keys_for project_id sa_email w))).
Proof.
  unfold Factory.clear_keys_for, Factory.delete_all_user_keys_with_retry.
  eapply Forall_impl; [apply factory_attempts_sleeps|].
  intros d [->|(k & Hk & ->)]; [discriminate|].
  destruct k as [|[|[|k]]]; [| | |unfold Factory.default_retries in Hk; lia];
    intros Heq; vm_compute in Heq; discriminate Heq.
Qed.

Lemma factory_attempts_quiet (sa_email sa_full_name : string) (retries : nat) (bf : Q)
    (remaining : nat) :
  forall attempt (w : W),
    forallb within_pass
      (trace (Factory.attempts sa_email sa_full_name retries bf remaining attempt w)) = true.
Proof.
  induction remaining as [|remaining IH]; intros attempt w; [reflexivity|].
  rewrite factory_attempts_turn. cbv zeta.
  assert (Hbody : forallb within_pass (trace (Factory.list_then_delete sa_full_name w))
                  = true).
  { rewrite factory_list_then_delete_turn.
    destruct (iam_list_service_account_keys _ w) as [[e|[|k ks]] w1];
      [reflexivity | reflexivity |].
    cbv zeta. run_mk. apply (forallb_app' _ [_]); [reflexivity|].
    generalize (k :: ks) w1. clear. intros key_names.
    induction key_names as [|key_name rest IH]; intros w; [reflexivity|].
    rewrite factory_delete_each_turn.
    destruct (iam_delete_service_account_key key_name w) as [[e|u] w1]; [reflexivity|].
    cbv zeta. run_mk. apply (forallb_app' _ [_; _]); [reflexivity | apply IH]. }
  destruct (result (Factory.list_then_delete sa_full_name w)) as [e|b]; [|exact Hbody].
  destruct (Factory.is_transient (class e)); [destruct (Qle_bool 0 _)|]; run_mk.
  - apply forallb_app'; [exact Hbody|].
    apply (forallb_app' _ [_; _]); [reflexivity | apply IH].
  - now apply forallb_app'.
  - now apply forallb_app'.
Qed.

Lemma factory_clear_op_quiet (project_id sa_email : string) (w : W) :
  forallb within_pass (trace (Factory.clear_keys_for project_id sa_email w)) = true.
Proof.
  unfold Factory.clear_keys_for, Factory.delete_all_user_keys_with_retry.
  apply factory_attempts_quiet.
Qed.

Lemma ops_trace_no_cooldown (project_id : string) (queue : list string) :
  forall w : W,
    Forall (fun d : Q => d <> 10%Q)
      (sleeps (ops_trace (Factory.clear_keys_for project_id) queue w)).
Proof.
  induction queue as [|item rest IH]; intros w; [constructor|].
  cbn [ops_trace]. rewrite sleeps_app. apply Forall_app.
  split; [apply factory_default_pauses | apply IH].
Qed.

Lemma main_delete_loop_pauses (target_accounts : list ServiceAccount) :
  forall (total0 : Z) (w : W) (total : Z),
    let run := Removesakeys.main_delete_loop target_accounts total0 w in
    result run = inr total ->
    pauses (1 # 5) (trace run) = length target_accounts
    /\ pauses 10 (trace run) = 0.
Proof.
  induction target_accounts as [|a rest IH]; intros total0 w total; cbv zeta.
  - intros _. split; reflexivity.
  - cbn [Removesakeys.main_delete_loop].
    pose proof (removesakeys_default_pauses (email a) w) as Hp.
    destruct (result (Removesakeys.delete_keys_for_account (email a)
                        Removesakeys.default_retries Removesakeys.default_backoff_factor w))
      as [e|n] eqn:Hres.
    { rewrite (run_bind_ok_inl _ _ _ _ Hres). run_mk. discriminate. }
    rewrite (result_bind_ok_inr _ _ _ _ Hres), (trace_bind_ok_inr _ _ _ _ Hres).
    rewrite !result_bind, !trace_bind. intros Hr.
    apply IH in Hr as [IH5 IH10]. rewrite !pauses_app, IH5, IH10.
    assert (Hmsg : forall (d : Q) (w0 : W),
               pauses d (trace ((if (0 <? n)%Z
                                 then print (KeysDeleted (email a) n)
                                 else if (n =? 0)%Z then print (NoKeysFound (email a))
                                      else ret tt) w0)) = 0).
    { intros d w0. destruct (0 <? n)%Z; [reflexivity|]. destruct (n =? 0)%Z; reflexivity. }
    rewrite !Hmsg. unfold sleep at 1 2, emit at 1 2. run_mk.
    rewrite (no_pause (1 # 5)), (no_pause 10).
    + split; reflexivity.
    + eapply Forall_impl; [exact Hp|]. now intros d [_ Hd].
    + eapply Forall_impl; [exact Hp|]. now intros d [Hd _].
Qed.

(** One account of the deletion loop: its list-and-delete, at most one
    message, the pause of 0.2 seconds, then the accounts that follow. *)
Lemma main_delete_loop_turn (a : ServiceAccount) (rest : list ServiceAccount)
    (total0 : Z) (w : W) (n : Z) :
  let one := Removesakeys.delete_keys_for_account (email a)
               Removesakeys.default_retries Removesakeys.default_backoff_factor w in
  result one = inr n ->
  exists (messages : list event) (total1 : Z),
    sleeps messages = []
    /\ trace (Removesakeys.main_delete_loop (a :: rest) total0 w)
       = trace one ++ messages ++ [Sleep (1 # 5)]
         ++ trace (Removesakeys.main_delete_loop rest total1 (world one)).
Proof.
  cbv zeta. intros Hres. cbn [Removesakeys.main_delete_loop].
  rewrite (trace_bind_ok_inr _ _ _ _ Hres), !trace_bind.
  destruct (0 <? n)%Z; [|destruct (n =? 0)%Z];
    (eexists _, _; split; [|reflexivity]); reflexivity.
Qed.

End PausesOfDeletion.


